(** * py-auto-api: the automation execution engine

    A shallow embedding of the backend services that drive a browser
    session through the ordered steps of a task:

    - [app/schemas/__init__.py], [app/models/database.py]: the enums, the
      rows of the record store and the mapping of its classes;
    - [app/services/task_service.py]: [TaskService];
    - [app/services/browser_manager.py]: [BrowserManager], [BrowserWrapper];
    - [app/services/automation_service.py]: [AutomationService];
    - [app/services/execution_service.py]: [ExecutionService];
    - [app/api/routes/tasks.py]: the routes that start a run.

    The services are [async] methods that mutate a database session and
    the dictionaries of their instance and that call Playwright.  They are
    embedded in a state-and-exception monad over a [World]; what Playwright
    answers to each call is an oracle over the history of the run, and every
    call, every call of the execution log and every sleep is appended to a
    trace.

    The services reach the store through the mapped classes of
    [app/models/database.py].  Using a mapped class configures the mappers
    first, and that fails for a [relationship] between two classes that no
    [ForeignKey] links: the services are therefore parametrised by the
    mapping ([Metadata]), [Base] being the one the file declares. *)

From Stdlib Require Import ZArith QArith Ascii String List.
From stdpp Require Import gmap strings list pretty.

Local Open Scope string_scope.
Local Open Scope Z_scope.

(** ** Schemas: [app/schemas/__init__.py] *)

Inductive TaskStatus := PENDING | RUNNING | COMPLETED | FAILED | CANCELLED.

Inductive ActionType :=
| CLICK | TYPE | SCROLL | WAIT | NAVIGATE | SCREENSHOT
| HOVER | DRAG_DROP | SELECT | UPLOAD.

Global Instance TaskStatus_eq_dec : EqDecision TaskStatus.
Proof. solve_decision. Defined.

Global Instance ActionType_eq_dec : EqDecision ActionType.
Proof. solve_decision. Defined.

(** The value of a [str, Enum] member, which is also what [str.format]
    prints for it in the messages below. *)
Definition ActionType_value (a : ActionType) : string :=
  match a with
  | CLICK => "click" | TYPE => "type" | SCROLL => "scroll" | WAIT => "wait"
  | NAVIGATE => "navigate" | SCREENSHOT => "screenshot" | HOVER => "hover"
  | DRAG_DROP => "drag_drop" | SELECT => "select" | UPLOAD => "upload"
  end.

(** A value of a JSON column ([Dict[str, Any]]).  Numbers are rationals:
    the code only hands them on, or divides an integer by 1000.  Lists and
    nested objects are never inspected and are kept opaque. *)
Inductive Json :=
| JNull
| JBool (b : bool)
| JNum (q : Q)
| JStr (s : string)
| JComposite.

(** [BrowserConfig] (pydantic model). *)
Record BrowserConfig := mkBrowserConfig {
  cfg_browser_type : string;
  cfg_headless : bool;
  cfg_window_size : string;
  cfg_user_agent : option string;
  cfg_proxy_url : option string;
  cfg_timeout : Z;
}.

(** ** Rows of the record store: [app/models/database.py] *)

Module Task.
Record t := mk {
  id : Z;
  name : string;
  url : string;
  status : TaskStatus;
  updated_at : option Z;
  started_at : option Z;
  completed_at : option Z;
  error_message : option string;
  execution_count : Z;
  success_count : Z;
  failure_count : Z;
}.
End Task.

Module AutomationStep.
Record t := mk {
  id : Z;
  task_id : Z;
  step_name : string;
  step_order : Z;
  action_type : ActionType;
  target_selector : option string;
  target_text : option string;
  target_url : option string;
  parameters : option (gmap string Json);
  wait_time : Z;   (* milliseconds *)
  timeout : Z;     (* seconds *)
}.
End AutomationStep.

(** The rows of [automation_steps] are those [create_step] stores: their
    [wait_time] and [timeout] are the integers of the request
    ([AutomationStepCreate]).  A row whose integer columns were overwritten
    with [NULL] through the raw dictionary of [update_step] is not
    represented. *)

Module BrowserSession.
Record t := mk {
  session_id : string;
  task_id : option Z;
  browser_type : string;
  window_size : string;
  user_agent : option string;
  proxy_url : option string;
  is_active : bool;
  last_activity : option Z;
}.
End BrowserSession.

(** ** Exceptions

    The instances of [Exception] the services raise and catch.  The
    cancellation of a coroutine ([asyncio.CancelledError], a
    [BaseException], which [except Exception] lets through) is not
    represented: a computation here runs until it returns or raises. *)

Inductive Exn :=
| ValueError (msg : string)
| AttributeError (msg : string)
| TypeError (msg : string)
| IndexError (msg : string)
| KeyError (msg : string)
| OverflowError (msg : string)
| SQLAlchemyError (msg : string)
| PlaywrightError (msg : string).

(** [str(e)] *)
Definition str_exn (e : Exn) : string :=
  match e with
  | ValueError m | AttributeError m | TypeError m
  | IndexError m | KeyError m | OverflowError m | SQLAlchemyError m
  | PlaywrightError m => m
  end.

(** ** The browser-control library and the trace of a run *)

(** The calls the services make into Playwright (and [uuid.uuid4]).  A
    browser, context or page object is named by the text the library
    answered when it was created. *)
Inductive Call :=
| PlaywrightStart
| PlaywrightStop
| ChromiumLaunch (headless : bool) (args : list string)
| NewContext (browser : string) (width height : Z)
             (user_agent proxy : option string)
| NewPage (context : string)
| Uuid4
| PageClose (page : string)
| ContextClose (context : string)
| BrowserClose (browser : string)
| PageGoto (page url : string) (timeout_ms : Z)
| PageUrl (page : string)
| PageTitle (page : string)
| WaitForSelector (page selector : string) (timeout_ms : Z)
| ElementClick (element : string)
| ElementFill (element text : string)
| PageEvaluate (page script : string)
| PageScreenshot (page : string) (full_page : bool).

Inductive Reply :=
| Returned (value : string)
| Raised (msg : string).

(** What a handler of [execute_step] returns (a [dict] in the source). *)
Inductive ActionResult :=
| ClickResult (selector : string)
| TypeResult (selector text : string)
| ScrollResult
| WaitResult (duration : Json)
| NavigateResult (url : string)
| ScreenshotResult (screenshot_size : nat).

Inductive Event :=
| EvCall (c : Call) (r : Reply)
| EvLog (task_id step_id : Z) (level message : string)
        (details : option ActionResult)
| EvSleep (seconds : Q).

(** The library's answer to a call, given everything that happened so far. *)
Definition Oracle := list Event -> Call -> Reply.

(** ** In-memory records of the service instances *)

(** An entry of [BrowserManager.active_browsers]. *)
Record Session := mkSession {
  s_browser : string;
  s_context : string;
  s_page : string;
  s_browser_type : string;
  s_headless : bool;
  s_window_size : string;
  s_user_agent : option string;
  s_proxy_url : option string;
  s_created_at : Z;
}.

(** An entry of [ExecutionService.active_executions] for a single task. *)
Record Execution := mkExecution {
  ex_task_id : Z;
  ex_status : string;
  ex_start_time : Z;
  ex_current_step : Z;
  ex_total_steps : Z;
}.

Record World := mkWorld {
  tasks : gmap Z Task.t;
  automation_steps : list AutomationStep.t;
  browser_sessions : list BrowserSession.t;
  active_browsers : gmap string Session;
  playwright : bool;
  active_executions : gmap string Execution;
  clock : Z;
  trace : list Event;
}.

Definition set_tasks (f : gmap Z Task.t -> gmap Z Task.t) (w : World) : World :=
  mkWorld (f (tasks w)) (automation_steps w) (browser_sessions w)
          (active_browsers w) (playwright w) (active_executions w)
          (clock w) (trace w).

Definition set_automation_steps
  (f : list AutomationStep.t -> list AutomationStep.t) (w : World) : World :=
  mkWorld (tasks w) (f (automation_steps w)) (browser_sessions w)
          (active_browsers w) (playwright w) (active_executions w)
          (clock w) (trace w).

Definition set_browser_sessions
  (f : list BrowserSession.t -> list BrowserSession.t) (w : World) : World :=
  mkWorld (tasks w) (automation_steps w) (f (browser_sessions w))
          (active_browsers w) (playwright w) (active_executions w)
          (clock w) (trace w).

Definition set_active_browsers
  (f : gmap string Session -> gmap string Session) (w : World) : World :=
  mkWorld (tasks w) (automation_steps w) (browser_sessions w)
          (f (active_browsers w)) (playwright w) (active_executions w)
          (clock w) (trace w).

Definition set_playwright (b : bool) (w : World) : World :=
  mkWorld (tasks w) (automation_steps w) (browser_sessions w)
          (active_browsers w) b (active_executions w) (clock w) (trace w).

Definition set_active_executions
  (f : gmap string Execution -> gmap string Execution) (w : World) : World :=
  mkWorld (tasks w) (automation_steps w) (browser_sessions w)
          (active_browsers w) (playwright w) (f (active_executions w))
          (clock w) (trace w).

Definition emit (e : Event) (w : World) : World :=
  mkWorld (tasks w) (automation_steps w) (browser_sessions w)
          (active_browsers w) (playwright w) (active_executions w)
          (clock w) (trace w ++ [e]).

(** ** The monad of the services

    A Python exception keeps every effect made before it was raised, so a
    computation returns the world together with its outcome. *)

Inductive Result (A : Type) :=
| Ok (a : A)
| Raise (e : Exn).
Arguments Ok {A} a.
Arguments Raise {A} e.

Definition M (A : Type) : Type := World -> Result A * World.

Global Instance M_ret : MRet M := fun A a w => (Ok a, w).

Global Instance M_bind : MBind M := fun A B k m w =>
  match m w with
  | (Ok a, w') => k a w'
  | (Raise e, w') => (Raise e, w')
  end.

Definition raise {A} (e : Exn) : M A := fun w => (Raise e, w).

Definition get_world : M World := fun w => (Ok w, w).

Definition modify (f : World -> World) : M unit := fun w => (Ok tt, f w).

(** [try: m  except Exception as e: h e] *)
Definition try_except {A} (m : M A) (h : Exn -> M A) : M A := fun w =>
  match m w with
  | (Ok a, w') => (Ok a, w')
  | (Raise e, w') => h e w'
  end.

(** [try: m  finally: fin] *)
Definition try_finally {A} (m : M A) (fin : M unit) : M A := fun w =>
  let '(r, w') := m w in
  match fin w' with
  | (Ok _, w'') => (r, w'')
  | (Raise e, w'') => (Raise e, w'')
  end.

(** [datetime.now()] *)
Definition now : M Z := fun w => (Ok (clock w), w).

(** Python truthiness of an [Optional[str]]: [None] and the empty string
    are false. *)
Definition truthy (s : option string) : bool :=
  match s with
  | None | Some "" => false
  | Some _ => true
  end.

(** A call into the library: the oracle answers from the history, the
    call and its answer are appended to the trace, and a raised error
    becomes a Python exception. *)
Definition call (lib : Oracle) (c : Call) : M string := fun w =>
  match lib (trace w) c with
  | Returned v => (Ok v, emit (EvCall c (Returned v)) w)
  | Raised m => (Raise (PlaywrightError m), emit (EvCall c (Raised m)) w)
  end.

(** [await asyncio.sleep(delay)].  [sleep] compares [delay <= 0] first, so
    a delay that is not a number raises [TypeError] before anything is
    suspended (the message names the type of the delay; a list or an
    object is reported as a [dict] here); [bool] is a subclass of [int].
    [EvSleep q] records a sleep requested for [q] seconds. *)
Definition asyncio_sleep (delay : Json) : M unit :=
  match delay with
  | JNum q => modify (emit (EvSleep q))
  | JBool b => modify (emit (EvSleep (if b then 1 else 0)%Q))
  | JNull =>
      raise (TypeError
        "'<=' not supported between instances of 'NoneType' and 'int'")
  | JStr _ =>
      raise (TypeError
        "'<=' not supported between instances of 'str' and 'int'")
  | JComposite =>
      raise (TypeError
        "'<=' not supported between instances of 'dict' and 'int'")
  end.

(** ** The mapping of the classes: [app/models/database.py] *)

(** The five classes declared on [Base]. *)
Inductive Mapped :=
| MTask | MAutomationStep | MExecutionLog | MBrowserSession | MUserSession.

Global Instance Mapped_eq_dec : EqDecision Mapped.
Proof. solve_decision. Defined.

(** What a module of mapped classes declares beside the columns: the
    columns that carry a [ForeignKey] (the class of the column, the class
    it references) and the [relationship]s (the class, its target). *)
Record Metadata := mkMetadata {
  foreign_keys : list (Mapped * Mapped);
  relationships : list (Mapped * Mapped);
}.

(** The declarations of the file: no column has a [ForeignKey]
    ([AutomationStep.task_id] is a plain [Integer]), and
    [AutomationStep.task] and [Task.steps] are [relationship]s of each
    other. *)
Definition Base : Metadata :=
  mkMetadata [] [(MAutomationStep, MTask); (MTask, MAutomationStep)].

(** [Base] with [ForeignKey("tasks.id")] on [AutomationStep.task_id]: a
    mapping whose relationships have a join condition. *)
Definition Base_with_foreign_key : Metadata :=
  mkMetadata [(MAutomationStep, MTask)] (relationships Base).

(** A relationship has a join condition when a foreign key links its two
    classes, in either direction. *)
Definition joined (metadata : Metadata) (r : Mapped * Mapped) : bool :=
  existsb (fun fk => bool_decide (fk = r) || bool_decide (fk = (r.2, r.1)))
          (foreign_keys metadata).

(** The mappers configure when every relationship has a join condition. *)
Definition configures (metadata : Metadata) : bool :=
  forallb (joined metadata) (relationships metadata).

(** The error of a mapping that does not configure ([NoForeignKeysError]
    the first time, [InvalidRequestError] from then on; the text is
    abridged). *)
Definition mapper_error : Exn :=
  SQLAlchemyError "One or more mappers failed to initialize".

(** The integers of an [INTEGER] column or parameter of SQLite are signed
    64-bit numbers; the driver refuses any other [int]. *)
Definition fits_integer (z : Z) : bool :=
  (- 2 ^ 63 <=? z) && (z <? 2 ^ 63).

(** ** The session of the store ([self.db]) *)

Module Db.

(** Binding an [int] to a statement. *)
Definition bind (z : Z) : M unit :=
  if fits_integer z then mret tt
  else raise (OverflowError
                "Python int too large to convert to SQLite INTEGER").

Section WithModels.
Variable models : Metadata.

(** [self.db.query(Class)] and [Class(...)]: the first use of a mapped
    class configures the mappers of all of them. *)
Definition query : M unit :=
  if configures models then mret tt else raise mapper_error.

Definition construct : M unit := query.

End WithModels.
End Db.

(** ** Settings: [app/core/config.py] *)

Definition BROWSER_HEADLESS : bool := true.
Definition BROWSER_TIMEOUT : Z := 30.

(** ** app/services/task_service.py *)

Module TaskService.
Section WithModels.
Variable models : Metadata.

(** [get_task]: the row is copied into a [TaskResponse]; the caller
    receives a value that is no longer attached to the store.  (The
    handler logs the exception and raises it again.) *)
Definition get_task (task_id : Z) : M (option Task.t) :=
  Db.query models;;
  Db.bind task_id;;
  w ← get_world; mret (tasks w !! task_id).

(** [update_task_status]: the handler rolls back and returns; nothing
    was written before the exception. *)
Definition update_task_status
  (task_id : Z) (status : TaskStatus) (error_message : option string)
  : M unit :=
  try_except
    (Db.query models;;
     Db.bind task_id;;
     w ← get_world;
     match tasks w !! task_id with
     | None => mret tt
     | Some task =>
         let old_status := Task.status task in
         let t := clock w in
         let started_at :=
           if bool_decide (status = RUNNING)
              && negb (bool_decide (old_status = RUNNING))
           then Some t else Task.started_at task in
         let completed_at :=
           if bool_decide (status = RUNNING)
              && negb (bool_decide (old_status = RUNNING))
           then Task.completed_at task
           else if bool_decide (status ∈ [COMPLETED; FAILED; CANCELLED])
           then Some t else Task.completed_at task in
         let error_message' :=
           if truthy error_message then error_message
           else Task.error_message task in
         modify (set_tasks (insert task_id
           (Task.mk (Task.id task) (Task.name task) (Task.url task)
                    status (Some t) started_at completed_at error_message'
                    (Task.execution_count task) (Task.success_count task)
                    (Task.failure_count task))))
     end)
    (fun _ => mret tt).

(** [stop_task]: any exception becomes [False]. *)
Definition stop_task (task_id : Z) : M bool :=
  try_except
    (Db.query models;;
     Db.bind task_id;;
     w ← get_world;
     match tasks w !! task_id with
     | None => mret false
     | Some task =>
         if bool_decide (Task.status task ∈ [RUNNING; PENDING])
         then update_task_status task_id CANCELLED (Some "用户手动停止");;
              mret true
         else mret false
     end)
    (fun _ => mret false).

End WithModels.
End TaskService.

(** ** app/services/browser_manager.py *)

(** [s.split(sep)] for a one-character separator. *)
Fixpoint split_on (sep : ascii) (s : string) : list string :=
  match s with
  | EmptyString => [EmptyString]
  | String c s' =>
      if Ascii.eqb c sep then EmptyString :: split_on sep s'
      else match split_on sep s' with
           | [] => [String c EmptyString]
           | p :: ps => String c p :: ps
           end
  end.

Definition digit_of (c : ascii) : option Z :=
  let n := Z.of_N (N_of_ascii c) in
  if (48 <=? n) && (n <=? 57) then Some (n - 48) else None.

Fixpoint parse_digits (s : string) (acc : Z) : option Z :=
  match s with
  | EmptyString => Some acc
  | String c s' =>
      match digit_of c with
      | Some d => parse_digits s' (10 * acc + d)
      | None => None
      end
  end.

(** [int(s)] on a decimal literal with an optional sign.  (Python also
    strips surrounding blanks and accepts underscores between digits; a
    window size is not written that way.) *)
Definition py_int (s : string) : M Z :=
  let r :=
    match s with
    | EmptyString => None
    | String "-" (String _ _ as ds) => Z.opp <$> parse_digits ds 0
    | String "+" (String _ _ as ds) => parse_digits ds 0
    | _ => parse_digits s 0
    end in
  match r with
  | Some n => mret n
  | None =>
      raise (ValueError
        ("invalid literal for int() with base 10: '" ++ s ++ "'"))
  end.

(** [l[i]] *)
Definition py_index (l : list string) (i : nat) : M string :=
  match l !! i with
  | Some x => mret x
  | None => raise (IndexError "list index out of range")
  end.

(** A [BrowserWrapper] object. *)
Record BrowserWrapper := mkBrowserWrapper {
  bw_session_id : string;
  bw_browser : string;
  bw_context : string;
  bw_page : string;
  bw_url : string;
  bw_title : string;
}.

(** What [launch_browser] returns. *)
Record SessionInfo := mkSessionInfo {
  si_session_id : string;
  si_browser_type : string;
  si_control_url : string;
}.

Module BrowserWrapperOps.
Section WithLibrary.
Variable lib : Oracle.

Definition goto (self : BrowserWrapper) (url : string) : M BrowserWrapper :=
  _ ← call lib (PageGoto (bw_page self) url (BROWSER_TIMEOUT * 1000));
  u ← call lib (PageUrl (bw_page self));
  t ← call lib (PageTitle (bw_page self));
  mret (mkBrowserWrapper (bw_session_id self) (bw_browser self)
          (bw_context self) (bw_page self) u t).

Definition find_element (self : BrowserWrapper) (selector : string)
  (timeout : Z) : M string :=
  call lib (WaitForSelector (bw_page self) selector (timeout * 1000)).

(** The default of the [timeout] parameter of [find_element]. *)
Definition find_element_default_timeout : Z := 30.

Definition take_screenshot (self : BrowserWrapper) (full_page : bool)
  : M string :=
  call lib (PageScreenshot (bw_page self) full_page).

End WithLibrary.
End BrowserWrapperOps.

Module BrowserManager.
Section WithLibrary.
Variable lib : Oracle.

Definition initialize : M unit :=
  w ← get_world;
  if playwright w then mret tt
  else _ ← call lib PlaywrightStart; modify (set_playwright true).

Definition launch_browser (config : option BrowserConfig) : M SessionInfo :=
  initialize;;
  (* the defaults, overridden by the fields of [config] that are not None *)
  let browser_type := from_option cfg_browser_type "chromium" config in
  let headless := from_option cfg_headless BROWSER_HEADLESS config in
  let window_size := from_option cfg_window_size "1920x1080" config in
  let user_agent := config ≫= cfg_user_agent in
  let proxy_url := config ≫= cfg_proxy_url in
  browser ← call lib (ChromiumLaunch headless
    (if headless then ["--no-sandbox"; "--disable-setuid-sandbox"] else []));
  let parts := split_on "x" window_size in
  width ← py_index parts 0 ≫= py_int;
  height ← py_index parts 1 ≫= py_int;
  context ← call lib (NewContext browser width height
    (if truthy user_agent then user_agent else None)
    (if truthy proxy_url then proxy_url else None));
  page ← call lib (NewPage context);
  session_id ← call lib Uuid4;
  t ← now;
  modify (set_active_browsers (insert session_id
    (mkSession browser context page browser_type headless window_size
               user_agent proxy_url t)));;
  mret (mkSessionInfo session_id browser_type
          ("ws://localhost:8000/ws/" ++ session_id)).

Definition get_browser (session_id : string) : M (option BrowserWrapper) :=
  w ← get_world;
  match active_browsers w !! session_id with
  | None => mret None
  | Some session =>
      mret (Some (mkBrowserWrapper session_id (s_browser session)
                    (s_context session) (s_page session) "" ""))
  end.

(** [close_session].  Every entry of [active_browsers] is written by
    [launch_browser] with its page, context and browser, so the three
    membership tests of the source hold for it. *)
Definition close_session (session_id : string) : M bool :=
  try_except
    (w ← get_world;
     match active_browsers w !! session_id with
     | None => mret false
     | Some session =>
         _ ← call lib (PageClose (s_page session));
         _ ← call lib (ContextClose (s_context session));
         _ ← call lib (BrowserClose (s_browser session));
         modify (set_active_browsers (delete session_id));;
         mret true
     end)
    (fun _ => mret false).

(** The loop of [close_all_sessions] over the snapshot of the ids. *)
Fixpoint close_sessions (session_ids : list string) : M unit :=
  match session_ids with
  | [] => mret tt
  | session_id :: rest => _ ← close_session session_id; close_sessions rest
  end.

(** [close_all_sessions].  [session_ids] stands for
    [list(self.active_browsers.keys())]: the ids in the order in which they
    were registered, an order the registry of this model does not keep. *)
Definition close_all_sessions (session_ids : list string) : M unit :=
  close_sessions session_ids;;
  w ← get_world;
  if playwright w
  then _ ← call lib PlaywrightStop; modify (set_playwright false)
  else mret tt.

End WithLibrary.
End BrowserManager.

(** ** app/services/automation_service.py *)

(** [AutomationStepCreate]: the request body of [create_step]. *)
Record AutomationStepCreate := mkAutomationStepCreate {
  c_task_id : Z;
  c_step_name : string;
  c_step_order : Z;
  c_action_type : ActionType;
  c_target_selector : option string;
  c_target_text : option string;
  c_target_url : option string;
  c_parameters : option (gmap string Json);
  c_wait_time : Z;
  c_timeout : Z;
}.

(** [query(AutomationStep).filter(task_id == ...)] *)
Definition steps_of_task (task_id : Z) (rows : list AutomationStep.t)
  : list AutomationStep.t :=
  filter (fun s => AutomationStep.task_id s = task_id) rows.

(** [... .order_by(AutomationStep.step_order).all()]: the rows in
    ascending [step_order]; rows with the same [step_order] (SQL leaves
    their order open) come in insertion order, as SQLite returns them. *)
Fixpoint insert_by_order (s : AutomationStep.t) (sorted : list AutomationStep.t)
  : list AutomationStep.t :=
  match sorted with
  | [] => [s]
  | x :: sorted' =>
      if AutomationStep.step_order s <=? AutomationStep.step_order x
      then s :: x :: sorted'
      else x :: insert_by_order s sorted'
  end.

Definition steps_by_order (task_id : Z) (rows : list AutomationStep.t)
  : list AutomationStep.t :=
  foldr insert_by_order [] (steps_of_task task_id rows).

(** The key the store gives to a new row of [automation_steps]. *)
Definition next_step_id (rows : list AutomationStep.t) : Z :=
  1 + foldr (fun s m => Z.max (AutomationStep.id s) m) 0 rows.

(** [TaskService.get_current_step] (app/services/task_service.py; it
    queries the table of the steps): for a running task, the name of the
    first step in ascending order among those of a non-negative order, or
    ["准备执行"] when there is none; any exception becomes [None]. *)
Definition get_current_step (models : Metadata) (task_id : Z)
  : M (option string) :=
  try_except
    (Db.query models;;
     Db.bind task_id;;
     w ← get_world;
     match tasks w !! task_id with
     | None => mret None
     | Some task =>
         if bool_decide (Task.status task = RUNNING)
         then
           Db.query models;;
           Db.bind task_id;;
           let next_step :=
             head (foldr insert_by_order []
                     (filter (fun s => AutomationStep.task_id s = task_id
                                       /\ 0 <= AutomationStep.step_order s)
                             (automation_steps w))) in
           mret (Some (match next_step with
                       | Some s => AutomationStep.step_name s
                       | None => "准备执行"
                       end))
         else mret None
     end)
    (fun _ => mret None).

(** [db.add(row); db.commit()] for a row of [browser_sessions]: [task_id]
    is declared [nullable=False] and [session_id] [unique=True]. *)
Definition add_browser_session (row : BrowserSession.t) : M unit :=
  match BrowserSession.task_id row with
  | None =>
      raise (SQLAlchemyError
               "NOT NULL constraint failed: browser_sessions.task_id")
  | Some task_id =>
      Db.bind task_id;;
      w ← get_world;
      if existsb (fun r => bool_decide (BrowserSession.session_id r
                                        = BrowserSession.session_id row))
                 (browser_sessions w)
      then raise (SQLAlchemyError
                    "UNIQUE constraint failed: browser_sessions.session_id")
      else modify (set_browser_sessions (fun rows => (rows ++ [row])%list))
  end.

(** Attribute access on an [Optional] object: [None.attr] raises. *)
Definition attr {A} (o : option A) (name : string) : M A :=
  match o with
  | Some x => mret x
  | None =>
      raise (AttributeError
        ("'NoneType' object has no attribute '" ++ name ++ "'"))
  end.

(** [if not field: raise ValueError(msg)], then the field's text. *)
Definition required (field : option string) (msg : string) : M string :=
  match field with
  | Some s => if truthy field then mret s else raise (ValueError msg)
  | None => raise (ValueError msg)
  end.

(** [BrowserConfig()]: the defaults of the schema. *)
Definition default_browser_config : BrowserConfig :=
  mkBrowserConfig "chrome" true "1920x1080" None None 30.

(** An entry of the [results] of a preview. *)
Inductive PreviewEntry :=
| PreviewOk (step_id : Z) (step_name : string) (result : ActionResult)
| PreviewFailed (step_id : Z) (step_name : string) (error : string).

(** What [preview_automation] returns. *)
Record PreviewResult := mkPreviewResult {
  pv_preview_id : string;
  pv_task_id : Z;
  pv_total_steps : nat;
  pv_executed_steps : nat;
  pv_results : list PreviewEntry;
}.

Module AutomationService.
Section WithLibrary.
Variable models : Metadata.
Variable lib : Oracle.

(** [create_step].  The count of lines 34-36 binds the task id; the
    [INSERT] of lines 54-55 binds the integer columns of the new row.  (The
    handler rolls back, nothing having been written, and raises the
    exception again.) *)
Definition create_step (step_data : AutomationStepCreate)
  : M AutomationStep.t :=
  Db.query models;;
  Db.bind (c_task_id step_data);;
  w ← get_world;
  let existing_steps :=
    Z.of_nat (length (steps_of_task (c_task_id step_data) (automation_steps w))) in
  let step_order :=
    if c_step_order step_data <? 0 then existing_steps
    else c_step_order step_data in
  Db.construct models;;
  let step :=
    AutomationStep.mk (next_step_id (automation_steps w))
      (c_task_id step_data) (c_step_name step_data) step_order
      (c_action_type step_data) (c_target_selector step_data)
      (c_target_text step_data) (c_target_url step_data)
      (c_parameters step_data) (c_wait_time step_data)
      (c_timeout step_data) in
  Db.bind step_order;;
  Db.bind (c_wait_time step_data);;
  Db.bind (c_timeout step_data);;
  modify (set_automation_steps (fun rows => (rows ++ [step])%list));;
  mret step.

(** [_log_execution]: the attempt to add a row to the execution log.
    Whatever the store does with it, the exception included, stays inside
    the method; [EvLog] records the call. *)
Definition _log_execution (task_id step_id : Z) (level message : string)
  (details : option ActionResult) : M unit :=
  modify (emit (EvLog task_id step_id level message details)).

Definition _execute_click (step : AutomationStep.t) (session_id : string)
  : M ActionResult :=
  browser ← BrowserManager.get_browser session_id;
  selector ← required (AutomationStep.target_selector step)
                "点击操作需要指定目标选择器";
  b ← attr browser "find_element";
  element ← BrowserWrapperOps.find_element lib b selector
              BrowserWrapperOps.find_element_default_timeout;
  _ ← call lib (ElementClick element);
  mret (ClickResult selector).

Definition _execute_type (step : AutomationStep.t) (session_id : string)
  : M ActionResult :=
  browser ← BrowserManager.get_browser session_id;
  selector ← required (AutomationStep.target_selector step)
                "输入操作需要指定目标选择器";
  text ← required (AutomationStep.target_text step)
            "输入操作需要指定输入文本";
  b ← attr browser "find_element";
  element ← BrowserWrapperOps.find_element lib b selector
              BrowserWrapperOps.find_element_default_timeout;
  _ ← call lib (ElementFill element text);
  mret (TypeResult selector text).

Definition _execute_scroll (step : AutomationStep.t) (session_id : string)
  : M ActionResult :=
  browser ← BrowserManager.get_browser session_id;
  b ← attr browser "page";
  _ ← call lib (PageEvaluate (bw_page b)
                  "window.scrollBy(0, window.innerHeight)");
  mret ScrollResult.

(** Line 208: [step.parameters.get("wait_time", step.timeout) if
    step.parameters else step.timeout]. *)
Definition wait_time_of (step : AutomationStep.t) : Json :=
  let timeout := JNum (inject_Z (AutomationStep.timeout step)) in
  match AutomationStep.parameters step with
  | Some parameters =>
      if bool_decide (parameters = ∅) then timeout
      else default timeout (parameters !! "wait_time")
  | None => timeout
  end.

Definition _execute_wait (step : AutomationStep.t) (session_id : string)
  : M ActionResult :=
  let wait_time := wait_time_of step in
  asyncio_sleep wait_time;;
  mret (WaitResult wait_time).

Definition _execute_navigate (step : AutomationStep.t) (session_id : string)
  : M ActionResult :=
  browser ← BrowserManager.get_browser session_id;
  url ← required (AutomationStep.target_url step) "导航操作需要指定URL";
  b ← attr browser "goto";
  _ ← BrowserWrapperOps.goto lib b url;
  mret (NavigateResult url).

Definition _execute_screenshot (step : AutomationStep.t) (session_id : string)
  : M ActionResult :=
  browser ← BrowserManager.get_browser session_id;
  b ← attr browser "take_screenshot";
  screenshot_data ← BrowserWrapperOps.take_screenshot lib b false;
  mret (ScreenshotResult (String.length screenshot_data)).

(** The dispatch of [execute_step] on [step.action_type]. *)
Definition dispatch (step : AutomationStep.t) (session_id : string)
  : M ActionResult :=
  match AutomationStep.action_type step with
  | CLICK => _execute_click step session_id
  | TYPE => _execute_type step session_id
  | SCROLL => _execute_scroll step session_id
  | WAIT => _execute_wait step session_id
  | NAVIGATE => _execute_navigate step session_id
  | SCREENSHOT => _execute_screenshot step session_id
  | HOVER | DRAG_DROP | SELECT | UPLOAD =>
      raise (ValueError
        ("不支持的操作类型: "
         ++ ActionType_value (AutomationStep.action_type step)))
  end.

(** [await asyncio.sleep(step.wait_time / 1000)] when [step.wait_time > 0]. *)
Definition wait_after (step : AutomationStep.t) : M unit :=
  if 0 <? AutomationStep.wait_time step
  then asyncio_sleep (JNum (AutomationStep.wait_time step # 1000))
  else mret tt.

Definition execute_step (step : AutomationStep.t) (session_id : string)
  : M ActionResult :=
  try_except
    (_log_execution (AutomationStep.task_id step) (AutomationStep.id step)
       "INFO" ("开始执行步骤: " ++ AutomationStep.step_name step) None;;
     result ← dispatch step session_id;
     _log_execution (AutomationStep.task_id step) (AutomationStep.id step)
       "INFO" ("步骤执行成功: " ++ AutomationStep.step_name step)
       (Some result);;
     wait_after step;;
     mret result)
    (fun e =>
       let error_msg :=
         "步骤执行失败: " ++ AutomationStep.step_name step
         ++ ", 错误: " ++ str_exn e in
       _log_execution (AutomationStep.task_id step) (AutomationStep.id step)
         "ERROR" error_msg None;;
       raise e).

(** [session.is_active = False] on the first row with this session id. *)
Fixpoint deactivate (session_id : string) (rows : list BrowserSession.t)
  : list BrowserSession.t :=
  match rows with
  | [] => []
  | r :: rows' =>
      if bool_decide (BrowserSession.session_id r = session_id)
      then BrowserSession.mk (BrowserSession.session_id r)
             (BrowserSession.task_id r) (BrowserSession.browser_type r)
             (BrowserSession.window_size r) (BrowserSession.user_agent r)
             (BrowserSession.proxy_url r) false
             (BrowserSession.last_activity r) :: rows'
      else r :: deactivate session_id rows'
  end.

(** [session.last_activity = datetime.now()] on the first such row. *)
Fixpoint touch (session_id : string) (t : Z) (rows : list BrowserSession.t)
  : list BrowserSession.t :=
  match rows with
  | [] => []
  | r :: rows' =>
      if bool_decide (BrowserSession.session_id r = session_id)
      then BrowserSession.mk (BrowserSession.session_id r)
             (BrowserSession.task_id r) (BrowserSession.browser_type r)
             (BrowserSession.window_size r) (BrowserSession.user_agent r)
             (BrowserSession.proxy_url r) (BrowserSession.is_active r)
             (Some t) :: rows'
      else r :: touch session_id t rows'
  end.

Definition close_session (session_id : string) : M bool :=
  try_except
    (success ← BrowserManager.close_session lib session_id;
     (if success : bool
      then Db.query models;;
           modify (set_browser_sessions (deactivate session_id))
      else mret tt);;
     mret success)
    (fun _ => mret false).

(** [launch_browser].  The row of [browser_sessions] is built from the
    attributes of [config] after the browser was launched: with
    [config = None] the first of them, [config.browser_type], raises
    before [BrowserSession] is called.  The row is given [task_id=None].
    (The handler logs the exception and raises it again.) *)
Definition launch_browser (config : option BrowserConfig) : M SessionInfo :=
  session_info ← BrowserManager.launch_browser lib config;
  c ← attr config "browser_type";
  Db.construct models;;
  add_browser_session
    (BrowserSession.mk (si_session_id session_info) None
       (cfg_browser_type c) (cfg_window_size c) (cfg_user_agent c)
       (cfg_proxy_url c) true None);;
  mret session_info.

(** What [navigate_to_url] would return. *)
Record NavigateInfo := mkNavigateInfo {
  ni_url : string;
  ni_title : string;
  ni_final_url : string;
}.

(** [navigate_to_url].  The returned dictionary is built with
    ["title": await browser.title()], and [title] is a [str] attribute of
    [BrowserWrapper] (set in [__init__] and in [goto]), not a method:
    calling it raises [TypeError]. *)
Definition navigate_to_url (session_id url : string) : M NavigateInfo :=
  browser ← BrowserManager.get_browser session_id;
  b ← attr browser "goto";
  b' ← BrowserWrapperOps.goto lib b url;
  Db.query models;;
  t ← now;
  modify (set_browser_sessions (touch session_id t));;
  raise (TypeError "'str' object is not callable").

(** [get_active_sessions]: the rows of [browser_sessions] with
    [is_active == True] (the source returns their fields as dictionaries). *)
Definition get_active_sessions : M (list BrowserSession.t) :=
  Db.query models;;
  w ← get_world;
  mret (List.filter BrowserSession.is_active (browser_sessions w)).

Definition get_steps_by_task (task_id : Z) : M (list AutomationStep.t) :=
  Db.query models;;
  Db.bind task_id;;
  w ← get_world; mret (steps_by_order task_id (automation_steps w)).

(** [db.delete(step)] for the first row with this id. *)
Fixpoint delete_row (step_id : Z) (rows : list AutomationStep.t)
  : list AutomationStep.t :=
  match rows with
  | [] => []
  | r :: rows' =>
      if bool_decide (AutomationStep.id r = step_id) then rows'
      else r :: delete_row step_id rows'
  end.

Definition delete_step (step_id : Z) : M bool :=
  Db.query models;;
  Db.bind step_id;;
  w ← get_world;
  match find (fun s => bool_decide (AutomationStep.id s = step_id))
             (automation_steps w) with
  | None => mret false
  | Some _ => modify (set_automation_steps (delete_row step_id));; mret true
  end.

(** The loop of [preview_automation]: the first failing step ends it.  The
    entry of a successful step is appended before the two seconds of
    observation, which cannot fail. *)
Fixpoint preview_steps (session_id : string) (steps : list AutomationStep.t)
  (executed : nat) (results : list PreviewEntry)
  : M (nat * list PreviewEntry) :=
  match steps with
  | [] => mret (executed, results)
  | step :: rest =>
      outcome ← try_except
        (result ← execute_step step session_id;
         asyncio_sleep (JNum 2);;
         mret (inl result))
        (fun step_error => mret (inr step_error));
      match outcome with
      | inl result =>
          preview_steps session_id rest (S executed)
            (results ++ [PreviewOk (AutomationStep.id step)
                           (AutomationStep.step_name step) result])%list
      | inr step_error =>
          mret (executed,
                (results ++ [PreviewFailed (AutomationStep.id step)
                               (AutomationStep.step_name step)
                               (str_exn step_error)])%list)
      end
  end.

Definition preview_automation (task_id : Z) (preview_id : string)
  : M PreviewResult :=
  Db.query models;;
  Db.bind task_id;;
  w ← get_world;
  task ← match tasks w !! task_id with
         | Some t => mret t
         | None => raise (ValueError ("任务未找到: " +:+ pretty task_id))
         end;
  Db.query models;;
  Db.bind task_id;;
  let steps := steps_by_order task_id (automation_steps w) in
  session_info ← BrowserManager.launch_browser lib (Some default_browser_config);
  let session_id := si_session_id session_info in
  try_finally
    ((if truthy (Some (Task.url task))
      then browser ← BrowserManager.get_browser session_id;
           b ← attr browser "goto";
           _ ← BrowserWrapperOps.goto lib b (Task.url task);
           mret tt
      else mret tt);;
     '(executed, results) ← preview_steps session_id steps 0 [];
     mret (mkPreviewResult preview_id task_id (length steps) executed results))
    (_ ← BrowserManager.close_session lib session_id; mret tt).

End WithLibrary.
End AutomationService.

(** ** app/services/execution_service.py *)

Module ExecutionService.

(** Lines 102-111: the final status and the note stored with it. *)
Definition final_status (success_count failed_count : Z) (total : nat)
  : TaskStatus * option string :=
  if failed_count =? 0 then (COMPLETED, None)
  else if 0 <? success_count
  then (COMPLETED,
        Some ("部分步骤失败: " +:+ pretty failed_count +:+ "/" +:+ pretty total))
  else (FAILED, Some "所有步骤执行失败").

(** [self.active_executions[execution_id][key] = ...]: the subscript
    raises [KeyError] when the record is gone. *)
Definition update_execution (execution_id : string)
  (f : Execution -> Execution) : M unit :=
  w ← get_world;
  match active_executions w !! execution_id with
  | Some ex => modify (set_active_executions (insert execution_id (f ex)))
  | None => raise (KeyError ("'" +:+ execution_id +:+ "'"))
  end.

Definition set_current_step (n : Z) (ex : Execution) : Execution :=
  mkExecution (ex_task_id ex) (ex_status ex) (ex_start_time ex) n
              (ex_total_steps ex).

Definition set_total_steps (n : Z) (ex : Execution) : Execution :=
  mkExecution (ex_task_id ex) (ex_status ex) (ex_start_time ex)
              (ex_current_step ex) n.

Definition set_status (status : string) (ex : Execution) : Execution :=
  mkExecution (ex_task_id ex) status (ex_start_time ex) (ex_current_step ex)
              (ex_total_steps ex).

(** [if execution_id in self.active_executions: del ...] *)
Definition forget_execution (execution_id : string) : M unit :=
  modify (set_active_executions (delete execution_id)).

(** How one iteration of the step loop ends. *)
Inductive Iteration := Stopped | Succeeded | Failed.

(** The local copy of the task after
    [task.execution_count += 1; task.success_count += success_count;
     task.failure_count += failed_count]. *)
Definition add_counts (task : Task.t) (success_count failed_count : Z)
  : Task.t :=
  Task.mk (Task.id task) (Task.name task) (Task.url task) (Task.status task)
    (Task.updated_at task) (Task.started_at task) (Task.completed_at task)
    (Task.error_message task)
    (Task.execution_count task + 1)
    (Task.success_count task + success_count)
    (Task.failure_count task + failed_count).

Section WithLibrary.
Variable models : Metadata.
Variable lib : Oracle.

(** The run of a task is a coroutine: while it is suspended in a step,
    other requests are served.  [stops i] tells whether a stop request for
    the task ([TaskService.stop_task], the only writer of [CANCELLED]) was
    served between the status checks of iterations [i - 1] and [i]. *)
Variable stops : nat -> bool.

Definition served_meanwhile (task_id : Z) (i : nat) : M unit :=
  if stops i then _ ← TaskService.stop_task models task_id; mret tt
  else mret tt.

(** Lines 71-95: [for i, step in enumerate(steps)], from index [i] on,
    with the two counters of the run. *)
Fixpoint run_steps (task_id : Z) (execution_id session_id : string)
  (i : nat) (steps : list AutomationStep.t) (success_count failed_count : Z)
  : M (Z * Z) :=
  match steps with
  | [] => mret (success_count, failed_count)
  | step :: rest =>
      update_execution execution_id (set_current_step (Z.of_nat i + 1));;
      served_meanwhile task_id i;;
      outcome ← try_except
        (current_task ← TaskService.get_task models task_id;
         t ← attr current_task "status";
         if bool_decide (Task.status t = CANCELLED) then mret Stopped
         else _ ← AutomationService.execute_step lib step session_id;
              mret Succeeded)
        (fun step_error =>
           let error_msg :=
             "步骤执行失败: " +:+ AutomationStep.step_name step
             +:+ ", 错误: " +:+ str_exn step_error in
           AutomationService._log_execution task_id (AutomationStep.id step)
             "ERROR" error_msg None;;
           mret Failed);
      match outcome with
      | Stopped => mret (success_count, failed_count)
      | Succeeded =>
          run_steps task_id execution_id session_id (S i) rest
                    (success_count + 1) failed_count
      | Failed =>
          run_steps task_id execution_id session_id (S i) rest
                    success_count (failed_count + 1)
      end
  end.

(** Lines 97-114: what the run does with the counters of the loop.
    [task] is what [get_task] returned at line 61. *)
Definition finish_run (task_id : Z) (task : option Task.t)
  (steps : list AutomationStep.t) (counts : Z * Z) : M unit :=
  let '(success_count, failed_count) := counts in
  t ← attr task "execution_count";
  (* the counters are added to [task], the copy [get_task] returned *)
  let task := add_counts t success_count failed_count in
  let '(final, error_message) :=
    final_status success_count failed_count (length steps) in
  TaskService.update_task_status models task_id final error_message.

(** Lines 60-116: the body of the inner [try], once a session is open. *)
Definition run_in_session (task_id : Z) (execution_id session_id : string)
  (steps : list AutomationStep.t) : M unit :=
  task ← TaskService.get_task models task_id;
  match task with
  | Some t =>
      if truthy (Some (Task.url t))
      then _ ← AutomationService.navigate_to_url models lib session_id
                 (Task.url t);
           mret tt
      else mret tt
  | None => mret tt
  end;;
  update_execution execution_id
    (set_total_steps (Z.of_nat (length steps)));;
  counts ← run_steps task_id execution_id session_id 0 steps 0 0;
  finish_run task_id task steps counts.

Definition execute_task (task_id : Z) (execution_id : string) : M unit :=
  try_except
    (t ← now;
     modify (set_active_executions
       (insert execution_id (mkExecution task_id "running" t 0 0)));;
     TaskService.update_task_status models task_id RUNNING None;;
     Db.query models;;
     Db.bind task_id;;
     w ← get_world;
     let steps := steps_by_order task_id (automation_steps w) in
     match steps with
     | [] =>
         TaskService.update_task_status models task_id FAILED
           (Some "任务没有配置自动化步骤")
     | _ :: _ =>
         browser_session ← AutomationService.launch_browser models lib None;
         let session_id := si_session_id browser_session in
         try_finally
           (run_in_session task_id execution_id session_id steps)
           (_ ← AutomationService.close_session models lib session_id;
            forget_execution execution_id)
     end)
    (fun e =>
       let error_msg := "任务执行异常: " +:+ str_exn e in
       TaskService.update_task_status models task_id FAILED (Some error_msg);;
       forget_execution execution_id).

(** [stop_execution], for the record of a single task (the record of a
    batch, with its list of task ids, is not an [Execution]).
    [if task_id:] skips the id 0. *)
Definition stop_execution (execution_id : string) : M bool :=
  try_except
    (w ← get_world;
     match active_executions w !! execution_id with
     | None => mret false
     | Some execution =>
         modify (set_active_executions
           (insert execution_id (set_status "stopped" execution)));;
         (if bool_decide (ex_task_id execution = 0) then mret tt
          else _ ← TaskService.stop_task models (ex_task_id execution);
               mret tt);;
         mret true
     end)
    (fun _ => mret false).

End WithLibrary.
End ExecutionService.

(** ** app/api/routes/tasks.py *)

Module TasksRoute.

Record HTTPException := mkHTTPException {
  status_code : Z;
  detail : string;
}.

(** A call handed to [background_tasks.add_task]:
    [execution_service.execute_task(task_id, execution_id)] or
    [execution_service.batch_execute_tasks(task_ids, execution_id)]. *)
Inductive BackgroundTask :=
| RunTask (task_id : Z) (execution_id : string)
| RunBatch (task_ids : list Z) (execution_id : string).

Record ExecuteResponse := mkExecuteResponse {
  message : string;
  execution_id : string;
  resp_task_id : Z;
}.


(** [POST /tasks/{task_id}/execute].  The handler only reads the store;
    it returns the response or the [HTTPException] it raises, and the
    background tasks queued when it ends. *)
Definition execute_task (models : Metadata) (task_id : Z)
  (background_tasks : list BackgroundTask) (w : World)
  : (HTTPException + ExecuteResponse) * list BackgroundTask :=
  match TaskService.get_task models task_id w with
  | (Raise e, _) => (inl (mkHTTPException 500 (str_exn e)), background_tasks)
  | (Ok None, _) => (inl (mkHTTPException 404 "任务未找到"), background_tasks)
  | (Ok (Some task), _) =>
      if bool_decide (Task.status task ∈ [RUNNING])
      then (inl (mkHTTPException 400 "任务正在执行中"), background_tasks)
      else
        let execution_id :=
          "exec_" +:+ pretty task_id +:+ "_" +:+ pretty (clock w) in
        (inr (mkExecuteResponse "任务开始执行" execution_id task_id),
         (background_tasks ++ [RunTask task_id execution_id])%list)
  end.


End TasksRoute.

(** ** Sample libraries, rows and worlds *)

(** A library in which every call returns. *)
Definition lib_ok : Oracle := fun _ c =>
  match c with
  | ChromiumLaunch _ _ => Returned "browser1"
  | NewContext _ _ _ _ _ => Returned "context1"
  | NewPage _ => Returned "page1"
  | Uuid4 => Returned "sess-1"
  | WaitForSelector _ selector _ => Returned ("element " +:+ selector)
  | PageUrl _ => Returned "http://example.test/"
  | PageTitle _ => Returned "Example"
  | _ => Returned ""
  end.

(** A library whose page has gone away: closing it raises. *)
Definition lib_page_gone : Oracle := fun h c =>
  match c with
  | PageClose _ => Raised "Target page, context or browser has been closed"
  | _ => lib_ok h c
  end.

Definition session1 : Session :=
  mkSession "browser1" "context1" "page1" "chromium" true "1920x1080"
            None None 0.

Definition empty_world : World := mkWorld ∅ [] [] ∅ false ∅ 0 [].

(** A manager with one open session, ["sess-1"]. *)
Definition world_one_session : World :=
  mkWorld ∅ [] [] {[ "sess-1" := session1 ]} true ∅ 0 [].

(** ** Properties of [BrowserManager.close_session] *)

(** The three closing calls of a session, as the trace shows them when
    each of them returns. *)
Definition closing_calls (s : Session) (v1 v2 v3 : string) : list Event :=
  [EvCall (PageClose (s_page s)) (Returned v1);
   EvCall (ContextClose (s_context s)) (Returned v2);
   EvCall (BrowserClose (s_browser s)) (Returned v3)].

(** The behaviour claimed for a registered id: page, context and browser
    are closed in that order and the entry is removed. *)
Definition closes_all_and_removes (lib : Oracle) (session_id : string)
  (w : World) : Prop :=
  exists s v1 v2 v3 b w',
    active_browsers w !! session_id = Some s /\
    BrowserManager.close_session lib session_id w = (Ok b, w') /\
    trace w' = (trace w ++ closing_calls s v1 v2 v3)%list /\
    active_browsers w' !! session_id = None.

(** ** Vocabulary of the properties of [execute_step] *)

(** The three log rows [execute_step] writes. *)
Definition started (step : AutomationStep.t) (w : World) : World :=
  emit (EvLog (AutomationStep.task_id step) (AutomationStep.id step) "INFO"
          ("开始执行步骤: " +:+ AutomationStep.step_name step) None) w.

Definition logged_success (step : AutomationStep.t) (result : ActionResult)
  (w : World) : World :=
  emit (EvLog (AutomationStep.task_id step) (AutomationStep.id step) "INFO"
          ("步骤执行成功: " +:+ AutomationStep.step_name step) (Some result)) w.

Definition logged_failure (step : AutomationStep.t) (e : Exn) (w : World)
  : World :=
  emit (EvLog (AutomationStep.task_id step) (AutomationStep.id step) "ERROR"
          ("步骤执行失败: " +:+ AutomationStep.step_name step
           +:+ ", 错误: " +:+ str_exn e) None) w.

(** The behaviour claimed for a click, hover or select step that has a
    selector: the step is performed, its element having been located with
    the step's own timeout. *)
Definition located_with_step_timeout (lib : Oracle) (step : AutomationStep.t)
  (session_id : string) (w : World) : Prop :=
  exists result w' page selector reply,
    AutomationService.execute_step lib step session_id w = (Ok result, w') /\
    In (EvCall (WaitForSelector page selector
                  (AutomationStep.timeout step * 1000)) reply)
       (trace w').

(** The duration of a wait step in the words of the specification:
    [parameters.wait_time] if that key is present in the parameter map,
    else the step's [timeout]; a number of seconds in both cases. *)
Definition spec_wait_duration (step : AutomationStep.t) : Json :=
  match AutomationStep.parameters step ≫= (fun p => p !! "wait_time") with
  | Some v => v
  | None => JNum (inject_Z (AutomationStep.timeout step))
  end.

(** ** Vocabulary of the properties of [execute_task] *)

(** The cumulative counters of a task row. *)
Definition counters (t : Task.t) : Z * Z * Z :=
  (Task.execution_count t, Task.success_count t, Task.failure_count t).

(** Every row of [w'] carries the counters it has in [w]. *)
Definition same_counters (w w' : World) : Prop :=
  forall id, counters <$> (tasks w' !! id) = counters <$> (tasks w !! id).

(** The calls [BrowserManager.launch_browser] makes. *)
Definition is_launch_call (e : Event) : Prop :=
  match e with
  | EvCall PlaywrightStart _
  | EvCall (ChromiumLaunch _ _) _
  | EvCall (NewContext _ _ _ _ _) _
  | EvCall (NewPage _) _
  | EvCall Uuid4 _ => True
  | _ => False
  end.

(** ** More sample rows and worlds *)

Definition task1 (status : TaskStatus) : Task.t :=
  Task.mk 1 "demo" "" status None None None None 0 0 0.

(** [wait] for the number of seconds given in the parameter map. *)
Definition wait_step (id : Z) (seconds : Q) : AutomationStep.t :=
  AutomationStep.mk id 1 "pause" (id - 1) WAIT None None None
    (Some {[ "wait_time" := JNum seconds ]}) 0 30.

(** [wait] without a parameter map. *)
Definition wait_step_default : AutomationStep.t :=
  AutomationStep.mk 1 1 "pause" 0 WAIT None None None None 0 45.

(** [click] on ["#go"], with a timeout of 5 s and 1500 ms to wait after. *)
Definition click_step : AutomationStep.t :=
  AutomationStep.mk 2 1 "go" 1 CLICK (Some "#go") None None None 1500 5.

(** [click] without a selector. *)
Definition click_step_no_selector : AutomationStep.t :=
  AutomationStep.mk 2 1 "go" 1 CLICK None None None None 1500 5.

(** [hover] over ["#menu"]. *)
Definition hover_step : AutomationStep.t :=
  AutomationStep.mk 3 1 "menu" 2 HOVER (Some "#menu") None None None 0 30.

(** Task 1 in the given status, with the given steps; nothing else. *)
Definition world_of (status : TaskStatus) (steps : list AutomationStep.t)
  : World :=
  mkWorld {[ 1 := task1 status ]} steps [] ∅ false ∅ 0 [].

(** Task 1 running in session ["sess-1"] under execution ["exec_1_0"]:
    the state in which the step loop is entered. *)
Definition world_in_loop (steps : list AutomationStep.t) : World :=
  mkWorld {[ 1 := task1 RUNNING ]} steps []
          {[ "sess-1" := session1 ]} true
          {[ "exec_1_0" := mkExecution 1 "running" 0 0 (Z.of_nat (length steps)) ]}
          0 [].

(** A stop request is served while the first step is in flight. *)
Definition stop_after_first : nat -> bool := fun i => bool_decide (i = 1%nat).

Definition never_stopped : nat -> bool := fun _ => false.

(** Task 1, pending, with a target URL and one step that waits for 0 s. *)
Definition world_with_url : World :=
  mkWorld {[ 1 := Task.mk 1 "demo" "http://example.test/" PENDING
                    None None None None 0 0 0 ]}
          [wait_step 1 0] [] ∅ false ∅ 0 [].

(** A request to append a step to task 1. *)
Definition append_request : AutomationStepCreate :=
  mkAutomationStepCreate 1 "last" (-1) SCREENSHOT None None None None 0 30.

(** ** Vocabulary of the invariants *)

(** [m] moves every world to one related to it by [R], whether it returns
    or raises. *)
Definition preserves {A} (R : relation World) (m : M A) : Prop :=
  forall w, R w (snd (m w)).

(** [m] never returns normally. *)
Definition always_raises {A} (m : M A) : Prop :=
  forall w, exists e, fst (m w) = Raise e.

(** What launching a browser may change of the parts of the world a run
    of [execute_task] looks at: nothing of the store, the execution
    records or the clock, and the trace grows by launch calls only. *)
Definition launch_residue (w w' : World) : Prop :=
  tasks w' = tasks w /\
  automation_steps w' = automation_steps w /\
  active_executions w' = active_executions w /\
  clock w' = clock w /\
  exists launch,
    trace w' = (trace w ++ launch)%list /\ Forall is_launch_call launch.

(** One pass through the body of the step loop of [execute_task], for the
    step at index [i]; [ExecutionService.run_steps] is its iteration
    ([run_steps_cons] below). *)
Definition iteration (models : Metadata) (lib : Oracle) (stops : nat -> bool)
  (task_id : Z) (execution_id session_id : string) (i : nat)
  (step : AutomationStep.t) : M ExecutionService.Iteration :=
  ExecutionService.update_execution execution_id
    (ExecutionService.set_current_step (Z.of_nat i + 1));;
  ExecutionService.served_meanwhile models stops task_id i;;
  try_except
    (current_task ← TaskService.get_task models task_id;
     t ← attr current_task "status";
     if bool_decide (Task.status t = CANCELLED)
     then mret ExecutionService.Stopped
     else _ ← AutomationService.execute_step lib step session_id;
          mret ExecutionService.Succeeded)
    (fun step_error =>
       let error_msg :=
         "步骤执行失败: " +:+ AutomationStep.step_name step
         +:+ ", 错误: " +:+ str_exn step_error in
       AutomationService._log_execution task_id (AutomationStep.id step)
         "ERROR" error_msg None;;
       mret ExecutionService.Failed).

(** ** Vocabulary of the further properties *)

(** Nothing but the trace differs between [w] and [w'], and the trace of
    [w'] extends that of [w]. *)
Definition only_trace_grows (w w' : World) : Prop :=
  tasks w' = tasks w /\
  automation_steps w' = automation_steps w /\
  browser_sessions w' = browser_sessions w /\
  active_browsers w' = active_browsers w /\
  playwright w' = playwright w /\
  active_executions w' = active_executions w /\
  clock w' = clock w /\
  exists events, trace w' = (trace w ++ events)%list.

(** What identifies a task row beside its key. *)
Definition identity (t : Task.t) : Z * string * string :=
  (Task.id t, Task.name t, Task.url t).

(** Between [w] and [w'] the table of the steps is unchanged, no task row
    was added or removed, every row other than that of [task_id] is
    unchanged, and that row kept its id, name and URL. *)
Definition writes_only_task (task_id : Z) (w w' : World) : Prop :=
  automation_steps w' = automation_steps w /\
  (forall id, id <> task_id -> tasks w' !! id = tasks w !! id) /\
  identity <$> (tasks w' !! task_id) = identity <$> (tasks w !! task_id).

(** The three calls that close a session. *)
Definition is_close_call (c : Call) : bool :=
  match c with
  | PageClose _ | ContextClose _ | BrowserClose _ => true
  | _ => false
  end.

(** A library in which closing never fails. *)
Definition closes_return (lib : Oracle) : Prop :=
  forall history c, is_close_call c = true ->
    exists v, lib history c = Returned v.

(** A library in which launching never fails. *)
Definition launches_return (lib : Oracle) : Prop :=
  forall history c, is_launch_call (EvCall c (Returned "")) ->
    exists v, lib history c = Returned v.

(** The registry of [w'] is that of [w]. *)
Definition same_registry (w w' : World) : Prop :=
  active_browsers w' = active_browsers w.

(** The trace of [w'] extends that of [w]. *)
Definition trace_grows (w w' : World) : Prop :=
  exists events, trace w' = (trace w ++ events)%list.

(** The effect of a launch on the registry: a launch that returns has
    registered one session under the id it returns, a launch that raises
    has registered nothing. *)
Definition registers_session (m : M SessionInfo) : Prop :=
  forall w,
    match m w with
    | (Ok info, w') =>
        exists session,
          active_browsers w'
          = <[si_session_id info := session]> (active_browsers w) /\
          si_control_url info
          = "ws://localhost:8000/ws/" +:+ si_session_id info
    | (Raise _, w') => active_browsers w' = active_browsers w
    end.

(** [c in s] for a character. *)
Fixpoint contains (c : ascii) (s : string) : bool :=
  match s with
  | EmptyString => false
  | String c' s' => Ascii.eqb c' c || contains c s'
  end.

(** A manager with two open sessions. *)
Definition world_two_sessions : World :=
  mkWorld ∅ [] []
    {[ "sess-1" := session1;
       "sess-2" := mkSession "browser2" "context2" "page2" "chromium" true
                     "1920x1080" None None 0 ]}
    true ∅ 0 [].

(** A manager holding ["sess-1"], with the rows of two active sessions. *)
Definition world_listed_sessions : World :=
  mkWorld ∅ []
    [BrowserSession.mk "sess-1" None "chrome" "1920x1080" None None true None;
     BrowserSession.mk "sess-2" None "chrome" "1920x1080" None None true None]
    {[ "sess-1" := session1 ]} true ∅ 0 [].

(** ** Previews *)

(** The step an entry of a preview reports on, and whether it reports a
    success. *)
Definition entry_step (e : PreviewEntry) : Z * string :=
  match e with
  | PreviewOk step_id step_name _ | PreviewFailed step_id step_name _ =>
      (step_id, step_name)
  end.

Definition entry_ok (e : PreviewEntry) : bool :=
  match e with
  | PreviewOk _ _ _ => true
  | PreviewFailed _ _ _ => false
  end.

Definition step_key (s : AutomationStep.t) : Z * string :=
  (AutomationStep.id s, AutomationStep.step_name s).

(** The entries of a preview of [steps]: one entry for each step of a
    prefix of [steps], in order; the successes [oks], then either nothing,
    every step having succeeded, or the one failure that ended the preview. *)
Definition preview_entries (steps : list AutomationStep.t)
  (oks failed : list PreviewEntry) : Prop :=
  forallb entry_ok oks = true /\
  map entry_step (oks ++ failed)%list
  = map step_key (take (length (oks ++ failed)%list) steps) /\
  (failed = [] /\ length oks = length steps \/
   exists step_id step_name error,
     failed = [PreviewFailed step_id step_name error]).

(** The tables and the execution records of [w'] are those of [w]. *)
Definition same_store (w w' : World) : Prop :=
  tasks w' = tasks w /\
  automation_steps w' = automation_steps w /\
  browser_sessions w' = browser_sessions w /\
  active_executions w' = active_executions w.

(** Task 1, without a URL, with a pause, a click without a selector and a
    hover. *)
Definition world_to_preview : World :=
  world_of PENDING [wait_step 1 0; click_step_no_selector; hover_step].

(** ** The table of the steps *)

(** [l] is in ascending [step_order]: no row is followed, anywhere after
    it, by a row of a smaller order. *)
Fixpoint ascending (l : list AutomationStep.t) : bool :=
  match l with
  | [] => true
  | x :: l' =>
      forallb (fun y => AutomationStep.step_order x <=? AutomationStep.step_order y) l'
      && ascending l'
  end.

(** The keys of the rows are distinct ([id] is the primary key). *)
Definition distinct_keys (rows : list AutomationStep.t) : Prop :=
  NoDup (map AutomationStep.id rows).

(** The rows other than that of key [step_id]. *)
Definition without_step (step_id : Z) (rows : list AutomationStep.t)
  : list AutomationStep.t :=
  filter (fun s => AutomationStep.id s <> step_id) rows.

(** Task 1 with two steps whose orders, 5 and 10, leave gaps. *)
Definition world_sparse_orders : World :=
  world_of PENDING
    [AutomationStep.mk 1 1 "first" 5 SCREENSHOT None None None None 0 30;
     AutomationStep.mk 2 1 "second" 10 SCREENSHOT None None None None 0 30].

(** The tables of the tasks and of the steps of [w'] are those of [w]. *)
Definition same_tables (w w' : World) : Prop :=
  tasks w' = tasks w /\ automation_steps w' = automation_steps w.

(** The steps of a task that [get_current_step] chooses from. *)
Definition candidate_steps (task_id : Z) (rows : list AutomationStep.t)
  : list AutomationStep.t :=
  filter (fun s => AutomationStep.task_id s = task_id
                   /\ 0 <= AutomationStep.step_order s) rows.

(** ** Vocabulary of the properties of [create_step] *)

(** The order the stored step has according to the claim: the number of
    steps the task already has for a negative order, the order of the
    request otherwise. *)
Definition claimed_order (step_data : AutomationStepCreate)
  (rows : list AutomationStep.t) : Z :=
  if c_step_order step_data <? 0
  then Z.of_nat (length (steps_of_task (c_task_id step_data) rows))
  else c_step_order step_data.

(** The behaviour claimed for a request: a step is stored, with that
    order. *)
Definition stored_as_claimed (models : Metadata)
  (step_data : AutomationStepCreate) (w : World) : Prop :=
  exists step w',
    AutomationService.create_step models step_data w = (Ok step, w') /\
    In step (automation_steps w') /\
    AutomationStep.step_order step = claimed_order step_data (automation_steps w).

(** A request the store takes: the mapping configures and the integers of
    the new row are 64-bit numbers. *)
Definition storable (models : Metadata) (step_data : AutomationStepCreate)
  (rows : list AutomationStep.t) : bool :=
  configures models
  && fits_integer (c_task_id step_data)
  && fits_integer (claimed_order step_data rows)
  && fits_integer (c_wait_time step_data)
  && fits_integer (c_timeout step_data).

(** A request to store a step of task 1 at order [2 ^ 63]. *)
Definition large_order_request : AutomationStepCreate :=
  mkAutomationStepCreate 1 "far" (2 ^ 63) SCREENSHOT None None None None 0 30.

(** ** Vocabulary of the properties of the routes *)


(** ** Vocabulary of the properties of the step loop *)

(** The text the loop logs for a step whose execution raised. *)
Definition step_error_message (step : AutomationStep.t) (e : Exn) : string :=
  "步骤执行失败: " +:+ AutomationStep.step_name step
  +:+ ", 错误: " +:+ str_exn e.

(** The reference run of a list of steps, with the two counters: each
    step is given to the step executor once, in the order of the list; a
    step whose execution returns is counted as a success, a step whose
    execution raises is logged by the loop and counted as a failure. *)
Fixpoint executed_in_order (lib : Oracle) (task_id : Z) (session_id : string)
  (steps : list AutomationStep.t) (success_count failed_count : Z)
  : M (Z * Z) :=
  match steps with
  | [] => mret (success_count, failed_count)
  | step :: rest =>
      succeeded ← try_except
        (_ ← AutomationService.execute_step lib step session_id; mret true)
        (fun step_error =>
           AutomationService._log_execution task_id (AutomationStep.id step)
             "ERROR" (step_error_message step step_error) None;;
           mret false);
      if succeeded : bool
      then executed_in_order lib task_id session_id rest
             (success_count + 1) failed_count
      else executed_in_order lib task_id session_id rest
             success_count (failed_count + 1)
  end.

(** The row the loop logs for a step it could not start, the query for
    the status of the task having raised the error of the mapping. *)
Definition unread_row (task_id : Z) (step : AutomationStep.t) : Event :=
  EvLog task_id (AutomationStep.id step) "ERROR"
    (step_error_message step mapper_error) None.

(** [w1] and [w2] differ in nothing but the task rows and the execution
    records: the step executor reads and writes neither. *)
Definition same_browser_side (w1 w2 : World) : Prop :=
  automation_steps w1 = automation_steps w2 /\
  browser_sessions w1 = browser_sessions w2 /\
  active_browsers w1 = active_browsers w2 /\
  playwright w1 = playwright w2 /\
  clock w1 = clock w2 /\
  trace w1 = trace w2.

(** [m] does the same in two such worlds. *)
Definition respects {A} (m : M A) : Prop :=
  forall w1 w2,
    same_browser_side w1 w2 ->
    fst (m w1) = fst (m w2) /\ same_browser_side (snd (m w1)) (snd (m w2)).

(** * Properties *)

Ltac monad_unfold :=
  unfold mbind, M_bind, mret, M_ret, try_except, try_finally, raise,
         get_world, modify, now, call in *.

(** ** Running a computation step by step *)

Lemma bind_ok {A B} (m : M A) (k : A -> M B) w a w' :
  m w = (Ok a, w') -> (m ≫= k) w = k a w'.
Proof. intros H. unfold mbind, M_bind. rewrite H. reflexivity. Qed.

Lemma bind_raise {A B} (m : M A) (k : A -> M B) w e w' :
  m w = (Raise e, w') -> (m ≫= k) w = (Raise e, w').
Proof. intros H. unfold mbind, M_bind. rewrite H. reflexivity. Qed.

Lemma try_except_ok {A} (m : M A) (h : Exn -> M A) w a w' :
  m w = (Ok a, w') -> try_except m h w = (Ok a, w').
Proof. intros H. unfold try_except. rewrite H. reflexivity. Qed.

Lemma try_except_raise {A} (m : M A) (h : Exn -> M A) w e w' :
  m w = (Raise e, w') -> try_except m h w = h e w'.
Proof. intros H. unfold try_except. rewrite H. reflexivity. Qed.

Lemma try_finally_eq {A} (m : M A) (fin : M unit) w r w1 w2 :
  m w = (r, w1) -> fin w1 = (Ok tt, w2) -> try_finally m fin w = (r, w2).
Proof. intros Hm Hf. unfold try_finally. rewrite Hm, Hf. reflexivity. Qed.

Lemma bind_assoc_at {A B C} (m : M A) (k1 : A -> M B) (k2 : B -> M C) w :
  ((m ≫= k1) ≫= k2) w = (m ≫= fun v => k1 v ≫= k2) w.
Proof.
  unfold mbind, M_bind. destruct (m w) as [[v | e] w1]; reflexivity.
Qed.

(** ** The store *)

Lemma Base_does_not_configure : configures Base = false.
Proof. reflexivity. Qed.

Lemma Base_with_foreign_key_configures :
  configures Base_with_foreign_key = true.
Proof. reflexivity. Qed.

Lemma query_mapped models w :
  configures models = true -> Db.query models w = (Ok tt, w).
Proof. intros H. unfold Db.query. rewrite H. reflexivity. Qed.

Lemma query_unmapped models w :
  configures models = false -> Db.query models w = (Raise mapper_error, w).
Proof. intros H. unfold Db.query. rewrite H. reflexivity. Qed.

Lemma bind_fits z w : fits_integer z = true -> Db.bind z w = (Ok tt, w).
Proof. intros H. unfold Db.bind. rewrite H. reflexivity. Qed.

Lemma bind_overflow z w :
  fits_integer z = false ->
  Db.bind z w
  = (Raise (OverflowError "Python int too large to convert to SQLite INTEGER"),
     w).
Proof. intros H. unfold Db.bind. rewrite H. reflexivity. Qed.

(** A query with one integer parameter, then the rest. *)
Lemma query_bind_mapped {A} models z (k : M A) w :
  configures models = true -> fits_integer z = true ->
  (Db.query models;; Db.bind z;; k) w = k w.
Proof.
  intros Hm Hz. erewrite bind_ok by (apply query_mapped, Hm).
  erewrite bind_ok by (apply bind_fits, Hz). reflexivity.
Qed.

Lemma query_bind_unmapped {A} models z (k : M A) w :
  configures models = false ->
  (Db.query models;; Db.bind z;; k) w = (Raise mapper_error, w).
Proof. intros Hm. erewrite bind_raise by (apply query_unmapped, Hm). reflexivity. Qed.

(** ** [TaskService] on a mapping that configures, and on one that does not *)

Section TaskServiceFacts.
Variable models : Metadata.

Lemma get_task_mapped task_id w :
  configures models = true -> fits_integer task_id = true ->
  TaskService.get_task models task_id w = (Ok (tasks w !! task_id), w).
Proof.
  intros Hm Hz. unfold TaskService.get_task.
  rewrite query_bind_mapped by assumption. reflexivity.
Qed.

Lemma get_task_unmapped task_id w :
  configures models = false ->
  TaskService.get_task models task_id w = (Raise mapper_error, w).
Proof. intros Hm. apply query_bind_unmapped, Hm. Qed.

Lemma update_task_status_unmapped task_id status error_message w :
  configures models = false ->
  TaskService.update_task_status models task_id status error_message w
  = (Ok tt, w).
Proof.
  intros Hm. unfold TaskService.update_task_status.
  erewrite try_except_raise by (apply query_bind_unmapped, Hm). reflexivity.
Qed.

Lemma stop_task_unmapped task_id w :
  configures models = false ->
  TaskService.stop_task models task_id w = (Ok false, w).
Proof.
  intros Hm. unfold TaskService.stop_task.
  erewrite try_except_raise by (apply query_bind_unmapped, Hm). reflexivity.
Qed.

Lemma update_task_status_found task_id status error_message w task :
  configures models = true -> fits_integer task_id = true ->
  tasks w !! task_id = Some task ->
  exists task',
    TaskService.update_task_status models task_id status error_message w
    = (Ok tt, set_tasks (insert task_id task') w) /\
    Task.status task' = status /\
    Task.error_message task'
    = (if truthy error_message then error_message
       else Task.error_message task) /\
    Task.id task' = Task.id task /\
    Task.name task' = Task.name task /\
    Task.url task' = Task.url task /\
    counters task' = counters task.
Proof.
  intros Hm Hz Hrow. unfold TaskService.update_task_status.
  eexists. split.
  { apply try_except_ok. rewrite query_bind_mapped by assumption.
    erewrite bind_ok by reflexivity. rewrite Hrow. reflexivity. }
  repeat split; reflexivity.
Qed.

Lemma update_task_status_missing task_id status error_message w :
  tasks w !! task_id = None ->
  TaskService.update_task_status models task_id status error_message w
  = (Ok tt, w).
Proof.
  intros Hrow. unfold TaskService.update_task_status, Db.query, Db.bind.
  monad_unfold.
  destruct (configures models); [| reflexivity].
  destruct (fits_integer task_id); [| reflexivity].
  rewrite Hrow. reflexivity.
Qed.

Lemma update_task_status_returns task_id status error_message w :
  fst (TaskService.update_task_status models task_id status error_message w)
  = Ok tt.
Proof.
  unfold TaskService.update_task_status, Db.query, Db.bind. monad_unfold.
  destruct (configures models); [| reflexivity].
  destruct (fits_integer task_id); [| reflexivity].
  destruct (tasks w !! task_id); reflexivity.
Qed.

Lemma update_task_status_keeps task_id status error_message w :
  exists w',
    TaskService.update_task_status models task_id status error_message w
    = (Ok tt, w') /\
    automation_steps w' = automation_steps w /\
    active_executions w' = active_executions w /\
    active_browsers w' = active_browsers w /\
    browser_sessions w' = browser_sessions w /\
    playwright w' = playwright w /\
    clock w' = clock w /\
    trace w' = trace w.
Proof.
  unfold TaskService.update_task_status, Db.query, Db.bind. monad_unfold.
  destruct (configures models);
    [| eexists; split; [reflexivity | repeat split; reflexivity]].
  destruct (fits_integer task_id);
    [| eexists; split; [reflexivity | repeat split; reflexivity]].
  destruct (tasks w !! task_id); eexists; split; try reflexivity;
    repeat split; reflexivity.
Qed.

Lemma stop_task_cancels task_id w task :
  configures models = true -> fits_integer task_id = true ->
  tasks w !! task_id = Some task ->
  Task.status task = RUNNING \/ Task.status task = PENDING ->
  exists task',
    TaskService.stop_task models task_id w
    = (Ok true, set_tasks (insert task_id task') w) /\
    Task.status task' = CANCELLED /\
    Task.error_message task' = Some "用户手动停止" /\
    Task.id task' = Task.id task /\
    Task.name task' = Task.name task /\
    Task.url task' = Task.url task.
Proof.
  intros Hm Hz Hrow Hstatus.
  destruct (update_task_status_found task_id CANCELLED
              (Some "用户手动停止") w task Hm Hz Hrow)
    as (task' & Hupd & Hst & Hmsg & Hid & Hname & Hurl & _).
  exists task'.
  assert (Hin : bool_decide (Task.status task ∈ [RUNNING; PENDING]) = true).
  { apply bool_decide_eq_true. rewrite !elem_of_cons.
    destruct Hstatus as [-> | ->]; auto. }
  split.
  { unfold TaskService.stop_task. apply try_except_ok.
    rewrite query_bind_mapped by assumption.
    erewrite bind_ok by reflexivity. rewrite Hrow, Hin.
    erewrite bind_ok by exact Hupd. reflexivity. }
  repeat split; assumption.
Qed.

Lemma stop_task_refuses task_id w :
  (tasks w !! task_id = None \/
   exists task,
     tasks w !! task_id = Some task /\
     Task.status task <> RUNNING /\ Task.status task <> PENDING) ->
  TaskService.stop_task models task_id w = (Ok false, w).
Proof.
  intros Hrow. unfold TaskService.stop_task, Db.query, Db.bind.
  unfold try_except, mbind, M_bind, mret, M_ret, raise, get_world.
  destruct (configures models); [| reflexivity].
  destruct (fits_integer task_id); [| reflexivity].
  destruct Hrow as [Hnone | (task & Hrow & Hr & Hp)].
  - rewrite Hnone. reflexivity.
  - rewrite Hrow.
    assert (Hout : bool_decide (Task.status task ∈ [RUNNING; PENDING]) = false).
    { apply bool_decide_eq_false. rewrite !elem_of_cons, elem_of_nil.
      intros [? | [? | []]]; congruence. }
    rewrite Hout. reflexivity.
Qed.

(** [stop_task] returns, whatever the mapping and the store. *)
Lemma stop_task_returns task_id w :
  exists b w',
    TaskService.stop_task models task_id w = (Ok b, w') /\
    automation_steps w' = automation_steps w /\
    active_executions w' = active_executions w /\
    active_browsers w' = active_browsers w /\
    browser_sessions w' = browser_sessions w /\
    playwright w' = playwright w /\
    clock w' = clock w /\
    trace w' = trace w.
Proof.
  unfold TaskService.stop_task, Db.query, Db.bind.
  unfold try_except at 1. unfold mbind at 1 2 3, M_bind at 1 2 3.
  unfold mret, M_ret, raise, get_world.
  destruct (configures models) eqn:Hm;
    [| eexists _, _; split; [reflexivity | repeat split; reflexivity]].
  destruct (fits_integer task_id) eqn:Hz;
    [| eexists _, _; split; [reflexivity | repeat split; reflexivity]].
  destruct (tasks w !! task_id) as [task |];
    [| eexists _, _; split; [reflexivity | repeat split; reflexivity]].
  destruct (bool_decide (Task.status task ∈ [RUNNING; PENDING]));
    [| eexists _, _; split; [reflexivity | repeat split; reflexivity]].
  destruct (update_task_status_keeps task_id CANCELLED
              (Some "用户手动停止") w) as (w' & Hupd & Hkeeps).
  unfold mbind, M_bind. rewrite Hupd. eexists _, _.
  split; [reflexivity | exact Hkeeps].
Qed.

End TaskServiceFacts.

(** ** The session registry: [BrowserManager.close_session] *)

Lemma close_session_unknown lib session_id w :
  active_browsers w !! session_id = None ->
  BrowserManager.close_session lib session_id w = (Ok false, w).
Proof.
  intros H. unfold BrowserManager.close_session. monad_unfold.
  rewrite H. reflexivity.
Qed.

(** A second close of an id that the first close removed returns false
    and changes nothing. *)
Lemma close_session_twice lib session_id w w1 :
  BrowserManager.close_session lib session_id w = (Ok true, w1) ->
  BrowserManager.close_session lib session_id w1 = (Ok false, w1).
Proof.
  intros Hfirst. apply close_session_unknown.
  unfold BrowserManager.close_session in Hfirst. monad_unfold.
  destruct (active_browsers w !! session_id) as [s|]; [| discriminate].
  destruct (lib (trace w) _); [| discriminate]. cbn [trace emit] in Hfirst.
  destruct (lib _ (ContextClose _)); [| discriminate].
  cbn [trace emit] in Hfirst.
  destruct (lib _ (BrowserClose _)); [| discriminate].
  injection Hfirst as <-. cbn [active_browsers set_active_browsers].
  apply lookup_delete_eq.
Qed.

(** [C9], as stated, fails: session ["sess-1"] is registered, its page has
    gone away, and [close_session] neither closes the context and the
    browser nor removes the entry. *)
Lemma close_session_page_gone_keeps_entry :
  active_browsers world_one_session !! "sess-1" = Some session1 /\
  ~ closes_all_and_removes lib_page_gone "sess-1" world_one_session.
Proof.
  split; [vm_compute; reflexivity |].
  intros (s & v1 & v2 & v3 & b & w' & _ & Hrun & _ & Hgone).
  assert (E : BrowserManager.close_session lib_page_gone "sess-1"
                world_one_session
              = (Ok false,
                 emit (EvCall (PageClose "page1")
                         (Raised "Target page, context or browser has been closed"))
                      world_one_session))
    by (vm_compute; reflexivity).
  rewrite E in Hrun. injection Hrun as _ <-.
  vm_compute in Hgone. discriminate.
Qed.

(** [C9], amended.  [close_session] raises no exception, for every
    session id and every library.  For an id that is not registered it returns false and
    leaves the world as it is.  For a registered id whose page, context and
    browser each close normally, it closes them in that order, removes the
    entry and returns true.  When a closing call raises, it returns false:
    the trace ends with that call, no further closing call is made, and the
    entry stays registered. *)
Theorem close_session_registry lib session_id w :
  (active_browsers w !! session_id = None ->
   BrowserManager.close_session lib session_id w = (Ok false, w)) /\
  (forall s,
     active_browsers w !! session_id = Some s ->
     let close_page := PageClose (s_page s) in
     let close_context := ContextClose (s_context s) in
     let close_browser := BrowserClose (s_browser s) in
     (forall v1 v2 v3,
        let w1 := emit (EvCall close_page (Returned v1)) w in
        let w2 := emit (EvCall close_context (Returned v2)) w1 in
        let w3 := emit (EvCall close_browser (Returned v3)) w2 in
        lib (trace w) close_page = Returned v1 ->
        lib (trace w1) close_context = Returned v2 ->
        lib (trace w2) close_browser = Returned v3 ->
        BrowserManager.close_session lib session_id w
        = (Ok true, set_active_browsers (delete session_id) w3)) /\
     (forall m1,
        lib (trace w) close_page = Raised m1 ->
        BrowserManager.close_session lib session_id w
        = (Ok false, emit (EvCall close_page (Raised m1)) w)) /\
     (forall v1 m2,
        let w1 := emit (EvCall close_page (Returned v1)) w in
        lib (trace w) close_page = Returned v1 ->
        lib (trace w1) close_context = Raised m2 ->
        BrowserManager.close_session lib session_id w
        = (Ok false, emit (EvCall close_context (Raised m2)) w1)) /\
     (forall v1 v2 m3,
        let w1 := emit (EvCall close_page (Returned v1)) w in
        let w2 := emit (EvCall close_context (Returned v2)) w1 in
        lib (trace w) close_page = Returned v1 ->
        lib (trace w1) close_context = Returned v2 ->
        lib (trace w2) close_browser = Raised m3 ->
        BrowserManager.close_session lib session_id w
        = (Ok false, emit (EvCall close_browser (Raised m3)) w2))).
Proof.
  split; [apply close_session_unknown |].
  intros s Hs. cbv zeta.
  unfold BrowserManager.close_session. monad_unfold. rewrite Hs.
  split; [| split; [| split]].
  - intros v1 v2 v3 H1 H2 H3. rewrite H1, H2, H3. reflexivity.
  - intros m1 H1. rewrite H1. reflexivity.
  - intros v1 m2 H1 H2. rewrite H1, H2. reflexivity.
  - intros v1 v2 m3 H1 H2 H3. rewrite H1, H2, H3. reflexivity.
Qed.

Lemma close_session_registry_witness :
  BrowserManager.close_session lib_ok "sess-9" world_one_session
  = (Ok false, world_one_session) /\
  BrowserManager.close_session lib_ok "sess-1" world_one_session
  = (Ok true,
     set_active_browsers (delete "sess-1")
       (emit (EvCall (BrowserClose "browser1") (Returned ""))
          (emit (EvCall (ContextClose "context1") (Returned ""))
             (emit (EvCall (PageClose "page1") (Returned ""))
                world_one_session)))) /\
  BrowserManager.close_session lib_page_gone "sess-1" world_one_session
  = (Ok false,
     emit (EvCall (PageClose "page1")
             (Raised "Target page, context or browser has been closed"))
          world_one_session).
Proof.
  split; [| split].
  - apply (proj1 (close_session_registry lib_ok "sess-9" world_one_session)).
    vm_compute; reflexivity.
  - apply (proj1 (proj2 (close_session_registry lib_ok "sess-1"
                           world_one_session) session1 ltac:(reflexivity))
             "" "" ""); reflexivity.
  - apply (proj1 (proj2 (proj2 (close_session_registry lib_page_gone "sess-1"
                                  world_one_session) session1
                                  ltac:(reflexivity)))
             "Target page, context or browser has been closed").
    reflexivity.
Defined.

(** ** Step records: [AutomationService.create_step] *)

Lemma create_step_stored models step_data w :
  storable models step_data (automation_steps w) = true ->
  let step :=
    AutomationStep.mk (next_step_id (automation_steps w))
      (c_task_id step_data) (c_step_name step_data)
      (claimed_order step_data (automation_steps w))
      (c_action_type step_data) (c_target_selector step_data)
      (c_target_text step_data) (c_target_url step_data)
      (c_parameters step_data) (c_wait_time step_data)
      (c_timeout step_data) in
  AutomationService.create_step models step_data w
  = (Ok step, set_automation_steps (fun rows => (rows ++ [step])%list) w).
Proof.
  unfold storable. rewrite !andb_true_iff.
  intros [[[[Hm Htask] Horder] Hwait] Htimeout]. cbv zeta.
  unfold AutomationService.create_step.
  rewrite query_bind_mapped by assumption.
  erewrite bind_ok by reflexivity. cbv zeta.
  unfold Db.construct. erewrite bind_ok by (apply query_mapped, Hm).
  fold (claimed_order step_data (automation_steps w)).
  erewrite bind_ok by (apply bind_fits, Horder).
  erewrite bind_ok by (apply bind_fits, Hwait).
  erewrite bind_ok by (apply bind_fits, Htimeout).
  reflexivity.
Qed.

Lemma create_step_refused models step_data w :
  storable models step_data (automation_steps w) = false ->
  exists e,
    AutomationService.create_step models step_data w = (Raise e, w).
Proof.
  unfold storable, AutomationService.create_step, Db.construct, Db.query,
    Db.bind.
  fold (claimed_order step_data (automation_steps w)).
  monad_unfold.
  destruct (configures models); [| eauto].
  destruct (fits_integer (c_task_id step_data)); [| eauto].
  fold (claimed_order step_data (automation_steps w)).
  destruct (fits_integer (claimed_order step_data (automation_steps w)));
    [| eauto].
  destruct (fits_integer (c_wait_time step_data)); [| eauto].
  destruct (fits_integer (c_timeout step_data)); [| eauto].
  discriminate.
Qed.

(** [C10], as stated, fails: the order [2 ^ 63] of a request is not
    negative, and it is not stored as given.  Nothing is stored, whether
    the mapping configures (the [INSERT] overflows) or not. *)
Lemma create_step_large_order_is_not_stored :
  0 <= c_step_order large_order_request /\
  ~ stored_as_claimed Base_with_foreign_key large_order_request
      (world_of PENDING [wait_step 1 0]) /\
  ~ stored_as_claimed Base large_order_request
      (world_of PENDING [wait_step 1 0]).
Proof.
  split; [vm_compute; discriminate |].
  split; intros (step & w' & Hrun & _).
  - destruct (create_step_refused Base_with_foreign_key large_order_request
                (world_of PENDING [wait_step 1 0])) as [e He];
      [vm_compute; reflexivity |].
    rewrite He in Hrun. discriminate.
  - destruct (create_step_refused Base large_order_request
                (world_of PENDING [wait_step 1 0])) as [e He];
      [vm_compute; reflexivity |].
    rewrite He in Hrun. discriminate.
Qed.

(** [C10], amended.  [create_step] either stores the request or raises
    and stores nothing.  It stores the request when the mapping configures
    and the integers of the new row are 64-bit numbers: then one row is
    added, after the rows there were, for the task of the request; its
    [step_order] is the number of rows the task already has when the
    request gives a negative order, and the order of the request
    otherwise.  In every other case it raises and the world is as before. *)
Theorem create_step_step_order models step_data w :
  if storable models step_data (automation_steps w)
  then
    exists step,
      AutomationService.create_step models step_data w
      = (Ok step,
         set_automation_steps (fun rows => (rows ++ [step])%list) w) /\
      AutomationStep.task_id step = c_task_id step_data /\
      (c_step_order step_data < 0 ->
       AutomationStep.step_order step
       = Z.of_nat (length (steps_of_task (c_task_id step_data)
                             (automation_steps w)))) /\
      (0 <= c_step_order step_data ->
       AutomationStep.step_order step = c_step_order step_data)
  else
    exists e,
      AutomationService.create_step models step_data w = (Raise e, w).
Proof.
  destruct (storable models step_data (automation_steps w)) eqn:Hs;
    [| apply create_step_refused, Hs].
  eexists. split; [apply create_step_stored, Hs |].
  split; [reflexivity |].
  cbn [AutomationStep.step_order]. unfold claimed_order.
  split; intros H.
  - apply Z.ltb_lt in H. rewrite H. reflexivity.
  - apply Z.ltb_ge in H. rewrite H. reflexivity.
Qed.

(** The claim at its own example, on a mapping that configures and on the
    declared one. *)
Lemma create_step_step_order_witness :
  (exists step,
     AutomationService.create_step Base_with_foreign_key append_request
       (world_of PENDING [wait_step 1 0; click_step])
     = (Ok step,
        set_automation_steps (fun rows => (rows ++ [step])%list)
          (world_of PENDING [wait_step 1 0; click_step])) /\
     AutomationStep.step_order step = 2) /\
  (exists e,
     AutomationService.create_step Base append_request
       (world_of PENDING [wait_step 1 0; click_step])
     = (Raise e, world_of PENDING [wait_step 1 0; click_step])).
Proof.
  split.
  - pose proof (create_step_step_order Base_with_foreign_key append_request
                  (world_of PENDING [wait_step 1 0; click_step])) as H.
    change (storable _ _ _) with true in H.
    destruct H as (step & Hrun & _ & Hnegative & _).
    exists step. split; [exact Hrun |]. rewrite Hnegative; reflexivity.
  - pose proof (create_step_step_order Base append_request
                  (world_of PENDING [wait_step 1 0; click_step])) as H.
    exact H.
Defined.

(** ** The routes that start a run *)




(** The handler on the sample task, evaluated.  On the repaired mapping a
    pending task is handed to the orchestrator and a running one is
    rejected with HTTP 400; on the declared mapping the handler cannot
    read the task and answers HTTP 500. *)
Lemma execute_route_sample :
  TasksRoute.execute_task Base_with_foreign_key 1 []
    (world_of PENDING [wait_step 1 0])
  = (inr (TasksRoute.mkExecuteResponse "任务开始执行" "exec_1_0" 1),
     [TasksRoute.RunTask 1 "exec_1_0"]) /\
  TasksRoute.execute_task Base_with_foreign_key 1 []
    (world_of RUNNING [wait_step 1 0])
  = (inl (TasksRoute.mkHTTPException 400 "任务正在执行中"), []) /\
  TasksRoute.execute_task Base 1 [] (world_of PENDING [wait_step 1 0])
  = (inl (TasksRoute.mkHTTPException 500 (str_exn mapper_error)), []).
Proof. repeat split; vm_compute; reflexivity. Qed.

(** ** The step executor: [AutomationService.execute_step] *)

(** [execute_step] around its dispatch: the start row, the action, then
    either the success row and the wait after the step, or the error row
    and the same exception. *)
Lemma execute_step_eq lib step session_id w :
  AutomationService.execute_step lib step session_id w =
  match AutomationService.dispatch lib step session_id (started step w) with
  | (Ok result, w1) =>
      (Ok result,
       snd (AutomationService.wait_after step (logged_success step result w1)))
  | (Raise e, w1) => (Raise e, logged_failure step e w1)
  end.
Proof.
  unfold AutomationService.execute_step, AutomationService._log_execution,
    AutomationService.wait_after, asyncio_sleep.
  monad_unfold. fold (started step w).
  destruct (AutomationService.dispatch lib step session_id (started step w))
    as [[result | e] w1]; [| reflexivity].
  destruct (0 <? AutomationStep.wait_time step); reflexivity.
Qed.

Lemma wait_after_positive step w :
  0 < AutomationStep.wait_time step ->
  AutomationService.wait_after step w
  = (Ok tt, emit (EvSleep (AutomationStep.wait_time step # 1000)) w).
Proof.
  intros H. unfold AutomationService.wait_after.
  apply Z.ltb_lt in H. rewrite H. reflexivity.
Qed.

Lemma wait_after_none step w :
  AutomationStep.wait_time step <= 0 ->
  AutomationService.wait_after step w = (Ok tt, w).
Proof.
  intros H. unfold AutomationService.wait_after.
  apply Z.ltb_ge in H. rewrite H. reflexivity.
Qed.

(** *** Wait steps *)

(** Line 208 computes the duration the specification describes. *)
Lemma wait_time_of_spec step :
  AutomationService.wait_time_of step = spec_wait_duration step.
Proof.
  unfold AutomationService.wait_time_of, spec_wait_duration.
  destruct (AutomationStep.parameters step) as [p|]; [| reflexivity].
  cbn. case_bool_decide as Hp; [| destruct (p !! "wait_time"); reflexivity].
  subst p. rewrite lookup_empty. reflexivity.
Qed.

(** [C6].  A wait step hands to [asyncio.sleep] the value of
    [parameters.wait_time] when the parameter map has that key and the
    step's [timeout] otherwise; a number is slept for as that many seconds,
    with no conversion, and anything that is not a number makes the sleep
    raise [TypeError] before it suspends. *)
Theorem wait_step_duration lib step session_id w :
  AutomationStep.action_type step = WAIT ->
  AutomationService.wait_time_of step = spec_wait_duration step /\
  (forall q,
     spec_wait_duration step = JNum q ->
     AutomationService.dispatch lib step session_id w
     = (Ok (WaitResult (JNum q)), emit (EvSleep q) w)) /\
  (spec_wait_duration step = JNull \/
   (exists s, spec_wait_duration step = JStr s) \/
   spec_wait_duration step = JComposite ->
   exists msg,
     AutomationService.dispatch lib step session_id w
     = (Raise (TypeError msg), w)).
Proof.
  intros Hwait. split; [apply wait_time_of_spec |].
  unfold AutomationService.dispatch. rewrite Hwait.
  unfold AutomationService._execute_wait. rewrite wait_time_of_spec.
  split.
  - intros q ->. reflexivity.
  - intros [-> | [[s ->] | ->]]; eexists; reflexivity.
Qed.

Lemma wait_step_duration_witness :
  AutomationService.dispatch lib_ok (wait_step 1 2) "sess-1" empty_world
  = (Ok (WaitResult (JNum 2)), emit (EvSleep 2) empty_world) /\
  AutomationService.dispatch lib_ok wait_step_default "sess-1" empty_world
  = (Ok (WaitResult (JNum 45)), emit (EvSleep 45) empty_world).
Proof.
  split.
  - apply (proj1 (proj2 (wait_step_duration lib_ok (wait_step 1 2) "sess-1"
                           empty_world eq_refl)) 2%Q).
    vm_compute; reflexivity.
  - apply (proj1 (proj2 (wait_step_duration lib_ok wait_step_default "sess-1"
                           empty_world eq_refl)) 45%Q).
    vm_compute; reflexivity.
Defined.

(** *** The wait after a step *)

(** [C7].  When the action of a step succeeds and the step declares
    [wait_time > 0], [execute_step] writes the success row and then sleeps
    [wait_time / 1000] seconds before it returns; when the action fails it
    writes the error row and raises, with no sleep after it. *)
Theorem post_step_wait lib step session_id w :
  (forall result w1,
     AutomationService.dispatch lib step session_id (started step w)
     = (Ok result, w1) ->
     0 < AutomationStep.wait_time step ->
     AutomationService.execute_step lib step session_id w
     = (Ok result,
        emit (EvSleep (AutomationStep.wait_time step # 1000))
             (logged_success step result w1))) /\
  (forall e w1,
     AutomationService.dispatch lib step session_id (started step w)
     = (Raise e, w1) ->
     AutomationService.execute_step lib step session_id w
     = (Raise e, logged_failure step e w1)).
Proof.
  split.
  - intros result w1 Hd Hpos. rewrite execute_step_eq, Hd.
    rewrite wait_after_positive by exact Hpos. reflexivity.
  - intros e w1 Hd. rewrite execute_step_eq, Hd. reflexivity.
Qed.


(** With [wait_time <= 0] a successful step returns without sleeping. *)
Lemma no_wait_declared lib step session_id w result w1 :
  AutomationService.dispatch lib step session_id (started step w)
  = (Ok result, w1) ->
  AutomationStep.wait_time step <= 0 ->
  AutomationService.execute_step lib step session_id w
  = (Ok result, logged_success step result w1).
Proof.
  intros Hd Hle. rewrite execute_step_eq, Hd.
  rewrite wait_after_none by exact Hle. reflexivity.
Qed.

Lemma post_step_wait_witness :
  trace (snd (AutomationService.execute_step lib_ok click_step "sess-1"
                world_one_session))
  = [EvLog 1 2 "INFO" "开始执行步骤: go" None;
     EvCall (WaitForSelector "page1" "#go" 30000) (Returned "element #go");
     EvCall (ElementClick "element #go") (Returned "");
     EvLog 1 2 "INFO" "步骤执行成功: go" (Some (ClickResult "#go"));
     EvSleep (1500 # 1000)] /\
  AutomationService.execute_step lib_ok click_step_no_selector "sess-1"
    world_one_session
  = (Raise (ValueError "点击操作需要指定目标选择器"),
     logged_failure click_step_no_selector
       (ValueError "点击操作需要指定目标选择器")
       (started click_step_no_selector world_one_session)).
Proof.
  split.
  - rewrite (proj1 (post_step_wait lib_ok click_step "sess-1" world_one_session)
               (ClickResult "#go")
               (snd (AutomationService.dispatch lib_ok click_step "sess-1"
                       (started click_step world_one_session))));
      vm_compute; reflexivity.
  - apply (proj2 (post_step_wait lib_ok click_step_no_selector "sess-1"
                    world_one_session)).
    vm_compute; reflexivity.
Defined.

(** *** Click, hover and select *)

Lemma truthy_some s : s <> "" -> truthy (Some s) = true.
Proof. destruct s; [congruence | reflexivity]. Qed.

Lemma truthy_false o : truthy o = false <-> o = None \/ o = Some "".
Proof.
  destruct o as [[|c s]|]; cbn; split; intros H; try discriminate; auto.
  - destruct H as [H | H]; discriminate.
Qed.

Lemma required_missing field msg w :
  truthy field = false -> required field msg w = (Raise (ValueError msg), w).
Proof.
  intros H. unfold required. destruct field; [rewrite H |]; reflexivity.
Qed.

Lemma required_present s msg w :
  s <> "" -> required (Some s) msg w = (Ok s, w).
Proof. intros H. unfold required. rewrite truthy_some by exact H. reflexivity. Qed.

(** The click handler, case by case. *)
Lemma _execute_click_eq lib step session_id w :
  AutomationService._execute_click lib step session_id w =
  if truthy (AutomationStep.target_selector step) then
    let selector :=
      match AutomationStep.target_selector step with
      | Some text => text
      | None => ""
      end in
    match active_browsers w !! session_id with
    | None =>
        (Raise (AttributeError
                  "'NoneType' object has no attribute 'find_element'"), w)
    | Some s =>
        let locate := WaitForSelector (s_page s) selector (30 * 1000) in
        match lib (trace w) locate with
        | Raised m => (Raise (PlaywrightError m), emit (EvCall locate (Raised m)) w)
        | Returned element =>
            let w1 := emit (EvCall locate (Returned element)) w in
            match lib (trace w1) (ElementClick element) with
            | Raised m =>
                (Raise (PlaywrightError m),
                 emit (EvCall (ElementClick element) (Raised m)) w1)
            | Returned v =>
                (Ok (ClickResult selector),
                 emit (EvCall (ElementClick element) (Returned v)) w1)
            end
        end
    end
  else (Raise (ValueError "点击操作需要指定目标选择器"), w).
Proof.
  unfold AutomationService._execute_click, BrowserManager.get_browser,
    BrowserWrapperOps.find_element, BrowserWrapperOps.find_element_default_timeout.
  destruct (truthy (AutomationStep.target_selector step)) eqn:Ht.
  - destruct (AutomationStep.target_selector step) as [sel|] eqn:Hs;
      [| discriminate].
    unfold required. rewrite Ht. monad_unfold.
    destruct (active_browsers w !! session_id) as [s|]; [| reflexivity].
    cbn. destruct (lib (trace w) _) as [element | m]; [| reflexivity].
    cbn. destruct (lib _ (ElementClick element)); reflexivity.
  - monad_unfold.
    destruct (active_browsers w !! session_id) as [s|];
      rewrite required_missing by exact Ht; reflexivity.
Qed.

(** [C5], as stated, fails.  A hover step with a selector, run in an open
    session, is rejected as an unsupported action and nothing is located;
    and a click step with a timeout of 5 s is performed, but its element is
    located with a timeout of 30000 ms. *)
Lemma hover_with_selector_is_rejected :
  (AutomationStep.action_type hover_step = HOVER /\
   AutomationStep.target_selector hover_step = Some "#menu" /\
   active_browsers world_one_session !! "sess-1" = Some session1 /\
   AutomationService.execute_step lib_ok hover_step "sess-1" world_one_session
   = (Raise (ValueError "不支持的操作类型: hover"),
      emit (EvLog 1 3 "ERROR"
              "步骤执行失败: menu, 错误: 不支持的操作类型: hover" None)
        (emit (EvLog 1 3 "INFO" "开始执行步骤: menu" None)
           world_one_session)) /\
   ~ located_with_step_timeout lib_ok hover_step "sess-1" world_one_session) /\
  (AutomationStep.action_type click_step = CLICK /\
   AutomationStep.target_selector click_step = Some "#go" /\
   AutomationStep.timeout click_step = 5 /\
   trace (snd (AutomationService.execute_step lib_ok click_step "sess-1"
                 world_one_session))
   = [EvLog 1 2 "INFO" "开始执行步骤: go" None;
      EvCall (WaitForSelector "page1" "#go" 30000) (Returned "element #go");
      EvCall (ElementClick "element #go") (Returned "");
      EvLog 1 2 "INFO" "步骤执行成功: go" (Some (ClickResult "#go"));
      EvSleep (1500 # 1000)] /\
   ~ located_with_step_timeout lib_ok click_step "sess-1" world_one_session).
Proof.
  split.
  - assert (E : AutomationService.execute_step lib_ok hover_step "sess-1"
                  world_one_session
                = (Raise (ValueError "不支持的操作类型: hover"),
                   emit (EvLog 1 3 "ERROR"
                           "步骤执行失败: menu, 错误: 不支持的操作类型: hover" None)
                     (emit (EvLog 1 3 "INFO" "开始执行步骤: menu" None)
                        world_one_session)))
      by (vm_compute; reflexivity).
    repeat split; try (vm_compute; reflexivity).
    intros (result & w' & page & selector & reply & Hrun & _).
    rewrite E in Hrun. discriminate.
  - repeat split; try (vm_compute; reflexivity).
    intros (result & w' & page & selector & reply & Hrun & Hlocated).
    apply (f_equal (fun r => trace (snd r))) in Hrun.
    cbn [snd] in Hrun. rewrite <- Hrun in Hlocated.
    vm_compute in Hlocated.
    repeat (destruct Hlocated as [Hlocated | Hlocated]; try discriminate).
    exact Hlocated.
Qed.

(** [C5], amended.  For a click step, execution fails with the missing
    selector error exactly when the target selector is absent or empty; when
    it is present and the session is open, the element is located with the
    fixed timeout of 30 s (the step's own timeout is not used) and clicked.
    A hover or select step is rejected as an unsupported action, whether or
    not it has a selector. *)
Theorem click_needs_selector_hover_select_rejected lib step session_id w :
  (AutomationStep.action_type step = CLICK ->
   (fst (AutomationService.execute_step lib step session_id w)
    = Raise (ValueError "点击操作需要指定目标选择器")
    <-> truthy (AutomationStep.target_selector step) = false) /\
   (forall s selector element v,
      AutomationStep.target_selector step = Some selector ->
      selector <> "" ->
      active_browsers w !! session_id = Some s ->
      let locate := WaitForSelector (s_page s) selector (30 * 1000) in
      let w1 := emit (EvCall locate (Returned element)) (started step w) in
      lib (trace (started step w)) locate = Returned element ->
      lib (trace w1) (ElementClick element) = Returned v ->
      AutomationService.execute_step lib step session_id w
      = (Ok (ClickResult selector),
         snd (AutomationService.wait_after step
                (logged_success step (ClickResult selector)
                   (emit (EvCall (ElementClick element) (Returned v)) w1)))))) /\
  (AutomationStep.action_type step = HOVER \/
   AutomationStep.action_type step = SELECT ->
   let e := ValueError ("不支持的操作类型: "
                        +:+ ActionType_value (AutomationStep.action_type step)) in
   AutomationService.execute_step lib step session_id w
   = (Raise e, logged_failure step e (started step w))).
Proof.
  split.
  - intros Hclick. split.
    + rewrite execute_step_eq. unfold AutomationService.dispatch.
      rewrite Hclick, _execute_click_eq.
      destruct (truthy (AutomationStep.target_selector step)).
      * split; [| discriminate]. cbn zeta.
        change (active_browsers (started step w)) with (active_browsers w).
        destruct (active_browsers w !! session_id) as [s|]; [| discriminate].
        destruct (lib _ (WaitForSelector _ _ _)) as [element | m];
          [| discriminate].
        destruct (lib _ (ElementClick element)); discriminate.
      * split; reflexivity.
    + intros s selector element v Hsel Hne Hs locate w1 Hlocate Hclicked.
      rewrite execute_step_eq. unfold AutomationService.dispatch.
      rewrite Hclick, _execute_click_eq, Hsel, truthy_some by exact Hne.
      cbn zeta.
      change (active_browsers (started step w)) with (active_browsers w).
      rewrite Hs. fold locate. rewrite Hlocate. fold w1. rewrite Hclicked.
      reflexivity.
  - intros Hkind e. rewrite execute_step_eq. unfold AutomationService.dispatch.
    subst e. destruct Hkind as [-> | ->]; reflexivity.
Qed.

Lemma click_needs_selector_hover_select_rejected_witness :
  AutomationService.execute_step lib_ok click_step "sess-1" world_one_session
  = (Ok (ClickResult "#go"),
     emit (EvSleep (1500 # 1000))
       (logged_success click_step (ClickResult "#go")
          (emit (EvCall (ElementClick "element #go") (Returned ""))
             (emit (EvCall (WaitForSelector "page1" "#go" 30000)
                      (Returned "element #go"))
                (started click_step world_one_session))))) /\
  fst (AutomationService.execute_step lib_ok click_step_no_selector "sess-1"
         world_one_session)
  = Raise (ValueError "点击操作需要指定目标选择器").
Proof.
  split.
  - apply (proj2 (proj1 (click_needs_selector_hover_select_rejected lib_ok
                           click_step "sess-1" world_one_session) eq_refl)
             session1 "#go" "element #go" "");
      vm_compute; first [reflexivity | discriminate].
  - apply (proj1 (proj1 (click_needs_selector_hover_select_rejected lib_ok
                           click_step_no_selector "sess-1" world_one_session)
                    eq_refl)).
    vm_compute; reflexivity.
Defined.



(** ** Invariants of the services

    A relation between the world before and the world after that is a
    preorder is preserved by a computation as soon as each of its
    primitive steps preserves it, whatever the control flow (exceptions,
    handlers and [finally] blocks included). *)

Section Preservation.
Context (R : relation World) `{!PreOrder R}.

Lemma preserves_ret {A} (a : A) : preserves R (mret a).
Proof. intros w. reflexivity. Qed.

Lemma preserves_raise {A} e : preserves R (@raise A e).
Proof. intros w. reflexivity. Qed.

Lemma preserves_get_world : preserves R get_world.
Proof. intros w. reflexivity. Qed.

Lemma preserves_now : preserves R now.
Proof. intros w. reflexivity. Qed.

Lemma preserves_bind {A B} (m : M A) (k : A -> M B) :
  preserves R m -> (forall a, preserves R (k a)) -> preserves R (m ≫= k).
Proof.
  intros Hm Hk w. specialize (Hm w). monad_unfold.
  destruct (m w) as [[a | e] w1]; cbn [snd] in *; [| exact Hm].
  etrans; [exact Hm | apply Hk].
Qed.

Lemma preserves_try_except {A} (m : M A) (h : Exn -> M A) :
  preserves R m -> (forall e, preserves R (h e)) ->
  preserves R (try_except m h).
Proof.
  intros Hm Hh w. specialize (Hm w). monad_unfold.
  destruct (m w) as [[a | e] w1]; cbn [snd] in *; [exact Hm |].
  etrans; [exact Hm | apply Hh].
Qed.

Lemma preserves_try_finally {A} (m : M A) (fin : M unit) :
  preserves R m -> preserves R fin -> preserves R (try_finally m fin).
Proof.
  intros Hm Hf w. specialize (Hm w). monad_unfold.
  destruct (m w) as [r w1]. specialize (Hf w1).
  destruct (fin w1) as [[[] | e] w2]; cbn [snd] in *; etrans; eassumption.
Qed.

Lemma preserves_modify (f : World -> World) :
  (forall w, R w (f w)) -> preserves R (modify f).
Proof. intros Hf w. apply Hf. Qed.

Lemma preserves_attr {A} (o : option A) name : preserves R (attr o name).
Proof. destruct o; [apply preserves_ret | apply preserves_raise]. Qed.

Lemma preserves_required field msg : preserves R (required field msg).
Proof.
  unfold required. destruct field; [| apply preserves_raise].
  destruct (truthy _); [apply preserves_ret | apply preserves_raise].
Qed.

Lemma preserves_py_index l i : preserves R (py_index l i).
Proof.
  unfold py_index. destruct (l !! i); [apply preserves_ret | apply preserves_raise].
Qed.

Lemma preserves_py_int s : preserves R (py_int s).
Proof.
  unfold py_int.
  match goal with |- preserves R (match ?r with _ => _ end) => destruct r end;
    [apply preserves_ret | apply preserves_raise].
Qed.

Lemma preserves_bind_param z : preserves R (Db.bind z).
Proof.
  unfold Db.bind. destruct (fits_integer z);
    [apply preserves_ret | apply preserves_raise].
Qed.

Lemma preserves_query models : preserves R (Db.query models).
Proof.
  unfold Db.query. destruct (configures models);
    [apply preserves_ret | apply preserves_raise].
Qed.

Lemma preserves_construct models : preserves R (Db.construct models).
Proof. apply preserves_query. Qed.

End Preservation.

Global Instance same_counters_preorder : PreOrder same_counters.
Proof.
  split.
  - intros w id. reflexivity.
  - intros w1 w2 w3 H12 H23 id. rewrite H23. apply H12.
Qed.

Global Instance launch_residue_preorder : PreOrder launch_residue.
Proof.
  split.
  - intros w. repeat split; try reflexivity.
    exists []. split; [symmetry; apply app_nil_r | constructor].
  - intros w1 w2 w3 (Ht & Hs & He & Hc & l1 & Hl1 & F1)
      (Ht' & Hs' & He' & Hc' & l2 & Hl2 & F2).
    repeat split; try congruence.
    exists (l1 ++ l2)%list. split.
    + rewrite Hl2, Hl1, app_assoc. reflexivity.
    + apply Forall_app. split; assumption.
Qed.

Create HintDb preservation discriminated.
#[local] Hint Resolve preserves_ret preserves_raise preserves_get_world
  preserves_now preserves_attr preserves_required preserves_py_index
  preserves_py_int preserves_bind_param preserves_query preserves_construct
  same_counters_preorder launch_residue_preorder
  : preservation.

(** Structural descent through a computation; [leaf] closes what is left. *)
Ltac preserves_step :=
  match goal with
  | |- preserves _ (_ ≫= _) =>
      apply preserves_bind; try apply _; [| intros ?]
  | |- preserves _ (try_except _ _) =>
      apply preserves_try_except; try apply _; [| intros ?]
  | |- preserves _ (try_finally _ _) =>
      apply preserves_try_finally; try apply _
  | |- preserves _ (match ?x with _ => _ end) => destruct x
  | |- preserves _ (let '(_, _) := ?x in _) => destruct x
  | |- preserves _ _ => solve [auto with preservation]
  end.

Ltac preservation := repeat preserves_step.

(** *** The counters *)

Lemma same_counters_tasks w w' : tasks w' = tasks w -> same_counters w w'.
Proof. intros H id. rewrite H. reflexivity. Qed.

Lemma counters_modify (f : World -> World) :
  (forall w, tasks (f w) = tasks w) -> preserves same_counters (modify f).
Proof.
  intros Hf. apply preserves_modify; try apply _.
  intros w. apply same_counters_tasks, Hf.
Qed.

Lemma counters_call lib c : preserves same_counters (call lib c).
Proof.
  intros w. unfold call. destruct (lib (trace w) c);
    apply same_counters_tasks; reflexivity.
Qed.

Lemma counters_asyncio_sleep delay : preserves same_counters (asyncio_sleep delay).
Proof.
  destruct delay; cbn;
    first [apply preserves_raise; apply _ | apply counters_modify; reflexivity].
Qed.

Lemma counters_update_task_status models task_id status error_message :
  preserves same_counters
    (TaskService.update_task_status models task_id status error_message).
Proof.
  intros w id. unfold TaskService.update_task_status, Db.query, Db.bind.
  monad_unfold.
  destruct (configures models); [| reflexivity].
  destruct (fits_integer task_id); [| reflexivity].
  destruct (tasks w !! task_id) as [task|] eqn:Hrow; [| reflexivity].
  cbn [snd tasks set_tasks].
  destruct (decide (task_id = id)) as [-> | Hne].
  - rewrite lookup_insert_eq, Hrow. reflexivity.
  - rewrite lookup_insert_ne by exact Hne. reflexivity.
Qed.

Lemma counters_set_active_browsers f :
  preserves same_counters (modify (set_active_browsers f)).
Proof. apply counters_modify. reflexivity. Qed.

Lemma counters_set_active_executions f :
  preserves same_counters (modify (set_active_executions f)).
Proof. apply counters_modify. reflexivity. Qed.

Lemma counters_set_browser_sessions f :
  preserves same_counters (modify (set_browser_sessions f)).
Proof. apply counters_modify. reflexivity. Qed.

Lemma counters_set_playwright b :
  preserves same_counters (modify (set_playwright b)).
Proof. apply counters_modify. reflexivity. Qed.

Lemma counters_emit e : preserves same_counters (modify (emit e)).
Proof. apply counters_modify. reflexivity. Qed.

#[local] Hint Resolve counters_call counters_asyncio_sleep
  counters_update_task_status counters_set_active_browsers
  counters_set_active_executions counters_set_browser_sessions
  counters_set_playwright counters_emit : preservation.

Lemma counters_add_browser_session row :
  preserves same_counters (add_browser_session row).
Proof. unfold add_browser_session. preservation. Qed.

Lemma counters_stop_task models task_id :
  preserves same_counters (TaskService.stop_task models task_id).
Proof. unfold TaskService.stop_task. preservation. Qed.

Lemma counters_get_task models task_id :
  preserves same_counters (TaskService.get_task models task_id).
Proof. unfold TaskService.get_task. preservation. Qed.

#[local] Hint Resolve counters_add_browser_session counters_stop_task
  counters_get_task : preservation.

Lemma counters_execute_step lib step session_id :
  preserves same_counters (AutomationService.execute_step lib step session_id).
Proof.
  unfold AutomationService.execute_step, AutomationService.dispatch,
    AutomationService.wait_after, AutomationService._execute_click,
    AutomationService._execute_type, AutomationService._execute_scroll,
    AutomationService._execute_wait, AutomationService._execute_navigate,
    AutomationService._execute_screenshot, AutomationService._log_execution,
    BrowserManager.get_browser, BrowserWrapperOps.find_element,
    BrowserWrapperOps.goto, BrowserWrapperOps.take_screenshot.
  preservation.
Qed.

Lemma counters_launch_browser models lib config :
  preserves same_counters (AutomationService.launch_browser models lib config).
Proof.
  unfold AutomationService.launch_browser, BrowserManager.launch_browser,
    BrowserManager.initialize.
  preservation.
Qed.

Lemma counters_close_session models lib session_id :
  preserves same_counters
    (AutomationService.close_session models lib session_id).
Proof.
  unfold AutomationService.close_session, BrowserManager.close_session.
  preservation.
Qed.

Lemma counters_navigate_to_url models lib session_id url :
  preserves same_counters
    (AutomationService.navigate_to_url models lib session_id url).
Proof.
  unfold AutomationService.navigate_to_url, BrowserManager.get_browser,
    BrowserWrapperOps.goto.
  preservation.
Qed.

#[local] Hint Resolve counters_execute_step
  counters_launch_browser counters_close_session counters_navigate_to_url
  : preservation.

Lemma counters_run_steps models lib stops task_id execution_id session_id
  steps :
  forall i success_count failed_count,
    preserves same_counters
      (ExecutionService.run_steps models lib stops task_id execution_id session_id
         i steps success_count failed_count).
Proof.
  induction steps as [| step rest IH]; intros i sc fc;
    cbn [ExecutionService.run_steps];
    unfold ExecutionService.update_execution,
      ExecutionService.served_meanwhile, TaskService.get_task,
      AutomationService._log_execution;
    preservation; apply IH.
Qed.

#[local] Hint Resolve counters_run_steps : preservation.

(** Even with a session open, the run leaves the counters alone. *)
Lemma counters_run_in_session models lib stops task_id execution_id
  session_id steps :
  preserves same_counters
    (ExecutionService.run_in_session models lib stops task_id execution_id
       session_id steps).
Proof.
  unfold ExecutionService.run_in_session, ExecutionService.finish_run,
    ExecutionService.update_execution.
  preservation.
Qed.

#[local] Hint Resolve counters_run_in_session : preservation.

(** ** The orchestrator: [ExecutionService.execute_task] *)

(** *** The cumulative counters *)

(** [C2]: the counters of the store are never written.  Whatever the
    mapping, the task, the library and the stop requests, every task row has after
    [execute_task] the [execution_count], [success_count] and
    [failure_count] it had before: lines 98-100 add to the [TaskResponse]
    copy that [get_task] returned, which is dropped, and
    [update_task_status] writes the status, the timestamps and the note
    only. *)
Theorem execute_task_never_updates_counters models lib stops task_id
  execution_id w :
  forall id,
    counters <$>
      (tasks (snd (ExecutionService.execute_task models lib stops task_id
                     execution_id w)) !! id)
    = counters <$> (tasks w !! id).
Proof.
  revert w.
  change (preserves same_counters
            (ExecutionService.execute_task models lib stops task_id
               execution_id)).
  unfold ExecutionService.execute_task, ExecutionService.forget_execution.
  preservation.
Qed.
(** *** The run on the declared mapping *)

(** On a mapping that does not configure, the step query of line 45
    raises for every task: the handler of line 126 cannot write the
    status (its own query raises, and [update_task_status] swallows
    that), and deletes the record of the run.  No task row changes, and
    the library is not called. *)
Lemma execute_task_unmapped models lib stops task_id execution_id w :
  configures models = false ->
  ExecutionService.execute_task models lib stops task_id execution_id w
  = (Ok tt,
     set_active_executions (delete execution_id)
       (set_active_executions
          (insert execution_id (mkExecution task_id "running" (clock w) 0 0))
          w)).
Proof.
  intros Hm. unfold ExecutionService.execute_task.
  erewrite try_except_raise.
  2:{ erewrite bind_ok by reflexivity.
      erewrite bind_ok by reflexivity.
      erewrite bind_ok by (apply update_task_status_unmapped, Hm).
      apply bind_raise, query_unmapped, Hm. }
  erewrite bind_ok by (apply update_task_status_unmapped, Hm).
  reflexivity.
Qed.

Lemma execute_task_unmapped_keeps models lib stops task_id execution_id w :
  configures models = false ->
  exists w',
    ExecutionService.execute_task models lib stops task_id execution_id w
    = (Ok tt, w') /\
    tasks w' = tasks w /\
    automation_steps w' = automation_steps w /\
    browser_sessions w' = browser_sessions w /\
    active_browsers w' = active_browsers w /\
    playwright w' = playwright w /\
    active_executions w' = delete execution_id (active_executions w) /\
    clock w' = clock w /\
    trace w' = trace w.
Proof.
  intros Hm. eexists. split; [apply execute_task_unmapped, Hm |].
  cbn. rewrite delete_insert_eq. repeat split; reflexivity.
Qed.

(** *** A task without steps *)

Lemma steps_by_order_nil task_id rows :
  steps_of_task task_id rows = [] -> steps_by_order task_id rows = [].
Proof. unfold steps_by_order. intros ->. reflexivity. Qed.

Lemma insert_by_order_cons s sorted :
  exists x l, insert_by_order s sorted = x :: l.
Proof.
  destruct sorted as [| y sorted]; cbn; [eauto |].
  destruct (_ <=? _); eauto.
Qed.

Lemma steps_by_order_cons task_id rows :
  steps_of_task task_id rows <> [] ->
  exists s l, steps_by_order task_id rows = s :: l.
Proof.
  intros Hne. unfold steps_by_order.
  destruct (steps_of_task task_id rows) as [| a l]; [congruence |].
  cbn [foldr]. apply insert_by_order_cons.
Qed.

(** The steps of a task are run in ascending [step_order], whatever the
    order of their rows. *)
Lemma steps_by_order_sample :
  steps_by_order 1 [hover_step; wait_step 1 0; click_step]
  = [wait_step 1 0; click_step; hover_step].
Proof. vm_compute. reflexivity. Qed.

(** [C3].  For a task of the store that has no step, [execute_task]
    returns without a call to the library: no browser is launched, and
    the session registry is as it was.  On a mapping that configures, the
    task is then [failed] with the note that no step is configured.  On
    the declared mapping, which does not, the run cannot read the steps:
    every task row is as it was before the run, so the task is not
    [failed], and the record of the run is deleted. *)
Theorem execute_task_without_steps models lib stops task_id execution_id w
  task :
  tasks w !! task_id = Some task ->
  steps_of_task task_id (automation_steps w) = [] ->
  fits_integer task_id = true ->
  exists w',
    ExecutionService.execute_task models lib stops task_id execution_id w
    = (Ok tt, w') /\
    active_browsers w' = active_browsers w /\
    playwright w' = playwright w /\
    trace w' = trace w /\
    if configures models
    then exists task',
        tasks w' !! task_id = Some task' /\
        Task.status task' = FAILED /\
        Task.error_message task' = Some "任务没有配置自动化步骤"
    else tasks w' = tasks w /\
         active_executions w' = delete execution_id (active_executions w).
Proof.
  intros Hrow Hnone Hz.
  destruct (configures models) eqn:Hm.
  - set (w1 := set_active_executions
                 (insert execution_id
                    (mkExecution task_id "running" (clock w) 0 0)) w).
    destruct (update_task_status_found models task_id RUNNING None w1 task
                Hm Hz Hrow)
      as (t1 & Hupd1 & _).
    set (w2 := set_tasks (insert task_id t1) w1) in *.
    assert (Hrow2 : tasks w2 !! task_id = Some t1)
      by (cbn; apply lookup_insert_eq).
    destruct (update_task_status_found models task_id FAILED
                (Some "任务没有配置自动化步骤") w2 t1 Hm Hz Hrow2)
      as (t2 & Hupd2 & Hst & Hmsg & _).
    exists (set_tasks (insert task_id t2) w2). split.
    { unfold ExecutionService.execute_task. apply try_except_ok.
      erewrite bind_ok by reflexivity.
      erewrite bind_ok by reflexivity.
      erewrite bind_ok by exact Hupd1.
      rewrite query_bind_mapped by assumption.
      erewrite bind_ok by reflexivity.
      change (automation_steps w2) with (automation_steps w).
      rewrite (steps_by_order_nil _ _ Hnone). exact Hupd2. }
    repeat split; try reflexivity.
    exists t2. split; [cbn; apply lookup_insert_eq |].
    split; [exact Hst | exact Hmsg].
  - destruct (execute_task_unmapped_keeps models lib stops task_id
                execution_id w Hm)
      as (w' & Hrun & Ht & _ & _ & Hb & Hp & He & _ & Htr).
    exists w'. repeat split; assumption.
Qed.

(** The run of the pending task 1 without steps on the declared mapping:
    nothing of the store, the registry and the trace changes. *)
Lemma execute_task_without_steps_witness :
  exists w',
    ExecutionService.execute_task Base lib_ok never_stopped 1 "exec_1_0"
      (world_of PENDING []) = (Ok tt, w') /\
    active_browsers w' = active_browsers (world_of PENDING []) /\
    playwright w' = playwright (world_of PENDING []) /\
    trace w' = trace (world_of PENDING []) /\
    tasks w' = tasks (world_of PENDING []) /\
    active_executions w'
    = delete "exec_1_0" (active_executions (world_of PENDING [])).
Proof.
  apply (execute_task_without_steps Base lib_ok never_stopped 1 "exec_1_0"
           (world_of PENDING []) (task1 PENDING));
    vm_compute; reflexivity.
Defined.

(** The same run and the run on the repaired mapping, evaluated: the task
    stays [pending] on the declared mapping. *)
Lemma execute_task_without_steps_evaluated :
  let w := world_of PENDING [] in
  let declared :=
    snd (ExecutionService.execute_task Base lib_ok never_stopped 1
           "exec_1_0" w) in
  let repaired :=
    snd (ExecutionService.execute_task Base_with_foreign_key lib_ok
           never_stopped 1 "exec_1_0" w) in
  Task.status <$> (tasks declared !! 1) = Some PENDING /\
  Task.error_message <$> (tasks declared !! 1) = Some None /\
  active_executions declared = ∅ /\
  Task.status <$> (tasks repaired !! 1) = Some FAILED /\
  Task.error_message <$> (tasks repaired !! 1)
  = Some (Some "任务没有配置自动化步骤") /\
  active_executions repaired !! "exec_1_0"
  = Some (mkExecution 1 "running" 0 0 0).
Proof. vm_compute. repeat split; reflexivity. Qed.

(** *** A task with steps *)

(** [execute_task] opens its session with [launch_browser(None)]. *)
Lemma residue_call lib c :
  is_launch_call (EvCall c (Returned "")) ->
  preserves launch_residue (call lib c).
Proof.
  intros Hc w. unfold call.
  destruct (lib (trace w) c) as [v | m]; cbn [snd];
    repeat split; try reflexivity;
    eexists; (split; [reflexivity |]); repeat constructor;
    destruct c; try contradiction; exact I.
Qed.

Lemma residue_modify (f : World -> World) :
  (forall w, tasks (f w) = tasks w /\
             automation_steps (f w) = automation_steps w /\
             active_executions (f w) = active_executions w /\
             clock (f w) = clock w /\
             trace (f w) = trace w) ->
  preserves launch_residue (modify f).
Proof.
  intros Hf. apply preserves_modify; try apply _. intros w.
  destruct (Hf w) as (Ht & Hs & He & Hc & Htr).
  repeat split; try assumption.
  exists []. split; [rewrite Htr; symmetry; apply app_nil_r | constructor].
Qed.

Lemma residue_launch_browser models lib :
  preserves launch_residue (AutomationService.launch_browser models lib None).
Proof.
  unfold AutomationService.launch_browser, BrowserManager.launch_browser,
    BrowserManager.initialize.
  cbn [attr].
  repeat first
    [ preserves_step
    | apply residue_modify; intros w; repeat split; reflexivity
    | apply residue_call; exact I ].
Qed.

Lemma always_raises_bind {A B} (m : M A) (k : A -> M B) :
  (forall a, always_raises (k a)) -> always_raises (m ≫= k).
Proof.
  intros Hk w. monad_unfold.
  destruct (m w) as [[a | e] w1]; [apply Hk | eexists; reflexivity].
Qed.

Lemma launch_browser_none_raises models lib :
  always_raises (AutomationService.launch_browser models lib None).
Proof.
  unfold AutomationService.launch_browser.
  apply always_raises_bind. intros info w. eexists. reflexivity.
Qed.

(** What [execute_task] does for every task that has a step: no step is
    dispatched.  On the declared mapping the step query raises, and
    nothing but the record of the run is touched.  On a mapping that
    configures, the session is opened with [launch_browser(None)], which
    raises after the browser was launched: the trace grows by launch calls
    only, and the task ends [failed] with the text of that exception. *)
Lemma execute_task_with_steps_dispatches_nothing
  models lib stops task_id execution_id w task :
  tasks w !! task_id = Some task ->
  steps_of_task task_id (automation_steps w) <> [] ->
  fits_integer task_id = true ->
  exists w' launch,
    ExecutionService.execute_task models lib stops task_id execution_id w
    = (Ok tt, w') /\
    trace w' = (trace w ++ launch)%list /\
    Forall is_launch_call launch /\
    active_executions w' = delete execution_id (active_executions w) /\
    if configures models
    then exists task' e,
        tasks w' !! task_id = Some task' /\
        Task.status task' = FAILED /\
        Task.error_message task' = Some ("任务执行异常: " +:+ str_exn e)
    else tasks w' = tasks w /\ launch = [].
Proof.
  intros Hrow Hsteps Hz.
  destruct (configures models) eqn:Hm.
  - destruct (steps_by_order_cons _ _ Hsteps) as (s & l & Hsorted).
    set (w1 := set_active_executions
                 (insert execution_id
                    (mkExecution task_id "running" (clock w) 0 0)) w).
    destruct (update_task_status_found models task_id RUNNING None w1 task
                Hm Hz Hrow)
      as (t1 & Hupd1 & _).
    set (w2 := set_tasks (insert task_id t1) w1) in *.
    destruct (launch_browser_none_raises models lib w2) as [e He].
    pose proof (residue_launch_browser models lib w2) as Hres.
    destruct (AutomationService.launch_browser models lib None w2)
      as [r w3] eqn:Hlaunch.
    cbn [fst snd] in He, Hres. subst r.
    destruct Hres as (Ht & _ & Hex & _ & launch & Htr & Hl).
    assert (Hrow3 : tasks w3 !! task_id = Some t1)
      by (rewrite Ht; cbn; apply lookup_insert_eq).
    destruct (update_task_status_found models task_id FAILED
                (Some ("任务执行异常: " +:+ str_exn e)) w3 t1 Hm Hz Hrow3)
      as (t2 & Hupd2 & Hst & Hmsg & _).
    eexists. exists launch. split.
    { unfold ExecutionService.execute_task.
      erewrite try_except_raise.
      2:{ erewrite bind_ok by reflexivity.
          erewrite bind_ok by reflexivity.
          erewrite bind_ok by exact Hupd1.
          rewrite query_bind_mapped by assumption.
          erewrite bind_ok by reflexivity.
          change (automation_steps w2) with (automation_steps w).
          rewrite Hsorted.
          apply bind_raise. exact Hlaunch. }
      erewrite bind_ok by exact Hupd2. reflexivity. }
    cbn [trace tasks active_executions set_tasks set_active_executions].
    split; [exact Htr |]. split; [exact Hl |].
    split; [rewrite Hex; cbn; apply delete_insert_eq |].
    exists t2, e. split; [apply lookup_insert_eq |].
    split; [exact Hst | exact Hmsg].
  - destruct (execute_task_unmapped_keeps models lib stops task_id
                execution_id w Hm)
      as (w' & Hrun & Ht & _ & _ & _ & _ & He & _ & Htr).
    exists w', []. rewrite app_nil_r. repeat split; try assumption.
    constructor.
Qed.

(** The step of the sample task succeeds whenever the step executor is
    given it, in any session, world and library. *)
Lemma wait_step_always_succeeds lib session_id w :
  fst (AutomationService.execute_step lib (wait_step 1 0) session_id w)
  = Ok (WaitResult (JNum 0)).
Proof.
  rewrite execute_step_eq. unfold AutomationService.dispatch.
  cbn [AutomationStep.action_type wait_step].
  unfold AutomationService._execute_wait.
  assert (E : AutomationService.wait_time_of (wait_step 1 0) = JNum 0)
    by (vm_compute; reflexivity).
  rewrite E. reflexivity.
Qed.

(** The run of a task whose only step waits for 0 seconds, in full.  On
    the declared mapping the task stays [pending] and no browser is
    launched.  On the repaired mapping the task fails, its counters stay
    at zero, and the launched session stays in the registry. *)
Lemma execute_task_single_wait_step :
  let w := world_of PENDING [wait_step 1 0] in
  let declared :=
    snd (ExecutionService.execute_task Base lib_ok never_stopped 1
           "exec_1_0" w) in
  let w' :=
    snd (ExecutionService.execute_task Base_with_foreign_key lib_ok
           never_stopped 1 "exec_1_0" w) in
  tasks declared = tasks w /\
  trace declared = [] /\
  active_browsers declared = ∅ /\
  Task.status <$> (tasks w' !! 1) = Some FAILED /\
  Task.error_message <$> (tasks w' !! 1)
  = Some (Some "任务执行异常: 'NoneType' object has no attribute 'browser_type'") /\
  counters <$> (tasks w' !! 1) = Some (0, 0, 0) /\
  trace w'
  = [EvCall PlaywrightStart (Returned "");
     EvCall (ChromiumLaunch true ["--no-sandbox"; "--disable-setuid-sandbox"])
            (Returned "browser1");
     EvCall (NewContext "browser1" 1920 1080 None None) (Returned "context1");
     EvCall (NewPage "context1") (Returned "page1");
     EvCall Uuid4 (Returned "sess-1")] /\
  active_browsers w' !! "sess-1" = Some session1.
Proof. vm_compute. repeat split; reflexivity. Qed.

(** The same with a target URL. *)
Lemma execute_task_single_wait_step_with_url :
  let declared :=
    snd (ExecutionService.execute_task Base lib_ok never_stopped 1
           "exec_1_0" world_with_url) in
  let w' :=
    snd (ExecutionService.execute_task Base_with_foreign_key lib_ok
           never_stopped 1 "exec_1_0" world_with_url) in
  Task.status <$> (tasks declared !! 1) = Some PENDING /\
  trace declared = [] /\
  Task.status <$> (tasks w' !! 1) = Some FAILED /\
  Task.error_message <$> (tasks w' !! 1)
  = Some (Some "任务执行异常: 'NoneType' object has no attribute 'browser_type'") /\
  counters <$> (tasks w' !! 1) = Some (0, 0, 0) /\
  length (trace w') = 5%nat /\
  last (trace w') = Some (EvCall Uuid4 (Returned "sess-1")).
Proof. vm_compute. repeat split; reflexivity. Qed.

(** Lines 102-111 decide as the specification says. *)
Lemma final_status_decision success_count failed_count total :
  0 <= success_count -> 0 <= failed_count ->
  (0 < success_count ->
   fst (ExecutionService.final_status success_count failed_count total)
   = COMPLETED) /\
  (0 < success_count -> 0 < failed_count ->
   snd (ExecutionService.final_status success_count failed_count total)
   <> None) /\
  (success_count = 0 -> 0 < failed_count ->
   fst (ExecutionService.final_status success_count failed_count total)
   = FAILED).
Proof.
  intros Hs Hf. unfold ExecutionService.final_status.
  destruct (Z.eqb_spec failed_count 0) as [-> | Hne];
    destruct (Z.ltb_spec 0 success_count); cbn; repeat split;
    intros; first [reflexivity | discriminate | lia].
Qed.



(** The body of the inner [try], entered with an open session and a task
    without URL, on the repaired mapping: one step succeeds, one is
    rejected, the task is [completed] with a note, and the counters of
    the store are untouched.  On the declared mapping the body raises at
    its first query, [get_task], and nothing is written. *)
Lemma run_in_session_partial_failure :
  let w := world_in_loop [wait_step 1 0; hover_step] in
  let w' := snd (ExecutionService.run_in_session Base_with_foreign_key lib_ok
                   never_stopped 1 "exec_1_0" "sess-1"
                   [wait_step 1 0; hover_step] w) in
  Task.status <$> (tasks w' !! 1) = Some COMPLETED /\
  Task.error_message <$> (tasks w' !! 1) = Some (Some "部分步骤失败: 1/2") /\
  counters <$> (tasks w' !! 1) = Some (0, 0, 0) /\
  ExecutionService.run_in_session Base lib_ok never_stopped 1 "exec_1_0"
    "sess-1" [wait_step 1 0; hover_step] w
  = (Raise mapper_error, w).
Proof. vm_compute. repeat split; reflexivity. Qed.

(** With a URL, the body stops at [navigate_to_url], which never returns. *)
Lemma navigate_to_url_raises models lib session_id url w :
  exists e,
    fst (AutomationService.navigate_to_url models lib session_id url w)
    = Raise e.
Proof.
  unfold AutomationService.navigate_to_url, BrowserManager.get_browser,
    BrowserWrapperOps.goto, call, Db.query.
  unfold mbind, M_bind, mret, M_ret, get_world, now, modify, raise.
  destruct (active_browsers w !! session_id) as [s|]; cbn; [| eauto].
  destruct (lib (trace w) _); cbn; [| eauto].
  destruct (lib _ (PageUrl _)); cbn; [| eauto].
  destruct (lib _ (PageTitle _)); cbn; [| eauto].
  destruct (configures models); cbn; eauto.
Qed.

(** * Further properties *)

(** ** [TaskService] *)

(** [X1].  [stop_task] on a task that is running or pending.  On a
    mapping that configures it cancels the task and returns true; asked
    again, it returns false and changes nothing.  On the declared mapping
    its query raises, and it returns false and changes nothing.  For a
    task that is absent or in any other status it returns false and
    changes nothing, whatever the mapping. *)
Theorem stop_task_once models task_id w :
  (forall task,
     tasks w !! task_id = Some task ->
     Task.status task = RUNNING \/ Task.status task = PENDING ->
     fits_integer task_id = true ->
     if configures models
     then exists w' task',
         TaskService.stop_task models task_id w = (Ok true, w') /\
         tasks w' !! task_id = Some task' /\
         Task.status task' = CANCELLED /\
         Task.error_message task' = Some "用户手动停止" /\
         TaskService.stop_task models task_id w' = (Ok false, w')
     else TaskService.stop_task models task_id w = (Ok false, w)) /\
  ((tasks w !! task_id = None \/
    exists task,
      tasks w !! task_id = Some task /\
      Task.status task <> RUNNING /\ Task.status task <> PENDING) ->
   TaskService.stop_task models task_id w = (Ok false, w)).
Proof.
  split; [| apply stop_task_refuses].
  intros task Hrow Hstatus Hz.
  destruct (configures models) eqn:Hm; [| apply stop_task_unmapped, Hm].
  destruct (stop_task_cancels models task_id w task Hm Hz Hrow Hstatus)
    as (task' & Hstop & Hst & Hmsg & _).
  exists (set_tasks (insert task_id task') w), task'.
  split; [exact Hstop |].
  cbn [tasks set_tasks]. rewrite lookup_insert_eq.
  split; [reflexivity |]. split; [exact Hst |]. split; [exact Hmsg |].
  apply stop_task_refuses. right. exists task'.
  cbn [tasks set_tasks]. rewrite lookup_insert_eq.
  split; [reflexivity |]. rewrite Hst. split; discriminate.
Qed.

Lemma stop_task_once_witness :
  TaskService.stop_task Base 1 (world_of RUNNING [])
  = (Ok false, world_of RUNNING []) /\
  exists w' task',
    TaskService.stop_task Base_with_foreign_key 1 (world_of RUNNING [])
    = (Ok true, w') /\
    tasks w' !! 1 = Some task' /\
    Task.status task' = CANCELLED /\
    Task.error_message task' = Some "用户手动停止" /\
    TaskService.stop_task Base_with_foreign_key 1 w' = (Ok false, w').
Proof.
  split.
  - apply (proj1 (stop_task_once Base 1 (world_of RUNNING []))
             (task1 RUNNING)); [reflexivity | left; reflexivity | reflexivity].
  - apply (proj1 (stop_task_once Base_with_foreign_key 1
                    (world_of RUNNING [])) (task1 RUNNING));
      [reflexivity | left; reflexivity | reflexivity].
Defined.

(** [X2].  A status update with a note, then one without.  On a mapping
    that configures the note outlives the first status: the second update
    changes the status and leaves the note in the row.  On the declared
    mapping both updates return without writing. *)
Theorem error_note_outlives_status models task_id note status status' w
  task :
  tasks w !! task_id = Some task ->
  note <> "" ->
  fits_integer task_id = true ->
  exists w1 w2,
    TaskService.update_task_status models task_id status (Some note) w
    = (Ok tt, w1) /\
    TaskService.update_task_status models task_id status' None w1
    = (Ok tt, w2) /\
    if configures models
    then exists task2,
        tasks w2 !! task_id = Some task2 /\
        Task.status task2 = status' /\
        Task.error_message task2 = Some note
    else w2 = w.
Proof.
  intros Hrow Hnote Hz.
  destruct (configures models) eqn:Hm.
  - destruct (update_task_status_found models task_id status (Some note) w
                task Hm Hz Hrow)
      as (t1 & Hupd1 & _ & Hmsg1 & _).
    rewrite truthy_some in Hmsg1 by exact Hnote.
    set (w1 := set_tasks (insert task_id t1) w) in *.
    assert (Hrow1 : tasks w1 !! task_id = Some t1)
      by (cbn [tasks set_tasks w1]; apply lookup_insert_eq).
    destruct (update_task_status_found models task_id status' None w1 t1
                Hm Hz Hrow1)
      as (t2 & Hupd2 & Hst2 & Hmsg2 & _).
    exists w1, (set_tasks (insert task_id t2) w1).
    split; [exact Hupd1 |]. split; [exact Hupd2 |].
    exists t2. cbn [tasks set_tasks]. rewrite lookup_insert_eq.
    split; [reflexivity |]. split; [exact Hst2 |].
    rewrite Hmsg2. cbn [truthy]. exact Hmsg1.
  - exists w, w. rewrite !update_task_status_unmapped by exact Hm.
    repeat split.
Qed.

Lemma error_note_outlives_status_witness :
  (exists w1 w2,
     TaskService.update_task_status Base 1 FAILED (Some "所有步骤执行失败")
       (world_of RUNNING []) = (Ok tt, w1) /\
     TaskService.update_task_status Base 1 COMPLETED None w1 = (Ok tt, w2) /\
     w2 = world_of RUNNING []) /\
  (exists w1 w2,
     TaskService.update_task_status Base_with_foreign_key 1 FAILED
       (Some "所有步骤执行失败") (world_of RUNNING []) = (Ok tt, w1) /\
     TaskService.update_task_status Base_with_foreign_key 1 COMPLETED None w1
     = (Ok tt, w2) /\
     exists task2,
       tasks w2 !! 1 = Some task2 /\
       Task.status task2 = COMPLETED /\
       Task.error_message task2 = Some "所有步骤执行失败").
Proof.
  split.
  - apply (error_note_outlives_status Base 1 "所有步骤执行失败" FAILED
             COMPLETED (world_of RUNNING []) (task1 RUNNING));
      [reflexivity | discriminate | reflexivity].
  - apply (error_note_outlives_status Base_with_foreign_key 1
             "所有步骤执行失败" FAILED COMPLETED (world_of RUNNING [])
             (task1 RUNNING));
      [reflexivity | discriminate | reflexivity].
Defined.

(** ** The step executor, further *)

Global Instance only_trace_grows_preorder : PreOrder only_trace_grows.
Proof.
  split.
  - intros w. repeat split; try reflexivity.
    exists []. symmetry. apply app_nil_r.
  - intros w1 w2 w3 (A1 & A2 & A3 & A4 & A5 & A6 & A7 & l1 & Hl1)
      (B1 & B2 & B3 & B4 & B5 & B6 & B7 & l2 & Hl2).
    repeat split; try congruence.
    exists (l1 ++ l2)%list. rewrite Hl2, Hl1, app_assoc. reflexivity.
Qed.

Lemma only_trace_grows_emit e w : only_trace_grows w (emit e w).
Proof. repeat split; try reflexivity. exists [e]. reflexivity. Qed.

Lemma frame_emit e : preserves only_trace_grows (modify (emit e)).
Proof. intros w. apply only_trace_grows_emit. Qed.

Lemma frame_call lib c : preserves only_trace_grows (call lib c).
Proof.
  intros w. unfold call. destruct (lib (trace w) c); apply only_trace_grows_emit.
Qed.

Lemma frame_asyncio_sleep delay : preserves only_trace_grows (asyncio_sleep delay).
Proof.
  destruct delay; cbn;
    first [apply preserves_raise; apply _ | apply frame_emit].
Qed.

#[local] Hint Resolve only_trace_grows_preorder frame_emit frame_call
  frame_asyncio_sleep : preservation.

Ltac unfold_step_executor :=
  unfold AutomationService.execute_step, AutomationService.dispatch,
    AutomationService.wait_after, AutomationService._execute_click,
    AutomationService._execute_type, AutomationService._execute_scroll,
    AutomationService._execute_wait, AutomationService._execute_navigate,
    AutomationService._execute_screenshot, AutomationService._log_execution,
    BrowserManager.get_browser, BrowserWrapperOps.find_element,
    BrowserWrapperOps.goto, BrowserWrapperOps.take_screenshot.

Lemma frame_execute_step lib step session_id :
  preserves only_trace_grows
    (AutomationService.execute_step lib step session_id).
Proof. unfold_step_executor. preservation. Qed.

(** [X3].  Executing a step changes nothing of the world but the trace,
    and only appends to it: the store, the session registry and the
    execution records are as before, whether the step succeeds or fails. *)
Theorem execute_step_only_appends lib step session_id w :
  only_trace_grows w
    (snd (AutomationService.execute_step lib step session_id w)).
Proof. apply frame_execute_step. Qed.

Lemma truthy_present field :
  truthy field = true -> exists s, field = Some s /\ s <> "".
Proof.
  destruct field as [[| c s] |]; cbn; try discriminate.
  intros _. eexists. split; [reflexivity | discriminate].
Qed.

Lemma get_browser_eq session_id w :
  BrowserManager.get_browser session_id w
  = (Ok (match active_browsers w !! session_id with
         | Some session =>
             Some (mkBrowserWrapper session_id (s_browser session)
                     (s_context session) (s_page session) "" "")
         | None => None
         end), w).
Proof.
  unfold BrowserManager.get_browser. monad_unfold.
  destruct (active_browsers w !! session_id); reflexivity.
Qed.

(** [X5].  A click or type step without selector, a type step without
    text and a navigate step without URL fail with their own [ValueError]
    before the browser is used: the run of the step consists of the start
    row and the error row, whether or not the session exists. *)
Theorem missing_parameter_makes_no_call lib step session_id w :
  let fails_with msg :=
    AutomationService.execute_step lib step session_id w
    = (Raise (ValueError msg),
       logged_failure step (ValueError msg) (started step w)) in
  (AutomationStep.action_type step = CLICK ->
   truthy (AutomationStep.target_selector step) = false ->
   fails_with "点击操作需要指定目标选择器") /\
  (AutomationStep.action_type step = TYPE ->
   truthy (AutomationStep.target_selector step) = false ->
   fails_with "输入操作需要指定目标选择器") /\
  (AutomationStep.action_type step = TYPE ->
   truthy (AutomationStep.target_selector step) = true ->
   truthy (AutomationStep.target_text step) = false ->
   fails_with "输入操作需要指定输入文本") /\
  (AutomationStep.action_type step = NAVIGATE ->
   truthy (AutomationStep.target_url step) = false ->
   fails_with "导航操作需要指定URL").
Proof.
  cbv zeta. repeat split.
  - intros Hkind Hsel. rewrite execute_step_eq.
    unfold AutomationService.dispatch. rewrite Hkind.
    unfold AutomationService._execute_click. unfold mbind, M_bind.
    rewrite get_browser_eq, required_missing by exact Hsel. reflexivity.
  - intros Hkind Hsel. rewrite execute_step_eq.
    unfold AutomationService.dispatch. rewrite Hkind.
    unfold AutomationService._execute_type. unfold mbind, M_bind.
    rewrite get_browser_eq, required_missing by exact Hsel. reflexivity.
  - intros Hkind Hsel Htext. rewrite execute_step_eq.
    unfold AutomationService.dispatch. rewrite Hkind.
    unfold AutomationService._execute_type. unfold mbind, M_bind.
    destruct (truthy_present _ Hsel) as (sel & Hs & Hne).
    rewrite get_browser_eq, Hs, required_present by exact Hne.
    rewrite required_missing by exact Htext. reflexivity.
  - intros Hkind Hurl. rewrite execute_step_eq.
    unfold AutomationService.dispatch. rewrite Hkind.
    unfold AutomationService._execute_navigate. unfold mbind, M_bind.
    rewrite get_browser_eq, required_missing by exact Hurl. reflexivity.
Qed.

Lemma missing_parameter_makes_no_call_witness :
  AutomationService.execute_step lib_ok click_step_no_selector "no-session"
    empty_world
  = (Raise (ValueError "点击操作需要指定目标选择器"),
     logged_failure click_step_no_selector
       (ValueError "点击操作需要指定目标选择器")
       (started click_step_no_selector empty_world)).
Proof.
  apply (proj1 (missing_parameter_makes_no_call lib_ok click_step_no_selector
                  "no-session" empty_world)); reflexivity.
Defined.

(** [X6].  On a session id that is not registered, a step that needs the
    browser and has its parameters fails with the [AttributeError] of a
    [None] browser, not with an error saying that the session is missing,
    and makes no call to the library; a wait step does not look at the
    session at all. *)
Theorem step_on_unknown_session lib step session_id w :
  active_browsers w !! session_id = None ->
  let fails_on attribute :=
    let e := AttributeError
               ("'NoneType' object has no attribute '" +:+ attribute +:+ "'") in
    AutomationService.execute_step lib step session_id w
    = (Raise e, logged_failure step e (started step w)) in
  (AutomationStep.action_type step = CLICK ->
   truthy (AutomationStep.target_selector step) = true ->
   fails_on "find_element") /\
  (AutomationStep.action_type step = TYPE ->
   truthy (AutomationStep.target_selector step) = true ->
   truthy (AutomationStep.target_text step) = true ->
   fails_on "find_element") /\
  (AutomationStep.action_type step = SCROLL -> fails_on "page") /\
  (AutomationStep.action_type step = NAVIGATE ->
   truthy (AutomationStep.target_url step) = true ->
   fails_on "goto") /\
  (AutomationStep.action_type step = SCREENSHOT ->
   fails_on "take_screenshot") /\
  (AutomationStep.action_type step = WAIT ->
   forall other,
     AutomationService.execute_step lib step session_id w
     = AutomationService.execute_step lib step other w).
Proof.
  intros Hnone. cbv zeta.
  assert (Hnone' : active_browsers (started step w) !! session_id = None)
    by exact Hnone.
  repeat split.
  - intros Hkind Hsel. rewrite execute_step_eq.
    unfold AutomationService.dispatch. rewrite Hkind.
    unfold AutomationService._execute_click. unfold mbind, M_bind.
    destruct (truthy_present _ Hsel) as (sel & Hs & Hne).
    rewrite get_browser_eq, Hnone', Hs, required_present by exact Hne.
    reflexivity.
  - intros Hkind Hsel Htext. rewrite execute_step_eq.
    unfold AutomationService.dispatch. rewrite Hkind.
    unfold AutomationService._execute_type. unfold mbind, M_bind.
    destruct (truthy_present _ Hsel) as (sel & Hs & Hne).
    destruct (truthy_present _ Htext) as (text & Ht & Hnt).
    rewrite get_browser_eq, Hnone', Hs, required_present by exact Hne.
    rewrite Ht, required_present by exact Hnt. reflexivity.
  - intros Hkind. rewrite execute_step_eq.
    unfold AutomationService.dispatch. rewrite Hkind.
    unfold AutomationService._execute_scroll. unfold mbind, M_bind.
    rewrite get_browser_eq, Hnone'. reflexivity.
  - intros Hkind Hurl. rewrite execute_step_eq.
    unfold AutomationService.dispatch. rewrite Hkind.
    unfold AutomationService._execute_navigate. unfold mbind, M_bind.
    destruct (truthy_present _ Hurl) as (url & Hu & Hne).
    rewrite get_browser_eq, Hnone', Hu, required_present by exact Hne.
    reflexivity.
  - intros Hkind. rewrite execute_step_eq.
    unfold AutomationService.dispatch. rewrite Hkind.
    unfold AutomationService._execute_screenshot. unfold mbind, M_bind.
    rewrite get_browser_eq, Hnone'. reflexivity.
  - intros Hkind other. rewrite !execute_step_eq.
    unfold AutomationService.dispatch. rewrite Hkind. reflexivity.
Qed.

Lemma step_on_unknown_session_witness :
  AutomationService.execute_step lib_ok click_step "no-session" empty_world
  = (Raise (AttributeError
              "'NoneType' object has no attribute 'find_element'"),
     logged_failure click_step
       (AttributeError "'NoneType' object has no attribute 'find_element'")
       (started click_step empty_world)).
Proof.
  apply (proj1 (step_on_unknown_session lib_ok click_step "no-session"
                  empty_world eq_refl)); reflexivity.
Defined.

(** ** The step loop *)

Lemma run_steps_cons models lib stops task_id execution_id session_id i step
  rest success_count failed_count w :
  ExecutionService.run_steps models lib stops task_id execution_id session_id
    i (step :: rest) success_count failed_count w
  = match iteration models lib stops task_id execution_id session_id i step w
    with
    | (Ok ExecutionService.Stopped, w') => (Ok (success_count, failed_count), w')
    | (Ok ExecutionService.Succeeded, w') =>
        ExecutionService.run_steps models lib stops task_id execution_id
          session_id (S i) rest (success_count + 1) failed_count w'
    | (Ok ExecutionService.Failed, w') =>
        ExecutionService.run_steps models lib stops task_id execution_id
          session_id (S i) rest success_count (failed_count + 1) w'
    | (Raise e, w') => (Raise e, w')
    end.
Proof.
  cbn [ExecutionService.run_steps]. unfold iteration.
  unfold mbind, M_bind.
  destruct (ExecutionService.update_execution _ _ w) as [[[] | e] wa];
    [| reflexivity].
  destruct (ExecutionService.served_meanwhile _ _ _ _ wa) as [[[] | e] wb];
    [| reflexivity].
  match goal with
  | |- context [try_except ?m ?h wb] =>
      destruct (try_except m h wb) as [[[] | e] wc]
  end; reflexivity.
Qed.

Lemma update_execution_found execution_id f w ex :
  active_executions w !! execution_id = Some ex ->
  ExecutionService.update_execution execution_id f w
  = (Ok tt, set_active_executions (insert execution_id (f ex)) w).
Proof.
  intros H. unfold ExecutionService.update_execution. monad_unfold.
  rewrite H. reflexivity.
Qed.

(** *** One pass of the loop *)

(** On a mapping that does not configure, the status of the task cannot
    be read: the step is not given to the executor, and is logged and
    counted as failed, whether or not a stop request was served. *)
Lemma iteration_unmapped models lib stops task_id execution_id session_id i
  step w ex :
  configures models = false ->
  active_executions w !! execution_id = Some ex ->
  iteration models lib stops task_id execution_id session_id i step w
  = (Ok ExecutionService.Failed,
     emit (unread_row task_id step)
       (set_active_executions
          (insert execution_id
             (ExecutionService.set_current_step (Z.of_nat i + 1) ex)) w)).
Proof.
  intros Hm Hex. unfold iteration.
  erewrite bind_ok by (apply update_execution_found; exact Hex).
  set (w0 := set_active_executions _ w).
  assert (Hserved : ExecutionService.served_meanwhile models stops task_id i w0
                    = (Ok tt, w0)).
  { unfold ExecutionService.served_meanwhile. destruct (stops i); [| reflexivity].
    erewrite bind_ok by (apply stop_task_unmapped, Hm). reflexivity. }
  erewrite bind_ok by exact Hserved.
  erewrite try_except_raise
    by (apply bind_raise, get_task_unmapped, Hm).
  reflexivity.
Qed.

(** When nothing stops the task: the step is given to the executor and
    counted, as a success or as a failure. *)
Lemma iteration_dispatches models lib stops task_id execution_id session_id i
  step w ex t :
  configures models = true -> fits_integer task_id = true ->
  stops i = false ->
  active_executions w !! execution_id = Some ex ->
  tasks w !! task_id = Some t ->
  Task.status t <> CANCELLED ->
  iteration models lib stops task_id execution_id session_id i step w
  = match
      AutomationService.execute_step lib step session_id
        (set_active_executions
           (insert execution_id
              (ExecutionService.set_current_step (Z.of_nat i + 1) ex)) w)
    with
    | (Ok _, w1) => (Ok ExecutionService.Succeeded, w1)
    | (Raise e, w1) =>
        (Ok ExecutionService.Failed,
         emit (EvLog task_id (AutomationStep.id step) "ERROR"
                 (step_error_message step e) None) w1)
    end.
Proof.
  intros Hm Hz Hstop Hex Hrow Hstatus. unfold iteration.
  erewrite bind_ok by (apply update_execution_found; exact Hex).
  set (w0 := set_active_executions _ w).
  unfold ExecutionService.served_meanwhile. rewrite Hstop.
  erewrite bind_ok by reflexivity.
  unfold try_except.
  erewrite bind_ok by (apply get_task_mapped; assumption).
  change (tasks w0) with (tasks w). rewrite Hrow. cbn [attr].
  erewrite bind_ok by reflexivity.
  rewrite bool_decide_eq_false_2 by exact Hstatus.
  unfold mbind, M_bind.
  destruct (AutomationService.execute_step lib step session_id w0)
    as [[result | e] w1]; reflexivity.
Qed.

(** When a stop request is served before the check. *)
Lemma iteration_after_stop models lib stops task_id execution_id session_id i
  step w ex t :
  configures models = true -> fits_integer task_id = true ->
  stops i = true ->
  active_executions w !! execution_id = Some ex ->
  tasks w !! task_id = Some t ->
  Task.status t = RUNNING \/ Task.status t = PENDING ->
  exists t1,
    iteration models lib stops task_id execution_id session_id i step w
    = (Ok ExecutionService.Stopped,
       set_tasks (insert task_id t1)
         (set_active_executions
            (insert execution_id
               (ExecutionService.set_current_step (Z.of_nat i + 1) ex)) w)) /\
    Task.status t1 = CANCELLED /\
    Task.error_message t1 = Some "用户手动停止".
Proof.
  intros Hm Hz Hstop Hex Hrow Hstatus. unfold iteration.
  erewrite bind_ok by (apply update_execution_found; exact Hex).
  set (w0 := set_active_executions _ w).
  assert (Hrow0 : tasks w0 !! task_id = Some t) by exact Hrow.
  destruct (stop_task_cancels models task_id w0 t Hm Hz Hrow0 Hstatus)
    as (t1 & Hstopped & Hst1 & Hmsg1 & _).
  set (w1 := set_tasks (insert task_id t1) w0) in *.
  assert (Hrow1 : tasks w1 !! task_id = Some t1)
    by (cbn [tasks w1 set_tasks]; apply lookup_insert_eq).
  assert (Hserved : ExecutionService.served_meanwhile models stops task_id i w0
                    = (Ok tt, w1)).
  { unfold ExecutionService.served_meanwhile. rewrite Hstop.
    erewrite bind_ok by exact Hstopped. reflexivity. }
  erewrite bind_ok by exact Hserved.
  exists t1. split; [| split; assumption].
  apply try_except_ok.
  erewrite bind_ok by (apply get_task_mapped; assumption).
  rewrite Hrow1. cbn [attr].
  erewrite bind_ok by reflexivity.
  rewrite Hst1, bool_decide_eq_true_2 by reflexivity. reflexivity.
Qed.

(** *** The step executor does not look at the task rows *)

Global Instance same_browser_side_equivalence : Equivalence same_browser_side.
Proof.
  split.
  - intros w. repeat split.
  - intros w1 w2 (A1 & A2 & A3 & A4 & A5 & A6). repeat split; congruence.
  - intros w1 w2 w3 (A1 & A2 & A3 & A4 & A5 & A6)
      (B1 & B2 & B3 & B4 & B5 & B6).
    repeat split; congruence.
Qed.

Lemma respects_ret {A} (a : A) : respects (mret a).
Proof. intros w1 w2 H. split; [reflexivity | exact H]. Qed.

Lemma respects_raise {A} e : respects (@raise A e).
Proof. intros w1 w2 H. split; [reflexivity | exact H]. Qed.

Lemma respects_bind {A B} (m : M A) (k : A -> M B) :
  respects m -> (forall a, respects (k a)) -> respects (m ≫= k).
Proof.
  intros Hm Hk w1 w2 H. destruct (Hm w1 w2 H) as [Hr Hw].
  unfold mbind, M_bind.
  destruct (m w1) as [[a1 | e1] w1'], (m w2) as [[a2 | e2] w2'];
    cbn [fst snd] in Hr, Hw; try discriminate.
  - injection Hr as <-. apply Hk, Hw.
  - injection Hr as <-. split; [reflexivity | exact Hw].
Qed.

Lemma respects_try_except {A} (m : M A) (h : Exn -> M A) :
  respects m -> (forall e, respects (h e)) -> respects (try_except m h).
Proof.
  intros Hm Hh w1 w2 H. destruct (Hm w1 w2 H) as [Hr Hw].
  unfold try_except.
  destruct (m w1) as [[a1 | e1] w1'], (m w2) as [[a2 | e2] w2'];
    cbn [fst snd] in Hr, Hw; try discriminate.
  - injection Hr as <-. split; [reflexivity | exact Hw].
  - injection Hr as <-. apply Hh, Hw.
Qed.

Lemma same_browser_side_emit e w1 w2 :
  same_browser_side w1 w2 -> same_browser_side (emit e w1) (emit e w2).
Proof.
  intros (A1 & A2 & A3 & A4 & A5 & A6). repeat split; try assumption.
  cbn [trace emit]. rewrite A6. reflexivity.
Qed.

Lemma respects_emit e : respects (modify (emit e)).
Proof.
  intros w1 w2 H. split; [reflexivity | apply same_browser_side_emit, H].
Qed.

Lemma respects_call lib c : respects (call lib c).
Proof.
  intros w1 w2 H. unfold call.
  destruct H as (A1 & A2 & A3 & A4 & A5 & A6). rewrite A6.
  destruct (lib (trace w2) c); (split; [reflexivity |]);
    apply same_browser_side_emit; repeat split; assumption.
Qed.

Lemma respects_asyncio_sleep delay : respects (asyncio_sleep delay).
Proof.
  destruct delay; cbn;
    first [apply respects_raise | apply respects_emit].
Qed.

Lemma respects_attr {A} (o : option A) name : respects (attr o name).
Proof. destruct o; [apply respects_ret | apply respects_raise]. Qed.

Lemma respects_required field msg : respects (required field msg).
Proof.
  unfold required. destruct field; [| apply respects_raise].
  destruct (truthy _); [apply respects_ret | apply respects_raise].
Qed.

Lemma respects_get_browser session_id :
  respects (BrowserManager.get_browser session_id).
Proof.
  intros w1 w2 H. rewrite !get_browser_eq.
  destruct H as (A1 & A2 & A3 & A4 & A5 & A6). rewrite A3.
  split; [reflexivity | repeat split; assumption].
Qed.

Create HintDb respects discriminated.
#[local] Hint Resolve respects_ret respects_raise respects_emit respects_call
  respects_asyncio_sleep respects_attr respects_required respects_get_browser
  : respects.

Ltac respects_step :=
  match goal with
  | |- respects (_ ≫= _) => apply respects_bind; [| intros ?]
  | |- respects (try_except _ _) => apply respects_try_except; [| intros ?]
  | |- respects (match ?x with _ => _ end) => destruct x
  | |- respects _ => solve [auto with respects]
  end.

Lemma respects_execute_step lib step session_id :
  respects (AutomationService.execute_step lib step session_id).
Proof.
  unfold AutomationService.execute_step, AutomationService.dispatch,
    AutomationService.wait_after, AutomationService._execute_click,
    AutomationService._execute_type, AutomationService._execute_scroll,
    AutomationService._execute_wait, AutomationService._execute_navigate,
    AutomationService._execute_screenshot, AutomationService._log_execution,
    BrowserWrapperOps.find_element, BrowserWrapperOps.goto,
    BrowserWrapperOps.take_screenshot.
  repeat respects_step.
Qed.

(** *** The reference run *)

Lemma executed_in_order_cons lib task_id session_id step rest success_count
  failed_count w :
  executed_in_order lib task_id session_id (step :: rest) success_count
    failed_count w
  = match AutomationService.execute_step lib step session_id w with
    | (Ok _, w1) =>
        executed_in_order lib task_id session_id rest (success_count + 1)
          failed_count w1
    | (Raise e, w1) =>
        executed_in_order lib task_id session_id rest success_count
          (failed_count + 1)
          (emit (EvLog task_id (AutomationStep.id step) "ERROR"
                   (step_error_message step e) None) w1)
    end.
Proof.
  cbn [executed_in_order]. unfold mbind, M_bind, try_except.
  destruct (AutomationService.execute_step lib step session_id w)
    as [[result | e] w1]; reflexivity.
Qed.

(** The loop over [pre ++ rest], while no stop request is served and the
    task is not cancelled: it gives the steps of [pre] to the executor as
    the reference run does, and goes on with [rest]. *)
Lemma run_steps_prefix models lib stops task_id execution_id session_id rest :
  configures models = true -> fits_integer task_id = true ->
  forall pre i success_count failed_count w w0 ex t,
    same_browser_side w w0 ->
    active_executions w !! execution_id = Some ex ->
    tasks w !! task_id = Some t ->
    Task.status t <> CANCELLED ->
    (forall j, (j < length pre)%nat -> stops (i + j)%nat = false) ->
    exists successes failures w1 w01 ex1,
      executed_in_order lib task_id session_id pre success_count failed_count
        w0
      = (Ok (successes, failures), w01) /\
      ExecutionService.run_steps models lib stops task_id execution_id
        session_id i (pre ++ rest) success_count failed_count w
      = ExecutionService.run_steps models lib stops task_id execution_id
          session_id (i + length pre) rest successes failures w1 /\
      same_browser_side w1 w01 /\
      tasks w1 = tasks w /\
      active_executions w1 !! execution_id = Some ex1 /\
      success_count <= successes /\
      failed_count <= failures /\
      (successes - success_count) + (failures - failed_count)
      = Z.of_nat (length pre).
Proof.
  intros Hm Hz.
  induction pre as [| s pre IH];
    intros i sc fc w w0 ex t Hview Hex Hrow Hstatus Hstops.
  - exists sc, fc, w, w0, ex. cbn [app length executed_in_order].
    rewrite Nat.add_0_r.
    split; [reflexivity |]. split; [reflexivity |]. split; [exact Hview |].
    split; [reflexivity |]. split; [exact Hex |]. lia.
  - cbn [app]. rewrite run_steps_cons, executed_in_order_cons.
    rewrite (iteration_dispatches models lib stops task_id execution_id
               session_id i s w ex t Hm Hz) ; try assumption.
    2:{ rewrite <- (Nat.add_0_r i). apply Hstops. cbn [length]. lia. }
    set (wa := set_active_executions _ w).
    assert (Hva : same_browser_side wa w0).
    { destruct Hview as (A1 & A2 & A3 & A4 & A5 & A6).
      repeat split; assumption. }
    destruct (respects_execute_step lib s session_id wa w0 Hva) as [Hr Hw].
    pose proof (frame_execute_step lib s session_id wa) as Hframe.
    assert (Hstops' : forall j, (j < length pre)%nat ->
                                stops (S i + j)%nat = false).
    { intros j Hj. rewrite Nat.add_succ_comm. apply Hstops.
      cbn [length]. lia. }
    destruct (AutomationService.execute_step lib s session_id wa)
      as [[r1 | e1] w1],
       (AutomationService.execute_step lib s session_id w0)
      as [[r2 | e2] w2];
      cbn [fst snd] in Hr, Hw, Hframe; try discriminate;
      destruct Hframe as (Ht & _ & _ & _ & _ & He & _).
    + assert (Hex1 : active_executions w1 !! execution_id
                     = Some (ExecutionService.set_current_step
                               (Z.of_nat i + 1) ex))
        by (rewrite He; cbn; apply lookup_insert_eq).
      assert (Hrow1 : tasks w1 !! task_id = Some t)
        by (rewrite Ht; exact Hrow).
      destruct (IH (S i) (sc + 1) fc w1 w2 _ t Hw Hex1 Hrow1 Hstatus Hstops')
        as (s' & f' & w1' & w01 & ex1 & Href & Hrun & Hv & Htasks & Hrec
            & Hs & Hf & Hsum).
      exists s', f', w1', w01, ex1. rewrite Href, Hrun.
      cbn [length]. rewrite Nat.add_succ_comm.
      split; [reflexivity |]. split; [reflexivity |]. split; [exact Hv |].
      split; [rewrite Htasks; exact Ht |]. split; [exact Hrec |]. lia.
    + injection Hr as <-.
      set (row := EvLog task_id (AutomationStep.id s) "ERROR"
                    (step_error_message s e1) None).
      assert (Hex1 : active_executions (emit row w1) !! execution_id
                     = Some (ExecutionService.set_current_step
                               (Z.of_nat i + 1) ex))
        by (cbn [active_executions emit]; rewrite He; cbn;
            apply lookup_insert_eq).
      assert (Hrow1 : tasks (emit row w1) !! task_id = Some t)
        by (cbn [tasks emit]; rewrite Ht; exact Hrow).
      destruct (IH (S i) sc (fc + 1) (emit row w1) (emit row w2) _ t
                  (same_browser_side_emit row _ _ Hw) Hex1 Hrow1 Hstatus
                  Hstops')
        as (s' & f' & w1' & w01 & ex1 & Href & Hrun & Hv & Htasks & Hrec
            & Hs & Hf & Hsum).
      exists s', f', w1', w01, ex1. rewrite Href, Hrun.
      cbn [length]. rewrite Nat.add_succ_comm.
      split; [reflexivity |]. split; [reflexivity |]. split; [exact Hv |].
      split; [rewrite Htasks; cbn [tasks emit]; exact Ht |].
      split; [exact Hrec |]. lia.
Qed.

(** The loop on a mapping that does not configure: no step is given to
    the executor, every step is logged and counted as failed, and the loop
    does not stop before the last of them. *)
Lemma run_steps_unmapped models lib stops task_id execution_id session_id
  steps :
  configures models = false ->
  forall i success_count failed_count w ex,
    active_executions w !! execution_id = Some ex ->
    exists w',
      ExecutionService.run_steps models lib stops task_id execution_id
        session_id i steps success_count failed_count w
      = (Ok (success_count, failed_count + Z.of_nat (length steps)), w') /\
      tasks w' = tasks w /\
      automation_steps w' = automation_steps w /\
      active_browsers w' = active_browsers w /\
      is_Some (active_executions w' !! execution_id) /\
      trace w' = (trace w ++ map (unread_row task_id) steps)%list.
Proof.
  intros Hm. induction steps as [| step rest IH]; intros i sc fc w ex Hex.
  - exists w. cbn. rewrite Z.add_0_r, app_nil_r. repeat split. eauto.
  - rewrite run_steps_cons.
    rewrite (iteration_unmapped models lib stops task_id execution_id
               session_id i step w ex Hm Hex).
    set (w1 := emit _ _).
    assert (Hex1 : active_executions w1 !! execution_id
                   = Some (ExecutionService.set_current_step
                             (Z.of_nat i + 1) ex))
      by (cbn; apply lookup_insert_eq).
    destruct (IH (S i) sc (fc + 1) w1 _ Hex1)
      as (w' & Hrun & Ht & Hs & Hb & Hrec & Htr).
    exists w'. rewrite Hrun.
    replace (fc + Z.of_nat (length (step :: rest)))
      with (fc + 1 + Z.of_nat (length rest)) by (cbn [length]; lia).
    split; [reflexivity |].
    repeat split; try assumption.
    rewrite Htr. cbn [trace emit w1 map]. rewrite <- app_assoc. reflexivity.
Qed.

(** [C8].  The loop of [execute_task] over the steps [pre], [step] and
    [post], entered at index [i] for a task that is running, when no stop
    request is served while the steps of [pre] are run and one is served
    while the last of them is in flight, before the check for [step].  On
    a mapping that configures, the check reads [cancelled] and the loop
    ends there: it returns the counters of the reference run of [pre], and
    the trace, the registry and all the browser side are those of the
    reference run of [pre], so every step of [pre] was given to the
    executor, once and in order, what they did stays done, and neither
    [step] nor a step of [post] is dispatched.  On the declared mapping
    the query of the check raises: no status is read, so none is read as
    [cancelled]; no step is dispatched, and every step is logged and
    counted as failed. *)
Theorem cancelled_run_stops models lib stops task_id execution_id session_id
  pre step post i success_count failed_count w task execution :
  tasks w !! task_id = Some task ->
  Task.status task = RUNNING ->
  active_executions w !! execution_id = Some execution ->
  fits_integer task_id = true ->
  (forall j, (j < length pre)%nat -> stops (i + j)%nat = false) ->
  stops (i + length pre)%nat = true ->
  exists counts w',
    ExecutionService.run_steps models lib stops task_id execution_id
      session_id i (pre ++ step :: post) success_count failed_count w
    = (Ok counts, w') /\
    if configures models
    then exists w0,
        executed_in_order lib task_id session_id pre success_count
          failed_count w
        = (Ok counts, w0) /\
        same_browser_side w' w0 /\
        Task.status <$> (tasks w' !! task_id) = Some CANCELLED /\
        (fst counts - success_count) + (snd counts - failed_count)
        = Z.of_nat (length pre)
    else counts
         = (success_count,
            failed_count + Z.of_nat (length (pre ++ step :: post))) /\
         tasks w' = tasks w /\
         trace w'
         = (trace w ++ map (unread_row task_id) (pre ++ step :: post))%list.
Proof.
  intros Hrow Hrunning Hex Hz Hquiet Hstop.
  destruct (configures models) eqn:Hm.
  - assert (Hstatus : Task.status task <> CANCELLED)
      by (rewrite Hrunning; discriminate).
    destruct (run_steps_prefix models lib stops task_id execution_id
                session_id (step :: post) Hm Hz pre i success_count
                failed_count w w execution task (reflexivity w) Hex Hrow
                Hstatus Hquiet)
      as (s' & f' & w1 & w01 & ex1 & Href & Hrun & Hv & Htasks & Hrec
          & _ & _ & Hsum).
    assert (Hrow1 : tasks w1 !! task_id = Some task)
      by (rewrite Htasks; exact Hrow).
    destruct (iteration_after_stop models lib stops task_id execution_id
                session_id (i + length pre) step w1 ex1 task Hm Hz Hstop
                Hrec Hrow1 (or_introl Hrunning))
      as (t1 & Hiter & Hst1 & _).
    eexists (s', f'), _. split.
    { rewrite Hrun, run_steps_cons, Hiter. reflexivity. }
    exists w01. split; [exact Href |]. split.
    { destruct Hv as (A1 & A2 & A3 & A4 & A5 & A6).
      repeat split; assumption. }
    split; [| exact Hsum].
    cbn [tasks set_tasks]. rewrite lookup_insert_eq. cbn. rewrite Hst1.
    reflexivity.
  - destruct (run_steps_unmapped models lib stops task_id execution_id
                session_id (pre ++ step :: post) Hm i success_count
                failed_count w execution Hex)
      as (w' & Hrun & Ht & _ & _ & _ & Htr).
    exists (success_count,
            failed_count + Z.of_nat (length (pre ++ step :: post))), w'.
    repeat split; assumption.
Qed.

Lemma cancelled_run_stops_witness :
  let w := world_in_loop [wait_step 1 0; wait_step 2 0; wait_step 3 0] in
  (exists counts w',
     ExecutionService.run_steps Base_with_foreign_key lib_ok stop_after_first
       1 "exec_1_0" "sess-1" 0
       ([wait_step 1 0] ++ wait_step 2 0 :: [wait_step 3 0])%list 0 0 w
     = (Ok counts, w') /\
     exists w0,
       executed_in_order lib_ok 1 "sess-1" [wait_step 1 0] 0 0 w
       = (Ok counts, w0) /\
       same_browser_side w' w0 /\
       Task.status <$> (tasks w' !! 1) = Some CANCELLED /\
       (fst counts - 0) + (snd counts - 0) = Z.of_nat 1) /\
  (exists counts w',
     ExecutionService.run_steps Base lib_ok stop_after_first
       1 "exec_1_0" "sess-1" 0
       ([wait_step 1 0] ++ wait_step 2 0 :: [wait_step 3 0])%list 0 0 w
     = (Ok counts, w') /\
     counts = (0, 0 + Z.of_nat 3) /\
     tasks w' = tasks w /\
     trace w'
     = (trace w
        ++ map (unread_row 1)
             ([wait_step 1 0] ++ wait_step 2 0 :: [wait_step 3 0]))%list).
Proof.
  cbv zeta. split.
  - apply (cancelled_run_stops Base_with_foreign_key lib_ok stop_after_first
             1 "exec_1_0" "sess-1" [wait_step 1 0] (wait_step 2 0)
             [wait_step 3 0] 0%nat 0 0
             (world_in_loop [wait_step 1 0; wait_step 2 0; wait_step 3 0])
             (task1 RUNNING) (mkExecution 1 "running" 0 0 3));
      try reflexivity.
    intros j Hj. cbn [length] in Hj. assert (j = 0%nat) as -> by lia.
    reflexivity.
  - apply (cancelled_run_stops Base lib_ok stop_after_first
             1 "exec_1_0" "sess-1" [wait_step 1 0] (wait_step 2 0)
             [wait_step 3 0] 0%nat 0 0
             (world_in_loop [wait_step 1 0; wait_step 2 0; wait_step 3 0])
             (task1 RUNNING) (mkExecution 1 "running" 0 0 3));
      try reflexivity.
    intros j Hj. cbn [length] in Hj. assert (j = 0%nat) as -> by lia.
    reflexivity.
Defined.

(** Three wait steps, a stop request served during the first.  On the
    repaired mapping one step runs and the task stays [cancelled]; on the
    declared mapping no step runs, three failures are counted and the
    task stays [running]. *)
Lemma run_three_steps_stopped_after_first :
  let w := world_in_loop [wait_step 1 0; wait_step 2 0; wait_step 3 0] in
  let r := ExecutionService.run_steps Base_with_foreign_key lib_ok
             stop_after_first 1 "exec_1_0" "sess-1" 0
             [wait_step 1 0; wait_step 2 0; wait_step 3 0] 0 0 w in
  let declared := ExecutionService.run_steps Base lib_ok stop_after_first 1
                    "exec_1_0" "sess-1" 0
                    [wait_step 1 0; wait_step 2 0; wait_step 3 0] 0 0 w in
  fst r = Ok (1, 0) /\
  trace (snd r)
  = [EvLog 1 1 "INFO" "开始执行步骤: pause" None;
     EvSleep 0;
     EvLog 1 1 "INFO" "步骤执行成功: pause" (Some (WaitResult (JNum 0)))] /\
  Task.status <$> (tasks (snd r) !! 1) = Some CANCELLED /\
  fst declared = Ok (0, 3) /\
  Task.status <$> (tasks (snd declared) !! 1) = Some RUNNING /\
  trace (snd declared)
  = [EvLog 1 1 "ERROR"
       "步骤执行失败: pause, 错误: One or more mappers failed to initialize"
       None;
     EvLog 1 2 "ERROR"
       "步骤执行失败: pause, 错误: One or more mappers failed to initialize"
       None;
     EvLog 1 3 "ERROR"
       "步骤执行失败: pause, 错误: One or more mappers failed to initialize"
       None].
Proof. vm_compute. repeat split; reflexivity. Qed.

(** ** The step loop, further *)

(** [X7].  Best effort: the loop when no stop request is served, the
    record of the execution exists and the task is not cancelled.  On a
    mapping that configures, the loop gives every step to the executor,
    once and in order, whatever fails: it returns the counters of the
    reference run of the steps, with the trace, the registry and all the
    browser side of that run, it writes no task row, and the successes
    and failures it counts add up to the number of steps.  On the declared
    mapping it gives no step to the executor: every step is logged and
    counted as failed, the status of the task being unreadable. *)
Theorem run_steps_attempts_every_step models lib stops task_id execution_id
  session_id steps i success_count failed_count w ex t :
  (forall j, stops j = false) ->
  active_executions w !! execution_id = Some ex ->
  tasks w !! task_id = Some t ->
  Task.status t <> CANCELLED ->
  fits_integer task_id = true ->
  exists counts w',
    ExecutionService.run_steps models lib stops task_id execution_id
      session_id i steps success_count failed_count w
    = (Ok counts, w') /\
    if configures models
    then exists w0,
        executed_in_order lib task_id session_id steps success_count
          failed_count w
        = (Ok counts, w0) /\
        same_browser_side w' w0 /\
        tasks w' = tasks w /\
        success_count <= fst counts /\
        failed_count <= snd counts /\
        (fst counts - success_count) + (snd counts - failed_count)
        = Z.of_nat (length steps)
    else counts = (success_count, failed_count + Z.of_nat (length steps)) /\
         tasks w' = tasks w /\
         trace w' = (trace w ++ map (unread_row task_id) steps)%list.
Proof.
  intros Hstops Hex Hrow Hstatus Hz.
  destruct (configures models) eqn:Hm.
  - destruct (run_steps_prefix models lib stops task_id execution_id
                session_id [] Hm Hz steps i success_count failed_count w w
                ex t (reflexivity w) Hex Hrow Hstatus
                (fun j _ => Hstops (i + j)%nat))
      as (s' & f' & w1 & w01 & ex1 & Href & Hrun & Hv & Htasks & _
          & Hs & Hf & Hsum).
    rewrite app_nil_r in Hrun. cbn [ExecutionService.run_steps] in Hrun.
    exists (s', f'), w1. split; [exact Hrun |].
    exists w01. cbn [fst snd].
    split; [exact Href |]. split; [exact Hv |]. split; [exact Htasks |].
    split; [exact Hs |]. split; [exact Hf | exact Hsum].
  - destruct (run_steps_unmapped models lib stops task_id execution_id
                session_id steps Hm i success_count failed_count w ex Hex)
      as (w' & Hrun & Ht & _ & _ & _ & Htr).
    exists (success_count, failed_count + Z.of_nat (length steps)), w'.
    repeat split; assumption.
Qed.

Lemma run_steps_attempts_every_step_witness :
  let steps := [wait_step 1 0; hover_step; click_step] in
  (exists counts w',
     ExecutionService.run_steps Base_with_foreign_key lib_ok never_stopped 1
       "exec_1_0" "sess-1" 0 steps 0 0 (world_in_loop steps)
     = (Ok counts, w') /\
     exists w0,
       executed_in_order lib_ok 1 "sess-1" steps 0 0 (world_in_loop steps)
       = (Ok counts, w0) /\
       same_browser_side w' w0 /\
       tasks w' = tasks (world_in_loop steps) /\
       0 <= fst counts /\ 0 <= snd counts /\
       (fst counts - 0) + (snd counts - 0) = Z.of_nat (length steps)) /\
  (exists counts w',
     ExecutionService.run_steps Base lib_ok never_stopped 1
       "exec_1_0" "sess-1" 0 steps 0 0 (world_in_loop steps)
     = (Ok counts, w') /\
     counts = (0, 0 + Z.of_nat (length steps)) /\
     tasks w' = tasks (world_in_loop steps) /\
     trace w'
     = (trace (world_in_loop steps) ++ map (unread_row 1) steps)%list).
Proof.
  cbv zeta. split.
  - apply (run_steps_attempts_every_step Base_with_foreign_key lib_ok
             never_stopped 1 "exec_1_0" "sess-1"
             [wait_step 1 0; hover_step; click_step] 0%nat 0 0
             (world_in_loop [wait_step 1 0; hover_step; click_step])
             (mkExecution 1 "running" 0 0 3) (task1 RUNNING));
      first [reflexivity | discriminate].
  - apply (run_steps_attempts_every_step Base lib_ok
             never_stopped 1 "exec_1_0" "sess-1"
             [wait_step 1 0; hover_step; click_step] 0%nat 0 0
             (world_in_loop [wait_step 1 0; hover_step; click_step])
             (mkExecution 1 "running" 0 0 3) (task1 RUNNING));
      first [reflexivity | discriminate].
Defined.

(** The reference run of three steps, evaluated: the pause succeeds, the
    hover is rejected, the click goes through. *)
Lemma executed_in_order_sample :
  let steps := [wait_step 1 0; hover_step; click_step] in
  fst (executed_in_order lib_ok 1 "sess-1" steps 0 0 (world_in_loop steps))
  = Ok (2, 1) /\
  fst (ExecutionService.run_steps Base_with_foreign_key lib_ok never_stopped
         1 "exec_1_0" "sess-1" 0 steps 0 0 (world_in_loop steps))
  = Ok (2, 1).
Proof. vm_compute. split; reflexivity. Qed.

(** [X8].  However the loop ends, the counters only grow, and by no more
    than the number of steps. *)
Theorem run_steps_counts models lib stops task_id execution_id session_id
  steps :
  forall i success_count failed_count w successes failures w',
    ExecutionService.run_steps models lib stops task_id execution_id
      session_id i steps success_count failed_count w
    = (Ok (successes, failures), w') ->
    success_count <= successes /\
    failed_count <= failures /\
    (successes - success_count) + (failures - failed_count)
    <= Z.of_nat (length steps).
Proof.
  induction steps as [| step rest IH]; intros i sc fc w s' f' w' Hrun.
  - cbn in Hrun. injection Hrun as <- <- _. cbn. lia.
  - rewrite run_steps_cons in Hrun.
    destruct (iteration models lib stops task_id execution_id session_id i
                step w)
      as [[[] | e] w1]; try discriminate.
    + injection Hrun as <- <- _. cbn [length]. lia.
    + apply IH in Hrun. cbn [length]. lia.
    + apply IH in Hrun. cbn [length]. lia.
Qed.

Lemma run_steps_counts_witness :
  (0 <= 1 /\ 0 <= 0 /\ (1 - 0) + (0 - 0) <= Z.of_nat 3) /\
  (0 <= 0 /\ 0 <= 3 /\ (0 - 0) + (3 - 0) <= Z.of_nat 3).
Proof.
  split.
  - apply (run_steps_counts Base_with_foreign_key lib_ok stop_after_first 1
             "exec_1_0" "sess-1"
             [wait_step 1 0; wait_step 2 0; wait_step 3 0] 0%nat 0 0
             (world_in_loop [wait_step 1 0; wait_step 2 0; wait_step 3 0])
             1 0
             (snd (ExecutionService.run_steps Base_with_foreign_key lib_ok
                     stop_after_first 1 "exec_1_0" "sess-1" 0
                     [wait_step 1 0; wait_step 2 0; wait_step 3 0] 0 0
                     (world_in_loop
                        [wait_step 1 0; wait_step 2 0; wait_step 3 0])))).
    vm_compute; reflexivity.
  - apply (run_steps_counts Base lib_ok stop_after_first 1
             "exec_1_0" "sess-1"
             [wait_step 1 0; wait_step 2 0; wait_step 3 0] 0%nat 0 0
             (world_in_loop [wait_step 1 0; wait_step 2 0; wait_step 3 0])
             0 3
             (snd (ExecutionService.run_steps Base lib_ok
                     stop_after_first 1 "exec_1_0" "sess-1" 0
                     [wait_step 1 0; wait_step 2 0; wait_step 3 0] 0 0
                     (world_in_loop
                        [wait_step 1 0; wait_step 2 0; wait_step 3 0])))).
    vm_compute; reflexivity.
Defined.

(** ** The run in a session, further *)

(** [X9].  A run that is stopped before its first step, for a task
    without URL that is running or pending, the stop request being served
    before the first status check.  On a mapping that configures, the run
    is recorded as completed: its body dispatches no step (the trace is
    unchanged), and then writes the status [completed] over [cancelled];
    the note of the stop request stays.  On the declared mapping the body
    raises at its first query, before the loop, and changes nothing. *)
Theorem stopped_before_first_step_completes models lib stops task_id
  execution_id session_id step rest w t ex :
  tasks w !! task_id = Some t ->
  Task.url t = "" ->
  Task.status t = RUNNING \/ Task.status t = PENDING ->
  active_executions w !! execution_id = Some ex ->
  stops 0%nat = true ->
  fits_integer task_id = true ->
  if configures models
  then exists w' t',
      ExecutionService.run_in_session models lib stops task_id execution_id
        session_id (step :: rest) w = (Ok tt, w') /\
      tasks w' !! task_id = Some t' /\
      Task.status t' = COMPLETED /\
      Task.error_message t' = Some "用户手动停止" /\
      trace w' = trace w
  else ExecutionService.run_in_session models lib stops task_id execution_id
         session_id (step :: rest) w = (Raise mapper_error, w).
Proof.
  intros Hrow Hurl Hstatus Hex Hstop Hz.
  destruct (configures models) eqn:Hm.
  2:{ unfold ExecutionService.run_in_session.
      apply bind_raise, get_task_unmapped, Hm. }
  unfold ExecutionService.run_in_session.
  erewrite bind_ok by (apply get_task_mapped; assumption).
  rewrite Hrow, Hurl. cbn [truthy].
  erewrite bind_ok by reflexivity.
  erewrite bind_ok by (apply update_execution_found; exact Hex).
  set (w0 := set_active_executions _ w).
  assert (Hex0 : active_executions w0 !! execution_id
                 = Some (ExecutionService.set_total_steps
                           (Z.of_nat (length (step :: rest))) ex))
    by (cbn [active_executions w0 set_active_executions];
        apply lookup_insert_eq).
  assert (Hrow0 : tasks w0 !! task_id = Some t) by exact Hrow.
  destruct (iteration_after_stop models lib stops task_id execution_id
              session_id 0%nat step w0 _ t Hm Hz Hstop Hex0 Hrow0 Hstatus)
    as (t1 & Hiter & Hst1 & Hmsg1).
  match type of Hiter with _ = (_, ?w) => set (w1 := w) in * end.
  assert (Hrow1 : tasks w1 !! task_id = Some t1)
    by (cbn [tasks w1 set_tasks]; apply lookup_insert_eq).
  assert (Hloop : ExecutionService.run_steps models lib stops task_id
                    execution_id session_id 0 (step :: rest) 0 0 w0
                  = (Ok (0, 0), w1))
    by (rewrite run_steps_cons, Hiter; reflexivity).
  erewrite bind_ok by exact Hloop.
  unfold ExecutionService.finish_run. cbn [attr].
  erewrite bind_ok by reflexivity.
  cbn [ExecutionService.final_status Z.eqb].
  destruct (update_task_status_found models task_id COMPLETED None w1 t1
              Hm Hz Hrow1)
    as (t2 & Hupd & Hst2 & Hmsg2 & _).
  rewrite Hupd.
  exists (set_tasks (insert task_id t2) w1), t2.
  split; [reflexivity |]. cbn [tasks set_tasks]. rewrite lookup_insert_eq.
  split; [reflexivity |]. split; [exact Hst2 |].
  split; [rewrite Hmsg2; exact Hmsg1 | reflexivity].
Qed.

Lemma stopped_before_first_step_completes_witness :
  (exists w' t',
     ExecutionService.run_in_session Base_with_foreign_key lib_ok
       (fun _ => true) 1 "exec_1_0" "sess-1" (wait_step 1 0 :: [])
       (world_in_loop [wait_step 1 0])
     = (Ok tt, w') /\
     tasks w' !! 1 = Some t' /\
     Task.status t' = COMPLETED /\
     Task.error_message t' = Some "用户手动停止" /\
     trace w' = trace (world_in_loop [wait_step 1 0])) /\
  ExecutionService.run_in_session Base lib_ok (fun _ => true) 1 "exec_1_0"
    "sess-1" (wait_step 1 0 :: []) (world_in_loop [wait_step 1 0])
  = (Raise mapper_error, world_in_loop [wait_step 1 0]).
Proof.
  split.
  - apply (stopped_before_first_step_completes Base_with_foreign_key lib_ok
             (fun _ => true) 1 "exec_1_0" "sess-1" (wait_step 1 0) [] _
             (task1 RUNNING) (mkExecution 1 "running" 0 0 1));
      first [reflexivity | left; reflexivity].
  - apply (stopped_before_first_step_completes Base lib_ok
             (fun _ => true) 1 "exec_1_0" "sess-1" (wait_step 1 0) [] _
             (task1 RUNNING) (mkExecution 1 "running" 0 0 1));
      first [reflexivity | left; reflexivity].
Defined.

(** ** The orchestrator, further *)

(** [X10].  [execute_task] raises no exception: whatever happens in the
    run, the failures of the store and of the library included, the
    exception is caught by the handler of line 126, whose own status
    update cannot raise, and the call returns. *)
Theorem execute_task_never_raises models lib stops task_id execution_id w :
  fst (ExecutionService.execute_task models lib stops task_id execution_id w)
  = Ok tt.
Proof.
  unfold ExecutionService.execute_task, try_except.
  match goal with
  | |- context [match ?body w with _ => _ end] =>
      destruct (body w) as [[[] | e] w1]
  end; [reflexivity |].
  unfold mbind, M_bind.
  pose proof (update_task_status_returns models task_id FAILED
                (Some ("任务执行异常: " +:+ str_exn e)) w1) as Hret.
  destruct (TaskService.update_task_status _ _ _ _ w1) as [r w2].
  cbn [fst] in Hret. subst r. reflexivity.
Qed.

Global Instance writes_only_task_preorder task_id :
  PreOrder (writes_only_task task_id).
Proof.
  split.
  - intros w. repeat split; reflexivity.
  - intros w1 w2 w3 (A1 & A2 & A3) (B1 & B2 & B3).
    split; [congruence |]. split; [| congruence].
    intros id Hne. rewrite B2, A2 by exact Hne. reflexivity.
Qed.

Lemma writes_only_task_same task_id w w' :
  tasks w' = tasks w -> automation_steps w' = automation_steps w ->
  writes_only_task task_id w w'.
Proof. intros Ht Hs. repeat split; try assumption; rewrite Ht; reflexivity. Qed.

Lemma writes_modify task_id (f : World -> World) :
  (forall w, tasks (f w) = tasks w /\ automation_steps (f w) = automation_steps w) ->
  preserves (writes_only_task task_id) (modify f).
Proof.
  intros Hf w. destruct (Hf w) as [Ht Hs]. apply writes_only_task_same; assumption.
Qed.

Lemma writes_call task_id lib c :
  preserves (writes_only_task task_id) (call lib c).
Proof.
  intros w. unfold call.
  destruct (lib (trace w) c); apply writes_only_task_same; reflexivity.
Qed.

Lemma writes_asyncio_sleep task_id delay :
  preserves (writes_only_task task_id) (asyncio_sleep delay).
Proof.
  destruct delay; cbn;
    first [apply preserves_raise; apply _
          | apply writes_modify; intros w; split; reflexivity].
Qed.

Lemma writes_update_task_status models task_id status error_message :
  preserves (writes_only_task task_id)
    (TaskService.update_task_status models task_id status error_message).
Proof.
  intros w. unfold TaskService.update_task_status, Db.query, Db.bind.
  monad_unfold.
  destruct (configures models);
    [| apply writes_only_task_same; reflexivity].
  destruct (fits_integer task_id);
    [| apply writes_only_task_same; reflexivity].
  destruct (tasks w !! task_id) as [task |] eqn:Hrow;
    [| apply writes_only_task_same; reflexivity].
  cbn [snd]. split; [reflexivity |]. cbn [tasks set_tasks]. split.
  - intros id Hne. apply lookup_insert_ne. congruence.
  - rewrite lookup_insert_eq, Hrow. reflexivity.
Qed.

Lemma writes_execute_step task_id lib step session_id :
  preserves (writes_only_task task_id)
    (AutomationService.execute_step lib step session_id).
Proof.
  intros w.
  destruct (frame_execute_step lib step session_id w) as (Ht & Hs & _).
  apply writes_only_task_same; assumption.
Qed.

Lemma writes_launch task_id models lib :
  preserves (writes_only_task task_id)
    (AutomationService.launch_browser models lib None).
Proof.
  intros w.
  destruct (residue_launch_browser models lib w) as (Ht & Hs & _).
  apply writes_only_task_same; assumption.
Qed.

#[local] Hint Resolve writes_only_task_preorder writes_call
  writes_asyncio_sleep writes_update_task_status writes_execute_step
  writes_launch : preservation.

Ltac writes_leaf :=
  apply writes_modify; intros ?; split; reflexivity.

Lemma writes_stop_task models task_id :
  preserves (writes_only_task task_id) (TaskService.stop_task models task_id).
Proof.
  unfold TaskService.stop_task. repeat first [preserves_step | writes_leaf].
Qed.

Lemma writes_close_session task_id models lib session_id :
  preserves (writes_only_task task_id)
    (AutomationService.close_session models lib session_id).
Proof.
  unfold AutomationService.close_session, BrowserManager.close_session.
  repeat first [preserves_step | writes_leaf].
Qed.

Lemma writes_navigate task_id models lib session_id url :
  preserves (writes_only_task task_id)
    (AutomationService.navigate_to_url models lib session_id url).
Proof.
  unfold AutomationService.navigate_to_url, BrowserManager.get_browser,
    BrowserWrapperOps.goto.
  repeat first [preserves_step | writes_leaf].
Qed.

#[local] Hint Resolve writes_stop_task writes_close_session writes_navigate
  : preservation.

Lemma writes_run_steps task_id models lib stops execution_id session_id
  steps :
  forall i success_count failed_count,
    preserves (writes_only_task task_id)
      (ExecutionService.run_steps models lib stops task_id execution_id
         session_id i steps success_count failed_count).
Proof.
  induction steps as [| step rest IH]; intros i sc fc;
    cbn [ExecutionService.run_steps];
    unfold ExecutionService.update_execution,
      ExecutionService.served_meanwhile, TaskService.get_task,
      AutomationService._log_execution;
    repeat first [preserves_step | writes_leaf | apply IH].
Qed.

#[local] Hint Resolve writes_run_steps : preservation.

Lemma writes_execute_task models lib stops task_id execution_id :
  preserves (writes_only_task task_id)
    (ExecutionService.execute_task models lib stops task_id execution_id).
Proof.
  unfold ExecutionService.execute_task, ExecutionService.run_in_session,
    ExecutionService.finish_run, ExecutionService.forget_execution,
    ExecutionService.update_execution, TaskService.get_task.
  repeat first [preserves_step | writes_leaf].
Qed.

(** [X11].  A run of [execute_task] writes one row of the store at most,
    that of its task: the table of the steps and every other task row are
    unchanged, no row is added or removed, and the row of the task keeps
    its id, name and URL. *)
Theorem execute_task_writes_only_its_task models lib stops task_id
  execution_id w :
  let w' := snd (ExecutionService.execute_task models lib stops task_id
                   execution_id w) in
  automation_steps w' = automation_steps w /\
  (forall id, id <> task_id -> tasks w' !! id = tasks w !! id) /\
  identity <$> (tasks w' !! task_id) = identity <$> (tasks w !! task_id).
Proof. apply writes_execute_task. Qed.

Lemma execute_task_writes_only_its_task_witness :
  let w := world_of PENDING [wait_step 1 0] in
  let w' := snd (ExecutionService.execute_task Base_with_foreign_key lib_ok
                   never_stopped 1 "exec_1_0" w) in
  automation_steps w' = automation_steps w /\
  (forall id, id <> 1 -> tasks w' !! id = tasks w !! id) /\
  identity <$> (tasks w' !! 1) = identity <$> (tasks w !! 1).
Proof.
  apply (execute_task_writes_only_its_task Base_with_foreign_key lib_ok
           never_stopped 1 "exec_1_0" (world_of PENDING [wait_step 1 0])).
Defined.

(** The run up to its step query. *)
Lemma execute_task_overflow models lib stops task_id execution_id w :
  configures models = true -> fits_integer task_id = false ->
  exists w',
    ExecutionService.execute_task models lib stops task_id execution_id w
    = (Ok tt, w') /\
    active_executions w' = delete execution_id (active_executions w).
Proof.
  intros Hm Hz.
  set (w0 := set_active_executions
               (insert execution_id
                  (mkExecution task_id "running" (clock w) 0 0)) w).
  destruct (update_task_status_keeps models task_id RUNNING None w0)
    as (w1 & Hupd1 & _ & Hex1 & _).
  destruct (update_task_status_keeps models task_id FAILED
              (Some ("任务执行异常: "
                     +:+ str_exn (OverflowError
                          "Python int too large to convert to SQLite INTEGER")))
              w1)
    as (w2 & Hupd2 & _ & Hex2 & _).
  eexists. split.
  { unfold ExecutionService.execute_task.
    erewrite try_except_raise.
    2:{ erewrite bind_ok by reflexivity.
        erewrite bind_ok by reflexivity. fold w0.
        erewrite bind_ok by exact Hupd1.
        erewrite bind_ok by (apply query_mapped, Hm).
        apply bind_raise, bind_overflow, Hz. }
    erewrite bind_ok by exact Hupd2. reflexivity. }
  cbn [active_executions set_active_executions].
  rewrite Hex2, Hex1. cbn. apply delete_insert_eq.
Qed.

(** [X12].  The record of the execution.  A run of a task that has a step
    ends with its record removed from [active_executions].  A run of a
    task without steps, when the store answers its queries, returns early
    and leaves its record behind, with status [running]; when the store
    does not, as on the declared mapping, its record is removed. *)
Theorem execution_record_after_run models lib stops task_id execution_id w :
  let w' := snd (ExecutionService.execute_task models lib stops task_id
                   execution_id w) in
  (steps_of_task task_id (automation_steps w) = [] ->
   active_executions w'
   = if configures models && fits_integer task_id
     then <[execution_id := mkExecution task_id "running" (clock w) 0 0]>
            (active_executions w)
     else delete execution_id (active_executions w)) /\
  (steps_of_task task_id (automation_steps w) <> [] ->
   active_executions w' = delete execution_id (active_executions w)).
Proof.
  cbv zeta.
  destruct (configures models) eqn:Hm.
  2:{ destruct (execute_task_unmapped_keeps models lib stops task_id
                  execution_id w Hm)
        as (w' & -> & _ & _ & _ & _ & _ & He & _).
      split; intros _; exact He. }
  destruct (fits_integer task_id) eqn:Hz.
  2:{ destruct (execute_task_overflow models lib stops task_id execution_id
                  w Hm Hz) as (w' & -> & He).
      split; intros _; exact He. }
  cbn [andb].
  unfold ExecutionService.execute_task, ExecutionService.forget_execution.
  set (w0 := set_active_executions
               (insert execution_id
                  (mkExecution task_id "running" (clock w) 0 0)) w).
  destruct (update_task_status_keeps models task_id RUNNING None w0)
    as (w1 & Hupd1 & Hrows1 & Hex1 & _).
  split.
  - intros Hnone.
    destruct (update_task_status_keeps models task_id FAILED
                (Some "任务没有配置自动化步骤") w1)
      as (w2 & Hupd2 & _ & Hex2 & _).
    erewrite try_except_ok; [cbn [snd]; rewrite Hex2, Hex1; reflexivity |].
    erewrite bind_ok by reflexivity.
    erewrite bind_ok by reflexivity. fold w0.
    erewrite bind_ok by exact Hupd1.
    rewrite query_bind_mapped by assumption.
    erewrite bind_ok by reflexivity.
    rewrite Hrows1. change (automation_steps w0) with (automation_steps w).
    rewrite (steps_by_order_nil _ _ Hnone). exact Hupd2.
  - intros Hsteps.
    destruct (steps_by_order_cons _ _ Hsteps) as (s & l & Hsorted).
    destruct (launch_browser_none_raises models lib w1) as [e He].
    pose proof (residue_launch_browser models lib w1) as Hres.
    destruct (AutomationService.launch_browser models lib None w1)
      as [r w2] eqn:Hl.
    cbn [fst snd] in He, Hres. subst r.
    destruct Hres as (_ & _ & Hex2 & _).
    destruct (update_task_status_keeps models task_id FAILED
                (Some ("任务执行异常: " +:+ str_exn e)) w2)
      as (w3 & Hupd3 & _ & Hex3 & _).
    erewrite try_except_raise.
    + erewrite bind_ok by exact Hupd3.
      cbn [snd modify active_executions set_active_executions].
      rewrite Hex3, Hex2, Hex1.
      cbn [active_executions w0 set_active_executions].
      apply delete_insert_eq.
    + erewrite bind_ok by reflexivity.
      erewrite bind_ok by reflexivity. fold w0.
      erewrite bind_ok by exact Hupd1.
      rewrite query_bind_mapped by assumption.
      erewrite bind_ok by reflexivity.
      rewrite Hrows1. change (automation_steps w0) with (automation_steps w).
      rewrite Hsorted.
      erewrite bind_raise by exact Hl. reflexivity.
Qed.

Lemma execution_record_after_run_witness :
  active_executions
    (snd (ExecutionService.execute_task Base lib_ok never_stopped 1
            "exec_1_0" (world_of PENDING [])))
  = delete "exec_1_0" ∅ /\
  active_executions
    (snd (ExecutionService.execute_task Base_with_foreign_key lib_ok
            never_stopped 1 "exec_1_0" (world_of PENDING [])))
  = <[ "exec_1_0" := mkExecution 1 "running" 0 0 0 ]> ∅ /\
  active_executions
    (snd (ExecutionService.execute_task Base lib_ok never_stopped 1
            "exec_1_0" (world_of PENDING [wait_step 1 0])))
  = delete "exec_1_0" ∅.
Proof.
  split; [| split].
  - apply (proj1 (execution_record_after_run Base lib_ok never_stopped 1
                    "exec_1_0" (world_of PENDING []))).
    reflexivity.
  - apply (proj1 (execution_record_after_run Base_with_foreign_key lib_ok
                    never_stopped 1 "exec_1_0" (world_of PENDING []))).
    reflexivity.
  - apply (proj2 (execution_record_after_run Base lib_ok never_stopped 1
                    "exec_1_0" (world_of PENDING [wait_step 1 0]))).
    vm_compute. discriminate.
Defined.

(** ** The session registry, further *)

Global Instance same_registry_preorder : PreOrder same_registry.
Proof.
  split.
  - intros w. reflexivity.
  - intros w1 w2 w3 H12 H23. unfold same_registry in *. congruence.
Qed.

Global Instance trace_grows_preorder : PreOrder trace_grows.
Proof.
  split.
  - intros w. exists []. symmetry. apply app_nil_r.
  - intros w1 w2 w3 [l1 H1] [l2 H2]. exists (l1 ++ l2)%list.
    rewrite H2, H1, app_assoc. reflexivity.
Qed.

Lemma registry_modify (f : World -> World) :
  (forall w, active_browsers (f w) = active_browsers w) ->
  preserves same_registry (modify f).
Proof. intros Hf w. apply Hf. Qed.

Lemma registry_call lib c : preserves same_registry (call lib c).
Proof. intros w. unfold call. destruct (lib (trace w) c); reflexivity. Qed.

Lemma grows_modify (f : World -> World) :
  (forall w, trace (f w) = trace w) -> preserves trace_grows (modify f).
Proof.
  intros Hf w. exists []. cbn [snd modify]. rewrite Hf, app_nil_r. reflexivity.
Qed.

Lemma grows_call lib c : preserves trace_grows (call lib c).
Proof.
  intros w. unfold call. destruct (lib (trace w) c); eexists; reflexivity.
Qed.

#[local] Hint Resolve same_registry_preorder trace_grows_preorder
  registry_call grows_call : preservation.

Ltac registry_leaf := apply registry_modify; reflexivity.
Ltac grows_leaf := apply grows_modify; reflexivity.

Lemma registers_bind {A} (m : M A) (k : A -> M SessionInfo) :
  preserves same_registry m ->
  (forall a, registers_session (k a)) ->
  registers_session (m ≫= k).
Proof.
  intros Hm Hk w. specialize (Hm w). unfold mbind, M_bind.
  destruct (m w) as [[a | e] w1]; cbn [snd] in Hm; [| exact Hm].
  specialize (Hk a w1). unfold same_registry in Hm.
  destruct (k a w1) as [[info | e] w2]; rewrite <- Hm; exact Hk.
Qed.

Lemma registry_initialize lib :
  preserves same_registry (BrowserManager.initialize lib).
Proof.
  unfold BrowserManager.initialize.
  repeat first [preserves_step | registry_leaf].
Qed.

Lemma launch_browser_registers_session lib config :
  registers_session (BrowserManager.launch_browser lib config).
Proof.
  unfold BrowserManager.launch_browser. cbv zeta.
  apply registers_bind; [apply registry_initialize | intros _].
  repeat (apply registers_bind;
          [solve [repeat first [preserves_step | registry_leaf]] | intros ?]).
  intros w. unfold mbind, M_bind, modify, mret, M_ret.
  eexists. split; reflexivity.
Qed.

(** [X13].  The effect of [launch_browser] on the registry.  A launch that
    returns has added exactly one entry, under the session id it returns,
    and the control URL it returns ends with that id; [get_browser] then
    finds the session, with the handles of the entry.  A launch that raises
    leaves the registry as it was. *)
Theorem launch_browser_registers lib config w :
  match BrowserManager.launch_browser lib config w with
  | (Ok info, w') =>
      exists session,
        active_browsers w'
        = <[si_session_id info := session]> (active_browsers w) /\
        si_control_url info
        = "ws://localhost:8000/ws/" +:+ si_session_id info /\
        BrowserManager.get_browser (si_session_id info) w'
        = (Ok (Some (mkBrowserWrapper (si_session_id info)
                       (s_browser session) (s_context session)
                       (s_page session) "" "")), w')
  | (Raise _, w') => active_browsers w' = active_browsers w
  end.
Proof.
  pose proof (launch_browser_registers_session lib config w) as H.
  destruct (BrowserManager.launch_browser lib config w) as [[info | e] w'];
    [| exact H].
  destruct H as (session & Hreg & Hurl). exists session.
  split; [exact Hreg |]. split; [exact Hurl |].
  rewrite get_browser_eq, Hreg, lookup_insert_eq. reflexivity.
Qed.

(** Closing a registered session in a library whose closing calls
    return. *)
Lemma close_session_closes lib session_id w s :
  closes_return lib ->
  active_browsers w !! session_id = Some s ->
  exists w',
    BrowserManager.close_session lib session_id w = (Ok true, w') /\
    active_browsers w' = delete session_id (active_browsers w) /\
    tasks w' = tasks w /\
    automation_steps w' = automation_steps w /\
    browser_sessions w' = browser_sessions w /\
    playwright w' = playwright w /\
    active_executions w' = active_executions w.
Proof.
  intros Hlib Hs.
  unfold BrowserManager.close_session. monad_unfold. rewrite Hs.
  destruct (Hlib (trace w) (PageClose (s_page s)) eq_refl) as [v1 ->].
  cbn [trace emit].
  destruct (Hlib (trace w ++ [EvCall (PageClose (s_page s)) (Returned v1)])%list
              (ContextClose (s_context s)) eq_refl) as [v2 ->].
  cbn [trace emit].
  match goal with
  | |- context [lib ?h (BrowserClose (s_browser s))] =>
      destruct (Hlib h (BrowserClose (s_browser s)) eq_refl) as [v3 ->]
  end.
  eexists. split; [reflexivity |]. repeat split; reflexivity.
Qed.

(** [X14].  Launch, then close: in a library whose closing calls return,
    closing the session a launch has just returned succeeds, and the
    registry is again what it was before the launch (the id being a new
    one). *)
Theorem launch_then_close_restores_registry lib config w info w1 :
  closes_return lib ->
  BrowserManager.launch_browser lib config w = (Ok info, w1) ->
  active_browsers w !! si_session_id info = None ->
  exists w2,
    BrowserManager.close_session lib (si_session_id info) w1 = (Ok true, w2) /\
    active_browsers w2 = active_browsers w.
Proof.
  intros Hlib Hlaunch Hfresh.
  pose proof (launch_browser_registers_session lib config w) as H.
  rewrite Hlaunch in H. destruct H as (session & Hreg & _).
  assert (Hs : active_browsers w1 !! si_session_id info = Some session)
    by (rewrite Hreg; apply lookup_insert_eq).
  destruct (close_session_closes lib _ w1 session Hlib Hs)
    as (w2 & Hclose & Hreg2 & _).
  exists w2. split; [exact Hclose |].
  rewrite Hreg2, Hreg. apply delete_insert_id. exact Hfresh.
Qed.

Lemma lib_ok_closes : closes_return lib_ok.
Proof. intros history c Hc. destruct c; try discriminate; eexists; reflexivity. Qed.

Lemma launch_then_close_restores_registry_witness :
  exists w2,
    BrowserManager.close_session lib_ok "sess-1"
      (snd (BrowserManager.launch_browser lib_ok None empty_world))
    = (Ok true, w2) /\
    active_browsers w2 = active_browsers empty_world.
Proof.
  apply (launch_then_close_restores_registry lib_ok None empty_world
           (mkSessionInfo "sess-1" "chromium" "ws://localhost:8000/ws/sess-1")).
  - exact lib_ok_closes.
  - vm_compute; reflexivity.
  - reflexivity.
Defined.

Lemma split_on_absent sep s :
  contains sep s = false -> split_on sep s = [s].
Proof.
  induction s as [| c s IH]; cbn; [reflexivity |].
  intros H. apply orb_false_iff in H as [Hc Hs].
  rewrite Hc, (IH Hs). reflexivity.
Qed.

Lemma always_raises_bind_l {A B} (m : M A) (k : A -> M B) :
  always_raises m -> always_raises (m ≫= k).
Proof.
  intros Hm w. destruct (Hm w) as [e He]. unfold mbind, M_bind.
  destruct (m w) as [[a | e'] w1]; cbn [fst] in He; [discriminate |].
  eexists. reflexivity.
Qed.

(** A call is in the trace of whatever follows it. *)
Lemma call_then_in {A} lib c (k : string -> M A) w :
  (forall v, preserves trace_grows (k v)) ->
  exists reply, In (EvCall c reply) (trace (snd ((call lib c ≫= k) w))).
Proof.
  intros Hk. unfold mbind, M_bind, call.
  destruct (lib (trace w) c) as [v | m].
  - destruct (Hk v (emit (EvCall c (Returned v)) w)) as [events Hev].
    exists (Returned v).
    destruct (k v (emit (EvCall c (Returned v)) w)) as [r w1].
    cbn [snd] in *. rewrite Hev. cbn [trace emit].
    apply in_or_app. left. apply in_or_app. right. left. reflexivity.
  - exists (Raised m). cbn [snd trace emit].
    apply in_or_app. right. left. reflexivity.
Qed.

(** [X15].  The window size is read after the browser was launched.  With
    a configuration whose window size has no ["x"], [launch_browser]
    always raises and registers no session; and if Playwright was already
    started, the library has by then been asked to launch Chromium. *)
Theorem launch_browser_bad_window_size lib config w :
  contains "x" (cfg_window_size config) = false ->
  exists e w',
    BrowserManager.launch_browser lib (Some config) w = (Raise e, w') /\
    active_browsers w' = active_browsers w /\
    (playwright w = true ->
     exists reply,
       In (EvCall (ChromiumLaunch (cfg_headless config)
                     (if cfg_headless config
                      then ["--no-sandbox"; "--disable-setuid-sandbox"]
                      else [])) reply)
          (trace w')).
Proof.
  intros Hno.
  assert (Hraises : always_raises
                      (BrowserManager.launch_browser lib (Some config))).
  { unfold BrowserManager.launch_browser. cbv zeta. cbn [from_option].
    rewrite (split_on_absent _ _ Hno).
    apply always_raises_bind. intros _.
    apply always_raises_bind. intros browser.
    apply always_raises_bind. intros width.
    apply always_raises_bind_l. apply always_raises_bind_l.
    intros w0. eexists. reflexivity. }
  assert (Hasked :
    playwright w = true ->
    exists reply,
      In (EvCall (ChromiumLaunch (cfg_headless config)
                    (if cfg_headless config
                     then ["--no-sandbox"; "--disable-setuid-sandbox"]
                     else [])) reply)
         (trace (snd (BrowserManager.launch_browser lib (Some config) w)))).
  { intros Hstarted.
    unfold BrowserManager.launch_browser. cbv zeta. cbn [from_option].
    assert (Hinit : BrowserManager.initialize lib w = (Ok tt, w))
      by (unfold BrowserManager.initialize; erewrite bind_ok by reflexivity;
          rewrite Hstarted; reflexivity).
    erewrite bind_ok by exact Hinit.
    apply call_then_in. intros browser.
    repeat first [preserves_step | grows_leaf]. }
  destruct (Hraises w) as [e He].
  pose proof (launch_browser_registers_session lib (Some config) w) as Hreg.
  destruct (BrowserManager.launch_browser lib (Some config) w)
    as [[info | e'] w'] eqn:Hrun; cbn [fst] in He; [discriminate |].
  exists e', w'. split; [reflexivity |]. split; [exact Hreg |].
  exact Hasked.
Qed.

Lemma launch_browser_bad_window_size_witness :
  exists e w',
    BrowserManager.launch_browser lib_ok
      (Some (mkBrowserConfig "chrome" true "1920*1080" None None 30))
      world_one_session = (Raise e, w') /\
    active_browsers w' = active_browsers world_one_session /\
    (playwright world_one_session = true ->
     exists reply,
       In (EvCall (ChromiumLaunch true
                     ["--no-sandbox"; "--disable-setuid-sandbox"]) reply)
          (trace w')).
Proof.
  apply (launch_browser_bad_window_size lib_ok
           (mkBrowserConfig "chrome" true "1920*1080" None None 30)
           world_one_session).
  reflexivity.
Defined.

Lemma call_returns lib c w :
  (exists v, lib (trace w) c = Returned v) ->
  exists v, call lib c w = (Ok v, emit (EvCall c (Returned v)) w).
Proof. intros [v Hv]. exists v. unfold call. rewrite Hv. reflexivity. Qed.

(** With the default configuration and a library whose launch calls
    return, the manager's launch returns. *)
Lemma launch_browser_default_returns lib w :
  launches_return lib ->
  exists info w', BrowserManager.launch_browser lib None w = (Ok info, w').
Proof.
  intros Hlib. unfold BrowserManager.launch_browser. cbv zeta.
  cbn [from_option].
  assert (Hinit : exists w0, BrowserManager.initialize lib w = (Ok tt, w0)).
  { unfold BrowserManager.initialize. erewrite bind_ok by reflexivity.
    destruct (playwright w); [eexists; reflexivity |].
    destruct (call_returns lib PlaywrightStart w
                (Hlib (trace w) PlaywrightStart I)) as [v Hv].
    erewrite bind_ok by exact Hv. eexists. reflexivity. }
  destruct Hinit as [w0 Hinit]. erewrite bind_ok by exact Hinit.
  match goal with
  | |- context [call lib ?c ≫= _] =>
      destruct (call_returns lib c w0 (Hlib (trace w0) c I)) as [browser Hb]
  end.
  erewrite bind_ok by exact Hb.
  erewrite bind_ok by reflexivity.
  erewrite bind_ok by reflexivity.
  match goal with
  | |- context [(call lib ?c ≫= _) ?w1] =>
      destruct (call_returns lib c w1 (Hlib (trace w1) c I)) as [context Hc]
  end.
  erewrite bind_ok by exact Hc.
  match goal with
  | |- context [(call lib ?c ≫= _) ?w1] =>
      destruct (call_returns lib c w1 (Hlib (trace w1) c I)) as [page Hp]
  end.
  erewrite bind_ok by exact Hp.
  match goal with
  | |- context [(call lib ?c ≫= _) ?w1] =>
      destruct (call_returns lib c w1 (Hlib (trace w1) c I)) as [sid Hs]
  end.
  erewrite bind_ok by exact Hs.
  eexists. eexists. reflexivity.
Qed.

(** [AutomationService.launch_browser] never returns: after the manager
    has launched the session, the row of [browser_sessions] cannot be
    built, for want of a configuration, of a mapping that configures, or
    of a task id for the column that is not nullable.  The session stays
    in the registry. *)
Lemma launch_browser_always_raises models lib config :
  always_raises (AutomationService.launch_browser models lib config).
Proof.
  unfold AutomationService.launch_browser.
  apply always_raises_bind. intros info.
  destruct config as [c |]; [| intros w; eexists; reflexivity].
  cbn [attr]. intros w. unfold Db.construct, Db.query.
  erewrite bind_ok by reflexivity.
  destruct (configures models); eexists; reflexivity.
Qed.

(** [X16].  A run of a task that has a step, in a library whose launch
    calls return.  On a mapping that configures, the run leaves a browser
    session open: the session that [execute_task] launches is registered
    before [launch_browser(None)] raises, the [finally] block that would
    close it is never entered, and the registry at the end of the run is
    the one at the start with that session added.  On the declared
    mapping the run ends at its step query, before the launch: the
    registry and the trace are as they were. *)
Theorem run_with_steps_leaves_session_open models lib stops task_id
  execution_id w :
  launches_return lib ->
  steps_of_task task_id (automation_steps w) <> [] ->
  fits_integer task_id = true ->
  let w' := snd (ExecutionService.execute_task models lib stops task_id
                   execution_id w) in
  if configures models
  then exists session_id session,
      active_browsers w' = <[session_id := session]> (active_browsers w)
  else active_browsers w' = active_browsers w /\ trace w' = trace w.
Proof.
  intros Hlib Hsteps Hz. cbv zeta.
  destruct (configures models) eqn:Hm.
  2:{ destruct (execute_task_unmapped_keeps models lib stops task_id
                  execution_id w Hm)
        as (w' & -> & _ & _ & _ & Hb & _ & _ & _ & Htr).
      split; assumption. }
  destruct (steps_by_order_cons _ _ Hsteps) as (s & l & Hsorted).
  unfold ExecutionService.execute_task, ExecutionService.forget_execution.
  set (w0 := set_active_executions
               (insert execution_id
                  (mkExecution task_id "running" (clock w) 0 0)) w).
  destruct (update_task_status_keeps models task_id RUNNING None w0)
    as (w1 & Hupd1 & Hrows1 & _ & Hreg1 & _).
  destruct (launch_browser_default_returns lib w1 Hlib) as (info & w2 & Hl).
  pose proof (launch_browser_registers_session lib None w1) as Hreg2.
  rewrite Hl in Hreg2. destruct Hreg2 as (session & Hreg2 & _).
  set (e := AttributeError "'NoneType' object has no attribute 'browser_type'").
  assert (Hlaunch : AutomationService.launch_browser models lib None w1
                    = (Raise e, w2)).
  { unfold AutomationService.launch_browser.
    erewrite bind_ok by exact Hl. reflexivity. }
  destruct (update_task_status_keeps models task_id FAILED
              (Some ("任务执行异常: " +:+ str_exn e)) w2)
    as (w3 & Hupd3 & _ & _ & Hreg3 & _).
  exists (si_session_id info), session.
  erewrite try_except_raise.
  - erewrite bind_ok by exact Hupd3.
    cbn [snd modify active_browsers set_active_executions].
    rewrite Hreg3, Hreg2, Hreg1. reflexivity.
  - erewrite bind_ok by reflexivity.
    erewrite bind_ok by reflexivity. fold w0.
    erewrite bind_ok by exact Hupd1.
    rewrite query_bind_mapped by assumption.
    erewrite bind_ok by reflexivity.
    rewrite Hrows1. change (automation_steps w0) with (automation_steps w).
    rewrite Hsorted.
    erewrite bind_raise by exact Hlaunch. reflexivity.
Qed.

Lemma lib_ok_launches : launches_return lib_ok.
Proof.
  intros history c Hc. destruct c; try contradiction; eexists; reflexivity.
Qed.

Lemma run_with_steps_leaves_session_open_witness :
  (exists session_id session,
     active_browsers
       (snd (ExecutionService.execute_task Base_with_foreign_key lib_ok
               never_stopped 1 "exec_1_0" world_with_url))
     = <[session_id := session]> (active_browsers world_with_url)) /\
  (active_browsers
     (snd (ExecutionService.execute_task Base lib_ok never_stopped 1
             "exec_1_0" world_with_url))
   = active_browsers world_with_url /\
   trace (snd (ExecutionService.execute_task Base lib_ok never_stopped 1
                 "exec_1_0" world_with_url))
   = trace world_with_url).
Proof.
  split.
  - apply (run_with_steps_leaves_session_open Base_with_foreign_key lib_ok
             never_stopped 1 "exec_1_0" world_with_url).
    + exact lib_ok_launches.
    + vm_compute. discriminate.
    + reflexivity.
  - apply (run_with_steps_leaves_session_open Base lib_ok
             never_stopped 1 "exec_1_0" world_with_url).
    + exact lib_ok_launches.
    + vm_compute. discriminate.
    + reflexivity.
Defined.

(** ** Closing sessions, further *)

Lemma filter_active_without session_id rows :
  (forall r, In r rows -> BrowserSession.session_id r <> session_id) ->
  List.filter
    (fun r => BrowserSession.is_active r
              && negb (bool_decide (BrowserSession.session_id r = session_id)))
    rows
  = List.filter BrowserSession.is_active rows.
Proof.
  induction rows as [| r rows IH]; intros Hne; [reflexivity |].
  cbn [List.filter].
  rewrite bool_decide_eq_false_2 by (apply Hne; left; reflexivity).
  rewrite andb_true_r, IH; [reflexivity |].
  intros r' Hin. apply Hne. right. exact Hin.
Qed.

Lemma filter_active_deactivate session_id rows :
  NoDup (map BrowserSession.session_id rows) ->
  List.filter BrowserSession.is_active
    (AutomationService.deactivate session_id rows)
  = List.filter
      (fun r => BrowserSession.is_active r
                && negb (bool_decide (BrowserSession.session_id r = session_id)))
      rows.
Proof.
  induction rows as [| r rows IH]; intros Hnodup; [reflexivity |].
  cbn [map] in Hnodup. apply NoDup_cons in Hnodup as [Hfresh Hnodup].
  cbn [AutomationService.deactivate].
  case_bool_decide as Hid.
  - cbn [List.filter BrowserSession.is_active].
    rewrite (bool_decide_eq_true_2 _ Hid), andb_false_r.
    symmetry. apply filter_active_without.
    intros r' Hin Heq. apply Hfresh. rewrite Hid, <- Heq.
    apply list_elem_of_In, in_map, Hin.
  - cbn [List.filter].
    rewrite (bool_decide_eq_false_2 _ Hid), andb_true_r, IH by exact Hnodup.
    reflexivity.
Qed.

(** [X17].  [AutomationService.close_session] and the list of active
    sessions.  Closing an id the manager does not hold returns false and
    changes nothing, so a row of that id stays listed as active.  Closing
    a session the manager holds (its closing calls returning, the session
    ids of the rows being unique) removes it from the registry.  On a
    mapping that configures it then returns true, and the list of active
    sessions afterwards is the list before without the rows of that id.
    On the declared mapping the query for the row raises after the
    session was closed: the call returns false, the rows are as they
    were, and the list of active sessions cannot be read. *)
Theorem close_session_delists models lib session_id w :
  (active_browsers w !! session_id = None ->
   AutomationService.close_session models lib session_id w = (Ok false, w)) /\
  (forall s,
     closes_return lib ->
     active_browsers w !! session_id = Some s ->
     NoDup (map BrowserSession.session_id (browser_sessions w)) ->
     exists w',
       active_browsers w' = delete session_id (active_browsers w) /\
       if configures models
       then AutomationService.close_session models lib session_id w
            = (Ok true, w') /\
            fst (AutomationService.get_active_sessions models w')
            = Ok (List.filter
                    (fun r =>
                       BrowserSession.is_active r
                       && negb (bool_decide
                                  (BrowserSession.session_id r = session_id)))
                    (browser_sessions w))
       else AutomationService.close_session models lib session_id w
            = (Ok false, w') /\
            browser_sessions w' = browser_sessions w /\
            fst (AutomationService.get_active_sessions models w')
            = Raise mapper_error).
Proof.
  split.
  - intros Hnone. unfold AutomationService.close_session.
    apply try_except_ok.
    erewrite bind_ok by (apply close_session_unknown; exact Hnone).
    reflexivity.
  - intros s Hlib Hs Hnodup.
    destruct (close_session_closes lib session_id w s Hlib Hs)
      as (w1 & Hclose & Hreg & _ & _ & Hrows & _).
    destruct (configures models) eqn:Hm.
    + exists (set_browser_sessions (AutomationService.deactivate session_id)
                w1).
      split; [| split].
      * cbn [active_browsers set_browser_sessions]. exact Hreg.
      * unfold AutomationService.close_session. apply try_except_ok.
        erewrite bind_ok by exact Hclose.
        erewrite bind_ok by (erewrite bind_ok by (apply query_mapped, Hm);
                             reflexivity).
        reflexivity.
      * unfold AutomationService.get_active_sessions.
        erewrite bind_ok by (apply query_mapped, Hm).
        erewrite bind_ok by reflexivity. cbn [fst mret M_ret].
        cbn [browser_sessions set_browser_sessions]. rewrite Hrows.
        rewrite filter_active_deactivate by exact Hnodup. reflexivity.
    + exists w1. split; [exact Hreg |]. split; [| split].
      * unfold AutomationService.close_session.
        erewrite try_except_raise; [reflexivity |].
        erewrite bind_ok by exact Hclose.
        apply bind_raise, bind_raise, query_unmapped, Hm.
      * exact Hrows.
      * unfold AutomationService.get_active_sessions.
        erewrite bind_raise by (apply query_unmapped, Hm). reflexivity.
Qed.

Lemma close_session_delists_witness :
  AutomationService.close_session Base lib_ok "sess-9" world_one_session
  = (Ok false, world_one_session) /\
  (exists w',
     active_browsers w'
     = delete "sess-1" (active_browsers world_listed_sessions) /\
     AutomationService.close_session Base_with_foreign_key lib_ok "sess-1"
       world_listed_sessions
     = (Ok true, w') /\
     fst (AutomationService.get_active_sessions Base_with_foreign_key w')
     = Ok (List.filter
             (fun r =>
                BrowserSession.is_active r
                && negb (bool_decide (BrowserSession.session_id r = "sess-1")))
             (browser_sessions world_listed_sessions))) /\
  (exists w',
     active_browsers w'
     = delete "sess-1" (active_browsers world_listed_sessions) /\
     AutomationService.close_session Base lib_ok "sess-1"
       world_listed_sessions
     = (Ok false, w') /\
     browser_sessions w' = browser_sessions world_listed_sessions /\
     fst (AutomationService.get_active_sessions Base w')
     = Raise mapper_error).
Proof.
  assert (Hkeys : NoDup (map BrowserSession.session_id
                           (browser_sessions world_listed_sessions))).
  { cbn. repeat constructor; rewrite ?elem_of_cons, ?elem_of_nil;
      intros H; repeat destruct H as [H | H]; try discriminate; exact H. }
  split; [| split].
  - apply (proj1 (close_session_delists Base lib_ok "sess-9"
                    world_one_session)).
    reflexivity.
  - apply (proj2 (close_session_delists Base_with_foreign_key lib_ok "sess-1"
                    world_listed_sessions) session1).
    + exact lib_ok_closes.
    + vm_compute; reflexivity.
    + exact Hkeys.
  - apply (proj2 (close_session_delists Base lib_ok "sess-1"
                    world_listed_sessions) session1).
    + exact lib_ok_closes.
    + vm_compute; reflexivity.
    + exact Hkeys.
Defined.

(** After the loop of [close_all_sessions], in a library whose closing
    calls return. *)
Lemma close_sessions_closes lib session_ids :
  closes_return lib ->
  forall w,
    exists w',
      BrowserManager.close_sessions lib session_ids w = (Ok tt, w') /\
      playwright w' = playwright w /\
      (forall id, In id session_ids -> active_browsers w' !! id = None) /\
      (forall id, ~ In id session_ids ->
                  active_browsers w' !! id = active_browsers w !! id).
Proof.
  intros Hlib. induction session_ids as [| a rest IH]; intros w.
  - exists w. split; [reflexivity |]. split; [reflexivity |].
    split; [intros id [] | reflexivity].
  - cbn [BrowserManager.close_sessions].
    assert (Hfirst : exists b w1,
               BrowserManager.close_session lib a w = (Ok b, w1) /\
               playwright w1 = playwright w /\
               active_browsers w1 = delete a (active_browsers w)).
    { destruct (active_browsers w !! a) as [s |] eqn:Hs.
      - destruct (close_session_closes lib a w s Hlib Hs)
          as (w1 & Hclose & Hreg & _ & _ & _ & Hpw & _).
        exists true, w1. repeat split; assumption.
      - exists false, w. split; [apply close_session_unknown; exact Hs |].
        split; [reflexivity |]. symmetry. apply delete_id. exact Hs. }
    destruct Hfirst as (b & w1 & Hclose & Hpw1 & Hreg1).
    destruct (IH w1) as (w' & Hrest & Hpw & Hin & Hout).
    exists w'. erewrite bind_ok by exact Hclose.
    split; [exact Hrest |]. split; [congruence |]. split.
    + intros id [-> | Hid].
      * destruct (in_dec string_dec id rest) as [Hr | Hr]; [apply Hin, Hr |].
        rewrite (Hout id Hr), Hreg1. apply lookup_delete_eq.
      * apply Hin, Hid.
    + intros id Hnot. rewrite Hout by (intros H; apply Hnot; right; exact H).
      rewrite Hreg1. apply lookup_delete_ne.
      intros ->. apply Hnot. left. reflexivity.
Qed.

(** [X18].  [close_all_sessions] in a library whose closing calls and
    whose stop return: it returns, Playwright is stopped, every session of
    the snapshot is gone and the others are untouched; when the snapshot
    lists every registered id the registry is empty. *)
Theorem close_all_sessions_empties lib session_ids w :
  closes_return lib ->
  (forall history, exists v, lib history PlaywrightStop = Returned v) ->
  exists w',
    BrowserManager.close_all_sessions lib session_ids w = (Ok tt, w') /\
    playwright w' = false /\
    (forall id, In id session_ids -> active_browsers w' !! id = None) /\
    (forall id, ~ In id session_ids ->
                active_browsers w' !! id = active_browsers w !! id) /\
    ((forall id, is_Some (active_browsers w !! id) -> In id session_ids) ->
     active_browsers w' = ∅).
Proof.
  intros Hlib Hstop.
  destruct (close_sessions_closes lib session_ids Hlib w)
    as (w1 & Hloop & Hpw & Hin & Hout).
  unfold BrowserManager.close_all_sessions.
  erewrite bind_ok by exact Hloop.
  erewrite bind_ok by reflexivity.
  assert (Hend : exists w',
             (if playwright w1
              then call lib PlaywrightStop ≫= λ _, modify (set_playwright false)
              else mret tt) w1 = (Ok tt, w') /\
             playwright w' = false /\
             active_browsers w' = active_browsers w1).
  { destruct (playwright w1) eqn:Hp.
    - destruct (call_returns lib PlaywrightStop w1 (Hstop (trace w1)))
        as [v Hv].
      erewrite bind_ok by exact Hv. eexists. repeat split.
    - exists w1. repeat split. exact Hp. }
  destruct Hend as (w' & Hrun & Hpw' & Hreg').
  exists w'. split; [exact Hrun |]. split; [exact Hpw' |].
  rewrite Hreg'. split; [exact Hin |]. split; [exact Hout |].
  intros Hall. apply map_eq. intros id. rewrite lookup_empty.
  destruct (in_dec string_dec id session_ids) as [Hi | Hi]; [apply Hin, Hi |].
  rewrite (Hout id Hi).
  destruct (active_browsers w !! id) eqn:Hl; [| reflexivity].
  exfalso. apply Hi, Hall. rewrite Hl. eauto.
Qed.

Lemma close_all_sessions_empties_witness :
  exists w',
    BrowserManager.close_all_sessions lib_ok ["sess-1"; "sess-2"]
      world_two_sessions = (Ok tt, w') /\
    playwright w' = false /\
    (forall id, In id ["sess-1"; "sess-2"] -> active_browsers w' !! id = None) /\
    (forall id, ~ In id ["sess-1"; "sess-2"] ->
                active_browsers w' !! id
                = active_browsers world_two_sessions !! id) /\
    ((forall id, is_Some (active_browsers world_two_sessions !! id) ->
                 In id ["sess-1"; "sess-2"]) ->
     active_browsers w' = ∅).
Proof.
  apply (close_all_sessions_empties lib_ok ["sess-1"; "sess-2"]
           world_two_sessions).
  - exact lib_ok_closes.
  - intros history. eexists. reflexivity.
Defined.

(** ** Navigation *)

(** [X19].  [navigate_to_url] on a session the manager holds: the call
    never returns, and it raises only after the page was asked to navigate
    to the URL; the registry is as before. *)
Theorem navigate_to_url_known_session models lib session_id url w s :
  active_browsers w !! session_id = Some s ->
  exists e w',
    AutomationService.navigate_to_url models lib session_id url w
    = (Raise e, w') /\
    (exists reply,
       In (EvCall (PageGoto (s_page s) url (BROWSER_TIMEOUT * 1000)) reply)
          (trace w')) /\
    active_browsers w' = active_browsers w.
Proof.
  intros Hs.
  assert (Hraises : always_raises
                      (AutomationService.navigate_to_url models lib
                         session_id url)).
  { unfold AutomationService.navigate_to_url.
    do 6 (apply always_raises_bind; intros ?).
    intros w0. eexists. reflexivity. }
  assert (Hasked : exists reply,
            In (EvCall (PageGoto (s_page s) url (BROWSER_TIMEOUT * 1000)) reply)
               (trace (snd (AutomationService.navigate_to_url models lib
                              session_id url w)))).
  { unfold AutomationService.navigate_to_url.
    erewrite bind_ok by apply get_browser_eq. rewrite Hs. cbn [attr].
    erewrite bind_ok by reflexivity.
    unfold BrowserWrapperOps.goto. cbn [bw_page].
    rewrite bind_assoc_at.
    apply call_then_in. intros v.
    repeat first [preserves_step | grows_leaf]. }
  assert (Hreg : preserves same_registry
                   (AutomationService.navigate_to_url models lib session_id
                      url)).
  { unfold AutomationService.navigate_to_url, BrowserWrapperOps.goto,
      BrowserManager.get_browser, attr.
    repeat first [preserves_step | registry_leaf | apply registry_call]. }
  destruct (Hraises w) as [e He]. specialize (Hreg w).
  destruct (AutomationService.navigate_to_url models lib session_id url w)
    as [[info | e'] w'] eqn:Hrun; cbn [fst] in He; [discriminate |].
  exists e', w'. split; [reflexivity |]. split; [exact Hasked | exact Hreg].
Qed.

Lemma navigate_to_url_known_session_witness :
  exists e w',
    AutomationService.navigate_to_url Base lib_ok "sess-1"
      "http://example.test/" world_one_session
    = (Raise e, w') /\
    (exists reply,
       In (EvCall (PageGoto (s_page session1) "http://example.test/"
                     (BROWSER_TIMEOUT * 1000)) reply)
          (trace w')) /\
    active_browsers w' = active_browsers world_one_session.
Proof.
  apply (navigate_to_url_known_session Base lib_ok "sess-1"
           "http://example.test/" world_one_session session1).
  vm_compute; reflexivity.
Defined.

(** ** Previews *)

Lemma frame_preview_steps lib session_id steps :
  forall executed results,
    preserves only_trace_grows
      (AutomationService.preview_steps lib session_id steps executed results).
Proof.
  induction steps as [| step rest IH]; intros executed results;
    cbn [AutomationService.preview_steps].
  - preservation.
  - preserves_step.
    + preserves_step; [| preservation].
      preserves_step; [apply frame_execute_step |]. preservation.
    + destruct a; [apply IH | preservation].
Qed.

(** The loop of a preview never raises; it returns the number of
    successes and the entries. *)
Lemma preview_steps_outcome lib session_id steps :
  forall executed results w,
    exists oks failed w',
      AutomationService.preview_steps lib session_id steps executed results w
      = (Ok ((executed + length oks)%nat, (results ++ oks ++ failed)%list), w') /\
      preview_entries steps oks failed.
Proof.
  induction steps as [| step rest IH]; intros executed results w;
    cbn [AutomationService.preview_steps].
  - exists [], [], w. rewrite Nat.add_0_r, !app_nil_r.
    split; [reflexivity |]. split; [reflexivity |]. split; [reflexivity |].
    left. split; reflexivity.
  - destruct (AutomationService.execute_step lib step session_id w)
      as [[result | e] w1] eqn:Hstep.
    + erewrite bind_ok; cycle 1.
      { apply try_except_ok. erewrite bind_ok by exact Hstep.
        erewrite bind_ok by reflexivity. reflexivity. }
      cbv beta iota.
      destruct (IH (S executed)
                  (results ++ [PreviewOk (AutomationStep.id step)
                                 (AutomationStep.step_name step) result])%list
                  (emit (EvSleep 2) w1))
        as (oks & failed & w' & Hrun & Hoks & Hsteps & Hend).
      exists (PreviewOk (AutomationStep.id step)
                (AutomationStep.step_name step) result :: oks), failed, w'.
      split.
      { rewrite Hrun. cbn [length]. rewrite Nat.add_succ_r, <- app_assoc.
        reflexivity. }
      split; [cbn; exact Hoks |]. split.
      { cbn [app length take map entry_step]. rewrite Hsteps. reflexivity. }
      destruct Hend as [[-> Hlen] | Hfailed]; [left | right; exact Hfailed].
      split; [reflexivity |]. cbn [length]. rewrite Hlen. reflexivity.
    + erewrite bind_ok; cycle 1.
      { erewrite try_except_raise; cycle 1.
        { erewrite bind_raise by exact Hstep. reflexivity. }
        reflexivity. }
      cbv beta iota.
      exists [], [PreviewFailed (AutomationStep.id step)
                    (AutomationStep.step_name step) (str_exn e)], w1.
      rewrite Nat.add_0_r. split; [reflexivity |].
      split; [reflexivity |]. split; [reflexivity |].
      right. eauto.
Qed.

(** [X20].  What a preview reports.  A preview returns only on a mapping
    that configures, and then: the preview id and the task id are those of
    the call, the total is the number of steps of the task, there is one
    entry for each step of a prefix of the steps in execution order,
    [executed_steps] is the number of successful entries, and a failed
    entry can only be the last one.  On the declared mapping the preview
    raises the error of the mapping at its first query, and nothing has
    happened by then. *)
Theorem preview_result_invariant models lib task_id preview_id w :
  match AutomationService.preview_automation models lib task_id preview_id w
  with
  | (Ok r, w') =>
      configures models = true /\
      let steps := steps_by_order task_id (automation_steps w) in
      pv_preview_id r = preview_id /\
      pv_task_id r = task_id /\
      pv_total_steps r = length steps /\
      exists oks failed,
        pv_results r = (oks ++ failed)%list /\
        pv_executed_steps r = length oks /\
        preview_entries steps oks failed
  | (Raise e, w') =>
      configures models = false -> e = mapper_error /\ w' = w
  end.
Proof.
  destruct (configures models) eqn:Hm.
  2:{ unfold AutomationService.preview_automation.
      rewrite query_bind_unmapped by exact Hm. intros _. split; reflexivity. }
  destruct (AutomationService.preview_automation models lib task_id
              preview_id w) as [[r | e] w'] eqn:Hrun; [| discriminate].
  split; [reflexivity |].
  revert Hrun. unfold AutomationService.preview_automation.
  destruct (fits_integer task_id) eqn:Hz.
  2:{ erewrite bind_ok by (apply query_mapped, Hm).
      erewrite bind_raise by (apply bind_overflow, Hz). intros [=]. }
  rewrite query_bind_mapped by assumption.
  erewrite bind_ok by reflexivity.
  destruct (tasks w !! task_id) as [task |];
    [erewrite bind_ok by reflexivity | intros [=]].
  rewrite query_bind_mapped by assumption.
  destruct (BrowserManager.launch_browser lib (Some default_browser_config) w)
    as [[info | e] w1] eqn:Hlaunch;
    [erewrite bind_ok by exact Hlaunch
    | erewrite bind_raise by exact Hlaunch; intros [=]].
  unfold try_finally.
  match goal with
  | |- context [(?first ≫= ?rest) w1] =>
      destruct (first w1) as [[[] | e] w2] eqn:Hfirst;
      [erewrite (bind_ok first) by exact Hfirst
      | erewrite (bind_raise first) by exact Hfirst]
  end.
  - destruct (preview_steps_outcome lib (si_session_id info)
                (steps_by_order task_id (automation_steps w)) 0 [] w2)
      as (oks & failed & w3 & Hrun & Hentries).
    erewrite bind_ok by exact Hrun. cbn [app Nat.add].
    unfold mret at 1, M_ret at 1.
    match goal with
    | |- context [match ?fin w3 with _ => _ end] =>
        destruct (fin w3) as [[[] | e] w4]
    end; intros [= <- _]; cbn.
    + repeat split. exists oks, failed. repeat split; apply Hentries.
  - match goal with
    | |- context [match ?fin w2 with _ => _ end] =>
        destruct (fin w2) as [[[] | e'] w4]
    end; intros [=].
Qed.

(** The preview of task 1, whose second step has no selector, on the
    repaired and on the declared mapping. *)
Lemma preview_automation_sample :
  fst (AutomationService.preview_automation Base_with_foreign_key lib_ok 1
         "pv-1" world_to_preview)
  = Ok (mkPreviewResult "pv-1" 1 3 1
          [PreviewOk 1 "pause" (WaitResult (JNum 0));
           PreviewFailed 2 "go" "点击操作需要指定目标选择器"]) /\
  AutomationService.preview_automation Base lib_ok 1 "pv-1" world_to_preview
  = (Raise mapper_error, world_to_preview).
Proof. split; vm_compute; reflexivity. Qed.

Global Instance same_store_preorder : PreOrder same_store.
Proof.
  split.
  - intros w. repeat split.
  - intros w1 w2 w3 (A1 & A2 & A3 & A4) (B1 & B2 & B3 & B4).
    repeat split; congruence.
Qed.

Lemma store_modify (f : World -> World) :
  (forall w, same_store w (f w)) -> preserves same_store (modify f).
Proof. intros Hf w. apply Hf. Qed.

Lemma store_call lib c : preserves same_store (call lib c).
Proof.
  intros w. unfold call. destruct (lib (trace w) c); repeat split.
Qed.

#[local] Hint Resolve same_store_preorder store_call : preservation.

Ltac store_leaf := apply store_modify; intros ?; repeat split.

Lemma store_launch_browser lib config :
  preserves same_store (BrowserManager.launch_browser lib config).
Proof.
  unfold BrowserManager.launch_browser, BrowserManager.initialize. cbv zeta.
  repeat first [preserves_step | store_leaf].
Qed.

Lemma frame_goto lib b url :
  preserves only_trace_grows (BrowserWrapperOps.goto lib b url).
Proof. unfold BrowserWrapperOps.goto. preservation. Qed.

(** The body of a preview, between the launch and the closing of its
    session. *)
Lemma frame_preview_body lib session_id (url : string) steps
  (k : nat * list PreviewEntry -> M PreviewResult) :
  (forall p, preserves only_trace_grows (k p)) ->
  preserves only_trace_grows
    ((if truthy (Some url)
      then browser ← BrowserManager.get_browser session_id;
           b ← attr browser "goto";
           _ ← BrowserWrapperOps.goto lib b url;
           mret tt
      else mret tt);;
     p ← AutomationService.preview_steps lib session_id steps 0 [];
     k p).
Proof.
  intros Hk. preserves_step.
  - destruct (truthy (Some url)); [| preservation].
    unfold BrowserManager.get_browser.
    repeat first [apply frame_goto | preserves_step].
  - preserves_step; [apply frame_preview_steps | apply Hk].
Qed.

(** [X21].  A preview leaves no session behind and changes no table: in a
    library whose closing calls return, every session registered after a
    preview was registered before it, and the tables of the tasks, of the
    steps and of the sessions and the execution records are as before,
    whether the preview returns or raises.  (The rows of the execution
    log that the step executor asks for are in the trace.) *)
Theorem preview_automation_leaves_no_session models lib task_id preview_id w :
  closes_return lib ->
  let w' := snd (AutomationService.preview_automation models lib task_id
                   preview_id w) in
  active_browsers w' ⊆ active_browsers w /\ same_store w w'.
Proof.
  intros Hlib. cbv zeta.
  unfold AutomationService.preview_automation.
  destruct (configures models) eqn:Hm;
    [| rewrite query_bind_unmapped by exact Hm; split; reflexivity].
  destruct (fits_integer task_id) eqn:Hz.
  2:{ erewrite bind_ok by (apply query_mapped, Hm).
      erewrite bind_raise by (apply bind_overflow, Hz). split; reflexivity. }
  rewrite query_bind_mapped by assumption.
  erewrite bind_ok by reflexivity.
  destruct (tasks w !! task_id) as [task |];
    [erewrite bind_ok by reflexivity | split; reflexivity].
  rewrite query_bind_mapped by assumption.
  pose proof (launch_browser_registers_session lib
                (Some default_browser_config) w) as Hreg.
  pose proof (store_launch_browser lib (Some default_browser_config) w)
    as Hstore.
  destruct (BrowserManager.launch_browser lib (Some default_browser_config) w)
    as [[info | e] w1] eqn:Hlaunch; cbn [snd] in Hstore;
    [erewrite bind_ok by exact Hlaunch
    | erewrite bind_raise by exact Hlaunch; cbn [snd];
      split; [rewrite Hreg; reflexivity | exact Hstore]].
  destruct Hreg as (session & Hreg & _).
  match goal with
  | |- context [try_finally ?body ?fin w1] =>
      assert (Hbody : preserves only_trace_grows body);
      [| pose proof (Hbody w1) as Hframe;
         destruct (body w1) as [r w2] eqn:Hrun; cbn [snd] in Hframe]
  end.
  { apply frame_preview_body. intros [executed results]. preservation. }
  assert (Hs : active_browsers w2 !! si_session_id info = Some session).
  { destruct Hframe as (_ & _ & _ & -> & _). rewrite Hreg.
    apply lookup_insert_eq. }
  destruct (close_session_closes lib _ w2 session Hlib Hs)
    as (w3 & Hclose & Hreg3 & Ht3 & Hs3 & Hb3 & _ & He3).
  erewrite try_finally_eq; [| exact Hrun | erewrite bind_ok by exact Hclose;
                                           reflexivity].
  cbn [snd]. destruct Hframe as (Ht2 & Hs2 & Hb2 & Hreg2 & _ & He2 & _).
  destruct Hstore as (Ht1 & Hs1 & Hb1 & He1).
  split.
  - rewrite Hreg3, Hreg2, Hreg, delete_insert_eq. apply delete_subseteq.
  - repeat split; congruence.
Qed.

Lemma preview_automation_leaves_no_session_witness :
  (let w' := snd (AutomationService.preview_automation Base_with_foreign_key
                    lib_ok 1 "pv-1" world_to_preview) in
   active_browsers w' ⊆ active_browsers world_to_preview /\
   same_store world_to_preview w') /\
  (let w' := snd (AutomationService.preview_automation Base lib_ok 1 "pv-1"
                    world_to_preview) in
   active_browsers w' ⊆ active_browsers world_to_preview /\
   same_store world_to_preview w').
Proof.
  split.
  - apply (preview_automation_leaves_no_session Base_with_foreign_key lib_ok
             1 "pv-1" world_to_preview).
    exact lib_ok_closes.
  - apply (preview_automation_leaves_no_session Base lib_ok 1 "pv-1"
             world_to_preview).
    exact lib_ok_closes.
Defined.

(** [X22].  A preview of a task that does not exist raises before
    anything is launched, and the world, trace included, is as before: on
    a mapping that configures it raises the [ValueError] that names the
    task, on the declared mapping the error of the mapping. *)
Theorem preview_automation_missing_task models lib task_id preview_id w :
  tasks w !! task_id = None ->
  fits_integer task_id = true ->
  AutomationService.preview_automation models lib task_id preview_id w
  = (Raise (if configures models
            then ValueError ("任务未找到: " +:+ pretty task_id)
            else mapper_error), w).
Proof.
  intros Hmissing Hz. unfold AutomationService.preview_automation.
  destruct (configures models) eqn:Hm;
    [| apply query_bind_unmapped, Hm].
  rewrite query_bind_mapped by assumption.
  erewrite bind_ok by reflexivity. rewrite Hmissing. reflexivity.
Qed.

Lemma preview_automation_missing_task_witness :
  AutomationService.preview_automation Base_with_foreign_key lib_ok 7 "pv-1"
    world_to_preview
  = (Raise (ValueError ("任务未找到: " +:+ pretty 7)), world_to_preview) /\
  AutomationService.preview_automation Base lib_ok 7 "pv-1" world_to_preview
  = (Raise mapper_error, world_to_preview).
Proof.
  split.
  - apply (preview_automation_missing_task Base_with_foreign_key lib_ok 7
             "pv-1" world_to_preview); reflexivity.
  - apply (preview_automation_missing_task Base lib_ok 7 "pv-1"
             world_to_preview); reflexivity.
Defined.

(** ** Stopping an execution *)

Lemma stop_task_overflow models task_id w :
  fits_integer task_id = false ->
  TaskService.stop_task models task_id w = (Ok false, w).
Proof.
  intros Hz. unfold TaskService.stop_task, Db.query, Db.bind.
  unfold try_except, mbind, M_bind, mret, M_ret, raise, get_world.
  destruct (configures models); [| reflexivity].
  rewrite Hz. reflexivity.
Qed.

(** [stop_execution] on a record of the service, by what [stop_task]
    does for the task of the record. *)
Lemma stop_execution_found models execution_id w ex :
  active_executions w !! execution_id = Some ex ->
  let w0 :=
    set_active_executions
      (insert execution_id (ExecutionService.set_status "stopped" ex)) w in
  ExecutionService.stop_execution models execution_id w
  = (Ok true,
     if bool_decide (ex_task_id ex = 0) then w0
     else snd (TaskService.stop_task models (ex_task_id ex) w0)).
Proof.
  intros Hex. cbv zeta. unfold ExecutionService.stop_execution.
  apply try_except_ok.
  erewrite bind_ok by reflexivity. rewrite Hex.
  erewrite bind_ok by reflexivity.
  destruct (bool_decide (ex_task_id ex = 0)); [reflexivity |].
  destruct (stop_task_returns models (ex_task_id ex)
              (set_active_executions
                 (insert execution_id
                    (ExecutionService.set_status "stopped" ex)) w))
    as (b & w1 & Hstop & _).
  erewrite bind_ok; cycle 1.
  { erewrite bind_ok by exact Hstop. reflexivity. }
  rewrite Hstop. reflexivity.
Qed.

(** [X23].  [stop_execution] raises no exception.  For an id without a
    record it returns [False] and changes nothing.  For a record of the
    service it returns [True] and marks the record ["stopped"], whatever
    becomes of the task: a task that is running or pending is cancelled
    when the store can be read, that is on a mapping that configures;
    otherwise (on the declared mapping, for a task that is absent or in
    another status, or for the task id 0) the table of the tasks is as
    before. *)
Theorem stop_execution_outcome models execution_id w :
  match active_executions w !! execution_id with
  | None =>
      ExecutionService.stop_execution models execution_id w = (Ok false, w)
  | Some ex =>
      exists w',
        ExecutionService.stop_execution models execution_id w
        = (Ok true, w') /\
        active_executions w'
        = <[execution_id := ExecutionService.set_status "stopped" ex]>
            (active_executions w) /\
        match tasks w !! ex_task_id ex with
        | Some task =>
            if configures models
               && fits_integer (ex_task_id ex)
               && bool_decide (ex_task_id ex <> 0)
               && bool_decide (Task.status task ∈ [RUNNING; PENDING])
            then Task.status <$> (tasks w' !! ex_task_id ex) = Some CANCELLED
            else tasks w' = tasks w
        | None => tasks w' = tasks w
        end
  end.
Proof.
  destruct (active_executions w !! execution_id) as [ex |] eqn:Hex.
  - rewrite (stop_execution_found models execution_id w ex Hex). cbv zeta.
    set (w0 := set_active_executions _ w).
    eexists. split; [reflexivity |].
    destruct (bool_decide (ex_task_id ex = 0)) eqn:Hzero.
    + split; [reflexivity |].
      apply bool_decide_eq_true_1 in Hzero.
      rewrite (bool_decide_eq_false_2 (ex_task_id ex <> 0)) by tauto.
      rewrite andb_false_r.
      destruct (tasks w !! ex_task_id ex); reflexivity.
    + apply bool_decide_eq_false_1 in Hzero.
      rewrite (bool_decide_eq_true_2 (ex_task_id ex <> 0)) by exact Hzero.
      rewrite andb_true_r.
      destruct (configures models) eqn:Hm.
      2:{ rewrite stop_task_unmapped by exact Hm. cbn [andb].
          split; [reflexivity |].
          destruct (tasks w !! ex_task_id ex); reflexivity. }
      destruct (fits_integer (ex_task_id ex)) eqn:Hz.
      2:{ rewrite stop_task_overflow by exact Hz. cbn [andb].
          split; [reflexivity |].
          destruct (tasks w !! ex_task_id ex); reflexivity. }
      cbn [andb].
      destruct (tasks w !! ex_task_id ex) as [task |] eqn:Htask.
      * destruct (bool_decide (Task.status task ∈ [RUNNING; PENDING]))
          eqn:Hstatus.
        -- apply bool_decide_eq_true_1 in Hstatus.
           rewrite !elem_of_cons, elem_of_nil in Hstatus.
           destruct (stop_task_cancels models (ex_task_id ex) w0 task Hm Hz
                       Htask)
             as (task' & Hstop & Hcancelled & _); [tauto |].
           rewrite Hstop. cbn [snd].
           split; [reflexivity |].
           cbn [tasks set_tasks]. rewrite lookup_insert_eq. cbn.
           rewrite Hcancelled. reflexivity.
        -- apply bool_decide_eq_false_1 in Hstatus.
           rewrite !elem_of_cons, elem_of_nil in Hstatus.
           rewrite (stop_task_refuses models (ex_task_id ex) w0).
           ++ split; reflexivity.
           ++ right. exists task. split; [exact Htask |]. tauto.
      * rewrite (stop_task_refuses models (ex_task_id ex) w0)
          by (left; exact Htask).
        split; reflexivity.
  - unfold ExecutionService.stop_execution. apply try_except_ok.
    erewrite bind_ok by reflexivity. rewrite Hex. reflexivity.
Qed.

(** One pass of the loop for a task that is cancelled already. *)
Lemma iteration_already_cancelled models lib stops task_id execution_id
  session_id i step w ex t :
  configures models = true -> fits_integer task_id = true ->
  active_executions w !! execution_id = Some ex ->
  tasks w !! task_id = Some t ->
  Task.status t = CANCELLED ->
  iteration models lib stops task_id execution_id session_id i step w
  = (Ok ExecutionService.Stopped,
     set_active_executions
       (insert execution_id
          (ExecutionService.set_current_step (Z.of_nat i + 1) ex)) w).
Proof.
  intros Hm Hz Hex Hrow Hstatus. unfold iteration.
  erewrite bind_ok by (apply update_execution_found; exact Hex).
  set (w0 := set_active_executions _ w).
  assert (Hserved : ExecutionService.served_meanwhile models stops task_id i w0
                    = (Ok tt, w0)).
  { unfold ExecutionService.served_meanwhile.
    destruct (stops i); [| reflexivity].
    erewrite bind_ok; [reflexivity |].
    apply stop_task_refuses. right. exists t.
    split; [exact Hrow |]. rewrite Hstatus. split; discriminate. }
  erewrite bind_ok by exact Hserved.
  apply try_except_ok.
  erewrite bind_ok by (apply get_task_mapped; assumption).
  change (tasks w0) with (tasks w). rewrite Hrow. cbn [attr].
  erewrite bind_ok by reflexivity.
  rewrite Hstatus, bool_decide_eq_true_2 by reflexivity. reflexivity.
Qed.

(** [X24].  [stop_execution], called on the service that runs a running
    task, and the loop of the run over the remaining steps.  On a mapping
    that configures, the task is cancelled and the loop ends at its next
    status check: it returns the counters as they are, gives no step to
    the executor and appends nothing to the trace.  On the declared
    mapping the call returns true although the task is not cancelled, and
    the loop does not end: it gives no step to the executor, and logs and
    counts every remaining step as failed. *)
Theorem stop_execution_ends_loop models lib stops execution_id session_id i
  step rest success_count failed_count w ex task :
  active_executions w !! execution_id = Some ex ->
  ex_task_id ex <> 0 ->
  tasks w !! ex_task_id ex = Some task ->
  Task.status task = RUNNING ->
  fits_integer (ex_task_id ex) = true ->
  exists w1 w2 counts,
    ExecutionService.stop_execution models execution_id w = (Ok true, w1) /\
    ExecutionService.run_steps models lib stops (ex_task_id ex) execution_id
      session_id i (step :: rest) success_count failed_count w1
    = (Ok counts, w2) /\
    if configures models
    then counts = (success_count, failed_count) /\
         trace w2 = trace w1 /\
         Task.status <$> (tasks w2 !! ex_task_id ex) = Some CANCELLED
    else counts
         = (success_count,
            failed_count + Z.of_nat (length (step :: rest))) /\
         tasks w2 = tasks w /\
         trace w2
         = (trace w1 ++ map (unread_row (ex_task_id ex)) (step :: rest))%list.
Proof.
  intros Hex Hid Htask Hrunning Hz.
  rewrite (stop_execution_found models execution_id w ex Hex). cbv zeta.
  rewrite (bool_decide_eq_false_2 _ Hid).
  set (w0 := set_active_executions _ w).
  assert (Hex0 : active_executions w0 !! execution_id
                 = Some (ExecutionService.set_status "stopped" ex))
    by (cbn; apply lookup_insert_eq).
  destruct (configures models) eqn:Hm.
  - destruct (stop_task_cancels models (ex_task_id ex) w0 task Hm Hz Htask)
      as (task' & Hstop & Hcancelled & _); [left; exact Hrunning |].
    rewrite Hstop. cbn [snd].
    set (w1 := set_tasks _ w0).
    assert (Hrow1 : tasks w1 !! ex_task_id ex = Some task')
      by (cbn; apply lookup_insert_eq).
    eexists w1, _, _. split; [reflexivity |]. split.
    { rewrite run_steps_cons.
      rewrite (iteration_already_cancelled models lib stops (ex_task_id ex)
                 execution_id session_id i step w1 _ task' Hm Hz Hex0 Hrow1
                 Hcancelled).
      reflexivity. }
    split; [reflexivity |]. split; [reflexivity |].
    cbn [tasks set_active_executions]. rewrite Hrow1. cbn.
    rewrite Hcancelled. reflexivity.
  - rewrite stop_task_unmapped by exact Hm. cbn [snd].
    destruct (run_steps_unmapped models lib stops (ex_task_id ex)
                execution_id session_id (step :: rest) Hm i success_count
                failed_count w0 _ Hex0)
      as (w2 & Hrun & Ht & _ & _ & _ & Htr).
    exists w0, w2, (success_count,
                    failed_count + Z.of_nat (length (step :: rest))).
    split; [reflexivity |]. split; [exact Hrun |].
    split; [reflexivity |]. split; [exact Ht | exact Htr].
Qed.

Lemma stop_execution_ends_loop_witness :
  let w := world_in_loop [wait_step 1 0; click_step] in
  (exists w1 w2 counts,
     ExecutionService.stop_execution Base_with_foreign_key "exec_1_0" w
     = (Ok true, w1) /\
     ExecutionService.run_steps Base_with_foreign_key lib_ok never_stopped 1
       "exec_1_0" "sess-1" 0 [wait_step 1 0; click_step] 0 0 w1
     = (Ok counts, w2) /\
     counts = (0, 0) /\
     trace w2 = trace w1 /\
     Task.status <$> (tasks w2 !! 1) = Some CANCELLED) /\
  (exists w1 w2 counts,
     ExecutionService.stop_execution Base "exec_1_0" w = (Ok true, w1) /\
     ExecutionService.run_steps Base lib_ok never_stopped 1
       "exec_1_0" "sess-1" 0 [wait_step 1 0; click_step] 0 0 w1
     = (Ok counts, w2) /\
     counts = (0, 0 + Z.of_nat 2) /\
     tasks w2 = tasks w /\
     trace w2
     = (trace w1 ++ map (unread_row 1) [wait_step 1 0; click_step])%list).
Proof.
  cbv zeta. split.
  - apply (stop_execution_ends_loop Base_with_foreign_key lib_ok
             never_stopped "exec_1_0" "sess-1" 0 (wait_step 1 0) [click_step]
             0 0 (world_in_loop [wait_step 1 0; click_step])
             (mkExecution 1 "running" 0 0 2) (task1 RUNNING));
      first [reflexivity | cbn; discriminate].
  - apply (stop_execution_ends_loop Base lib_ok
             never_stopped "exec_1_0" "sess-1" 0 (wait_step 1 0) [click_step]
             0 0 (world_in_loop [wait_step 1 0; click_step])
             (mkExecution 1 "running" 0 0 2) (task1 RUNNING));
      first [reflexivity | cbn; discriminate].
Defined.

(** ** The table of the steps *)

Lemma insert_by_order_perm s l : insert_by_order s l ≡ₚ s :: l.
Proof.
  induction l as [| x l IH]; cbn [insert_by_order]; [reflexivity |].
  destruct (_ <=? _); [reflexivity |].
  rewrite IH. apply Permutation_swap.
Qed.

Lemma steps_by_order_perm task_id rows :
  steps_by_order task_id rows ≡ₚ steps_of_task task_id rows.
Proof.
  unfold steps_by_order.
  induction (steps_of_task task_id rows) as [| x l IH]; cbn [foldr];
    [reflexivity |].
  rewrite insert_by_order_perm, IH. reflexivity.
Qed.

Lemma forallb_insert_by_order (P : AutomationStep.t -> bool) s l :
  forallb P (insert_by_order s l) = P s && forallb P l.
Proof.
  induction l as [| x l IH]; cbn [insert_by_order]; [reflexivity |].
  destruct (_ <=? _); [reflexivity |].
  cbn [forallb]. rewrite IH.
  destruct (P s), (P x); reflexivity.
Qed.

Lemma insert_by_order_ascending s l :
  ascending l = true -> ascending (insert_by_order s l) = true.
Proof.
  induction l as [| x l IH]; cbn [insert_by_order]; [reflexivity |].
  intros Hl. pose proof Hl as Hl'. cbn [ascending] in Hl'.
  apply andb_true_iff in Hl' as [Hx Hrest].
  destruct (AutomationStep.step_order s <=? AutomationStep.step_order x)
    eqn:Hsx.
  - change (ascending (s :: x :: l))
      with (forallb (fun y => AutomationStep.step_order s
                              <=? AutomationStep.step_order y) (x :: l)
            && ascending (x :: l)).
    rewrite Hl, andb_true_r. cbn [forallb]. rewrite Hsx. cbn [andb].
    apply forallb_forall. intros y Hy.
    rewrite forallb_forall in Hx. specialize (Hx y Hy).
    apply Z.leb_le in Hsx, Hx. apply Z.leb_le. lia.
  - cbn [ascending]. rewrite forallb_insert_by_order, Hx, (IH Hrest).
    rewrite !andb_true_r. apply Z.leb_gt in Hsx. apply Z.leb_le. lia.
Qed.

Lemma steps_by_order_ascending task_id rows :
  ascending (steps_by_order task_id rows) = true.
Proof.
  unfold steps_by_order.
  induction (steps_of_task task_id rows) as [| x l IH]; cbn [foldr];
    [reflexivity |].
  apply insert_by_order_ascending, IH.
Qed.

Lemma insert_by_order_snoc s l step :
  AutomationStep.step_order s <= AutomationStep.step_order step ->
  insert_by_order s (l ++ [step]) = (insert_by_order s l ++ [step])%list.
Proof.
  intros Hle. induction l as [| x l IH]; cbn [app insert_by_order].
  - apply Z.leb_le in Hle. rewrite Hle. reflexivity.
  - destruct (_ <=? _); [reflexivity |]. rewrite IH. reflexivity.
Qed.

Lemma foldr_insert_by_order_snoc l step :
  (forall s, s ∈ l ->
             AutomationStep.step_order s <= AutomationStep.step_order step) ->
  foldr insert_by_order [] (l ++ [step])
  = (foldr insert_by_order [] l ++ [step])%list.
Proof.
  induction l as [| x l IH]; intros Hle; cbn [app foldr]; [reflexivity |].
  rewrite IH by (intros s Hs; apply Hle; right; exact Hs).
  apply insert_by_order_snoc, Hle. left.
Qed.

Lemma steps_of_task_snoc task_id rows step :
  AutomationStep.task_id step = task_id ->
  steps_of_task task_id (rows ++ [step])
  = (steps_of_task task_id rows ++ [step])%list.
Proof.
  intros Hid. unfold steps_of_task. rewrite filter_app.
  rewrite filter_cons_True by exact Hid. reflexivity.
Qed.

(** [X26].  A step created with a negative order is appended: when every
    step of the task has an order below the number of its steps and the
    store takes the request, the new step comes last in
    [get_steps_by_task], after the steps there were in their order.  When
    the store does not take the request, as on the declared mapping,
    [create_step] raises and the table is as it was. *)
Theorem create_step_negative_order_comes_last models step_data w :
  c_step_order step_data < 0 ->
  (forall s,
     s ∈ steps_of_task (c_task_id step_data) (automation_steps w) ->
     AutomationStep.step_order s
     < Z.of_nat (length (steps_of_task (c_task_id step_data)
                           (automation_steps w)))) ->
  if storable models step_data (automation_steps w)
  then exists step w',
      AutomationService.create_step models step_data w = (Ok step, w') /\
      AutomationService.get_steps_by_task models (c_task_id step_data) w'
      = (Ok (steps_by_order (c_task_id step_data) (automation_steps w)
             ++ [step])%list, w')
  else exists e,
      AutomationService.create_step models step_data w = (Raise e, w).
Proof.
  intros Hneg Hbelow.
  destruct (storable models step_data (automation_steps w)) eqn:Hst;
    [| apply create_step_refused, Hst].
  rewrite (create_step_stored models step_data w Hst). cbv zeta.
  unfold storable in Hst. rewrite !andb_true_iff in Hst.
  destruct Hst as [[[[Hm Htask] _] _] _].
  eexists _, _. split; [reflexivity |].
  unfold AutomationService.get_steps_by_task.
  rewrite query_bind_mapped by assumption.
  erewrite bind_ok by reflexivity. unfold mret, M_ret. f_equal. f_equal.
  cbn [automation_steps set_automation_steps].
  unfold steps_by_order.
  rewrite steps_of_task_snoc by reflexivity.
  apply foldr_insert_by_order_snoc.
  intros s Hs. specialize (Hbelow s Hs). cbn [AutomationStep.step_order].
  unfold claimed_order. apply Z.ltb_lt in Hneg. rewrite Hneg. lia.
Qed.

Lemma create_step_negative_order_comes_last_witness :
  (exists step w',
     AutomationService.create_step Base_with_foreign_key append_request
       (world_of PENDING [wait_step 1 0; click_step]) = (Ok step, w') /\
     AutomationService.get_steps_by_task Base_with_foreign_key 1 w'
     = (Ok (steps_by_order 1 [wait_step 1 0; click_step] ++ [step])%list,
        w')) /\
  (exists e,
     AutomationService.create_step Base append_request
       (world_of PENDING [wait_step 1 0; click_step])
     = (Raise e, world_of PENDING [wait_step 1 0; click_step])).
Proof.
  assert (Hbelow : forall s,
            s ∈ steps_of_task (c_task_id append_request)
                  (automation_steps
                     (world_of PENDING [wait_step 1 0; click_step])) ->
            AutomationStep.step_order s
            < Z.of_nat (length (steps_of_task (c_task_id append_request)
                                  (automation_steps
                                     (world_of PENDING
                                        [wait_step 1 0; click_step]))))).
  { intros s Hs. apply list_elem_of_filter in Hs as [_ Hs].
    cbn [automation_steps world_of] in Hs.
    rewrite !elem_of_cons, elem_of_nil in Hs.
    destruct Hs as [-> | [-> | []]]; vm_compute; reflexivity. }
  split.
  - apply (create_step_negative_order_comes_last Base_with_foreign_key
             append_request (world_of PENDING [wait_step 1 0; click_step]));
      [reflexivity | exact Hbelow].
  - apply (create_step_negative_order_comes_last Base
             append_request (world_of PENDING [wait_step 1 0; click_step]));
      [reflexivity | exact Hbelow].
Defined.

Lemma ascending_last l :
  ascending l = true ->
  forall x y, x ∈ l -> last l = Some y ->
              AutomationStep.step_order x <= AutomationStep.step_order y.
Proof.
  induction l as [| a l IH]; intros Hl x y Hx Hlast.
  - apply elem_of_nil in Hx as [].
  - cbn [ascending] in Hl. apply andb_true_iff in Hl as [Ha Hrest].
    destruct l as [| b l'].
    + cbn in Hlast. injection Hlast as <-.
      apply elem_of_cons in Hx as [-> | Hx]; [lia |].
      apply elem_of_nil in Hx as [].
    + rewrite last_cons_cons in Hlast.
      apply elem_of_cons in Hx as [-> | Hx].
      * rewrite forallb_forall in Ha. apply Z.leb_le, Ha.
        apply list_elem_of_In. apply last_Some_elem_of. exact Hlast.
      * apply (IH Hrest x y Hx Hlast).
Qed.

(** [X27].  A negative order does not always append: when some step of
    the task has an order above the number of its steps and the store
    takes the request, the new step is not the last one of
    [get_steps_by_task].  When the store does not take the request, as on
    the declared mapping, [create_step] raises and the table is as it
    was. *)
Theorem create_step_negative_order_not_last models step_data w s :
  c_step_order step_data < 0 ->
  s ∈ steps_of_task (c_task_id step_data) (automation_steps w) ->
  Z.of_nat (length (steps_of_task (c_task_id step_data) (automation_steps w)))
  < AutomationStep.step_order s ->
  if storable models step_data (automation_steps w)
  then exists step w' steps,
      AutomationService.create_step models step_data w = (Ok step, w') /\
      AutomationService.get_steps_by_task models (c_task_id step_data) w'
      = (Ok steps, w') /\
      step ∈ steps /\
      last steps <> Some step
  else exists e,
      AutomationService.create_step models step_data w = (Raise e, w).
Proof.
  intros Hneg Hs Habove.
  destruct (storable models step_data (automation_steps w)) eqn:Hst;
    [| apply create_step_refused, Hst].
  rewrite (create_step_stored models step_data w Hst). cbv zeta.
  unfold storable in Hst. rewrite !andb_true_iff in Hst.
  destruct Hst as [[[[Hm Htask] _] _] _].
  assert (Horder : claimed_order step_data (automation_steps w)
                   = Z.of_nat (length (steps_of_task (c_task_id step_data)
                                         (automation_steps w))))
    by (unfold claimed_order; apply Z.ltb_lt in Hneg; rewrite Hneg;
        reflexivity).
  rewrite Horder.
  eexists _, _, _. split; [reflexivity |].
  split.
  { unfold AutomationService.get_steps_by_task.
    rewrite query_bind_mapped by assumption.
    erewrite bind_ok by reflexivity. reflexivity. }
  cbn [automation_steps set_automation_steps].
  split.
  - rewrite steps_by_order_perm, steps_of_task_snoc by reflexivity.
    apply elem_of_app. right. left.
  - intros Hlast.
    match type of Hlast with
    | last (steps_by_order _ ?rows) = _ =>
        assert (Hin : s ∈ steps_by_order (c_task_id step_data) rows)
    end.
    { rewrite steps_by_order_perm, steps_of_task_snoc by reflexivity.
      apply elem_of_app. left. exact Hs. }
    pose proof (ascending_last _ (steps_by_order_ascending _ _) _ _
                  Hin Hlast) as Hle.
    cbn [AutomationStep.step_order] in Hle. lia.
Qed.

Lemma create_step_negative_order_not_last_witness :
  (exists step w' steps,
     AutomationService.create_step Base_with_foreign_key append_request
       world_sparse_orders
     = (Ok step, w') /\
     AutomationService.get_steps_by_task Base_with_foreign_key 1 w'
     = (Ok steps, w') /\
     step ∈ steps /\
     last steps <> Some step) /\
  (exists e,
     AutomationService.create_step Base append_request world_sparse_orders
     = (Raise e, world_sparse_orders)).
Proof.
  split.
  - apply (create_step_negative_order_not_last Base_with_foreign_key
             append_request world_sparse_orders
             (AutomationStep.mk 1 1 "first" 5 SCREENSHOT None None None None
                0 30)).
    + reflexivity.
    + vm_compute. left.
    + vm_compute; reflexivity.
  - apply (create_step_negative_order_not_last Base
             append_request world_sparse_orders
             (AutomationStep.mk 1 1 "first" 5 SCREENSHOT None None None None
                0 30)).
    + reflexivity.
    + vm_compute. left.
    + vm_compute; reflexivity.
Defined.

Lemma find_step_none step_id rows :
  step_id ∉ map AutomationStep.id rows ->
  find (fun s => bool_decide (AutomationStep.id s = step_id)) rows = None.
Proof.
  induction rows as [| r rows IH]; intros Hout; cbn [find]; [reflexivity |].
  cbn [map] in Hout. apply not_elem_of_cons in Hout as [Hr Hrows].
  rewrite bool_decide_eq_false_2 by congruence. apply IH, Hrows.
Qed.

Lemma find_step_some step_id rows :
  step_id ∈ map AutomationStep.id rows ->
  exists s, find (fun s => bool_decide (AutomationStep.id s = step_id)) rows
            = Some s.
Proof.
  induction rows as [| r rows IH]; intros Hin; cbn [map] in Hin.
  - apply elem_of_nil in Hin as [].
  - cbn [find]. destruct (bool_decide (AutomationStep.id r = step_id)) eqn:Hr;
      [eauto |].
    apply bool_decide_eq_false_1 in Hr.
    apply elem_of_cons in Hin as [Hin | Hin]; [congruence | apply IH, Hin].
Qed.

Lemma without_step_absent step_id rows :
  step_id ∉ map AutomationStep.id rows -> without_step step_id rows = rows.
Proof.
  unfold without_step.
  induction rows as [| r rows IH]; intros Hout; [reflexivity |].
  cbn [map] in Hout. apply not_elem_of_cons in Hout as [Hr Hrows].
  rewrite filter_cons_True by congruence. rewrite IH by exact Hrows.
  reflexivity.
Qed.

Lemma delete_row_without step_id rows :
  distinct_keys rows ->
  AutomationService.delete_row step_id rows = without_step step_id rows.
Proof.
  unfold distinct_keys, without_step.
  induction rows as [| r rows IH]; intros Hkeys; [reflexivity |].
  cbn [map] in Hkeys. apply NoDup_cons in Hkeys as [Hr Hrows].
  cbn [AutomationService.delete_row].
  destruct (bool_decide (AutomationStep.id r = step_id)) eqn:Hid.
  - apply bool_decide_eq_true_1 in Hid. subst step_id.
    rewrite filter_cons_False by (intros H; apply H; reflexivity).
    symmetry. apply without_step_absent, Hr.
  - apply bool_decide_eq_false_1 in Hid.
    rewrite filter_cons_True by exact Hid. rewrite IH by exact Hrows.
    reflexivity.
Qed.

Lemma insert_by_order_head x l :
  (forall y, y ∈ l ->
             AutomationStep.step_order x <= AutomationStep.step_order y) ->
  insert_by_order x l = x :: l.
Proof.
  destruct l as [| y l]; intros Hle; cbn [insert_by_order]; [reflexivity |].
  rewrite (proj2 (Z.leb_le _ _)) by (apply Hle; left). reflexivity.
Qed.

Lemma insert_by_order_filter (P : AutomationStep.t -> Prop)
  `{!forall s, Decision (P s)} x l :
  ascending l = true ->
  filter P (insert_by_order x l)
  = if decide (P x) then insert_by_order x (filter P l) else filter P l.
Proof.
  induction l as [| y l IH]; intros Hasc.
  - cbn [insert_by_order]. rewrite filter_cons, filter_nil.
    destruct (decide (P x)); reflexivity.
  - cbn [ascending] in Hasc. apply andb_true_iff in Hasc as [Hy Hrest].
    rewrite forallb_forall in Hy. cbn [insert_by_order].
    destruct (AutomationStep.step_order x <=? AutomationStep.step_order y)
      eqn:Hxy.
    + rewrite (filter_cons P x). destruct (decide (P x)) as [Hx | Hx];
        [| reflexivity].
      symmetry. apply insert_by_order_head.
      intros z Hz. apply list_elem_of_filter in Hz as [_ Hz].
      apply Z.leb_le in Hxy.
      apply elem_of_cons in Hz as [-> | Hz]; [exact Hxy |].
      apply list_elem_of_In, Hy, Z.leb_le in Hz. lia.
    + rewrite (filter_cons P y (insert_by_order x l)), (IH Hrest).
      rewrite (filter_cons P y l).
      destruct (decide (P x)), (decide (P y)); try reflexivity.
      cbn [insert_by_order]. rewrite Hxy. reflexivity.
Qed.

Lemma steps_by_order_filter (P : AutomationStep.t -> Prop)
  `{!forall s, Decision (P s)} task_id rows :
  steps_by_order task_id (filter P rows)
  = filter P (steps_by_order task_id rows).
Proof.
  unfold steps_by_order, steps_of_task.
  replace (filter (fun s => AutomationStep.task_id s = task_id)
             (filter P rows))
    with (filter P (filter (fun s => AutomationStep.task_id s = task_id) rows));
    cycle 1.
  { induction rows as [| r rows IHr]; [reflexivity |].
    rewrite (filter_cons _ r rows), (filter_cons P r rows).
    destruct (decide (AutomationStep.task_id r = task_id)) as [Ht | Ht],
      (decide (P r)) as [Hp | Hp].
    - rewrite filter_cons_True by exact Hp.
      rewrite filter_cons_True by exact Ht. rewrite IHr. reflexivity.
    - rewrite filter_cons_False by exact Hp. exact IHr.
    - rewrite filter_cons_False by exact Ht. exact IHr.
    - exact IHr. }
  induction (filter (fun s => AutomationStep.task_id s = task_id) rows)
    as [| x l IH]; [reflexivity |].
  cbn [foldr]. rewrite insert_by_order_filter.
  - rewrite filter_cons. destruct (decide (P x)); cbn [foldr]; rewrite IH;
      reflexivity.
  - clear IH. induction l as [| y l IHl]; cbn [foldr]; [reflexivity |].
    apply insert_by_order_ascending, IHl.
Qed.

Lemma delete_step_eq models step_id w :
  configures models = true -> fits_integer step_id = true ->
  AutomationService.delete_step models step_id w
  = if bool_decide (step_id ∈ map AutomationStep.id (automation_steps w))
    then (Ok true,
          set_automation_steps (AutomationService.delete_row step_id) w)
    else (Ok false, w).
Proof.
  intros Hm Hz. unfold AutomationService.delete_step.
  rewrite query_bind_mapped by assumption.
  erewrite bind_ok by reflexivity.
  destruct (bool_decide (step_id ∈ map AutomationStep.id (automation_steps w)))
    eqn:Hin.
  - apply bool_decide_eq_true_1, find_step_some in Hin as [s ->].
    reflexivity.
  - apply bool_decide_eq_false_1, find_step_none in Hin as ->. reflexivity.
Qed.

(** [X28].  [delete_step], the keys of the rows being distinct.  On a
    mapping that configures, it returns whether a row has the key, and
    afterwards the table holds the other rows, in the order they had;
    [get_steps_by_task] then returns what it returned before, without
    that step, and the orders of the remaining steps are not renumbered.
    On the declared mapping it raises the error of the mapping, and
    nothing is deleted. *)
Theorem delete_step_removes models step_id w :
  distinct_keys (automation_steps w) ->
  fits_integer step_id = true ->
  if configures models
  then exists w',
      AutomationService.delete_step models step_id w
      = (Ok (bool_decide
               (step_id ∈ map AutomationStep.id (automation_steps w))),
         w') /\
      automation_steps w' = without_step step_id (automation_steps w) /\
      tasks w' = tasks w /\
      trace w' = trace w /\
      forall task_id,
        fits_integer task_id = true ->
        AutomationService.get_steps_by_task models task_id w'
        = (Ok (without_step step_id
                 (steps_by_order task_id (automation_steps w))), w')
  else AutomationService.delete_step models step_id w
       = (Raise mapper_error, w).
Proof.
  intros Hkeys Hz.
  destruct (configures models) eqn:Hm;
    [| apply query_bind_unmapped, Hm].
  rewrite delete_step_eq by assumption.
  assert (Hsteps : forall w',
            automation_steps w' = without_step step_id (automation_steps w) ->
            forall task_id,
              fits_integer task_id = true ->
              AutomationService.get_steps_by_task models task_id w'
              = (Ok (without_step step_id
                       (steps_by_order task_id (automation_steps w))), w')).
  { intros w' Hrows task_id Htask.
    unfold AutomationService.get_steps_by_task.
    rewrite query_bind_mapped by assumption.
    erewrite bind_ok by reflexivity. rewrite Hrows.
    unfold without_step. rewrite steps_by_order_filter. reflexivity. }
  destruct (bool_decide (step_id ∈ map AutomationStep.id (automation_steps w)))
    eqn:Hin.
  - eexists. split; [reflexivity |].
    assert (Hrows : automation_steps
                      (set_automation_steps
                         (AutomationService.delete_row step_id) w)
                    = without_step step_id (automation_steps w))
      by (cbn [automation_steps set_automation_steps];
          apply delete_row_without, Hkeys).
    split; [exact Hrows |]. split; [reflexivity |]. split; [reflexivity |].
    apply Hsteps, Hrows.
  - apply bool_decide_eq_false_1 in Hin.
    exists w. split; [reflexivity |].
    assert (Hrows : automation_steps w
                    = without_step step_id (automation_steps w))
      by (symmetry; apply without_step_absent, Hin).
    split; [exact Hrows |]. split; [reflexivity |]. split; [reflexivity |].
    apply Hsteps, Hrows.
Qed.

Lemma delete_step_removes_witness :
  (exists w',
     AutomationService.delete_step Base_with_foreign_key 1 world_to_preview
     = (Ok (bool_decide
              (1 ∈ map AutomationStep.id (automation_steps world_to_preview))),
        w') /\
     automation_steps w' = without_step 1 (automation_steps world_to_preview) /\
     tasks w' = tasks world_to_preview /\
     trace w' = trace world_to_preview /\
     forall task_id,
       fits_integer task_id = true ->
       AutomationService.get_steps_by_task Base_with_foreign_key task_id w'
       = (Ok (without_step 1
                (steps_by_order task_id (automation_steps world_to_preview))),
          w')) /\
  AutomationService.delete_step Base 1 world_to_preview
  = (Raise mapper_error, world_to_preview).
Proof.
  assert (Hkeys : distinct_keys (automation_steps world_to_preview)).
  { unfold distinct_keys. cbn.
    repeat constructor; rewrite ?elem_of_cons, ?elem_of_nil;
      intros H; repeat destruct H as [H | H]; try discriminate; exact H. }
  split.
  - apply (delete_step_removes Base_with_foreign_key 1 world_to_preview);
      [exact Hkeys | reflexivity].
  - apply (delete_step_removes Base 1 world_to_preview);
      [exact Hkeys | reflexivity].
Defined.

(** ** The step a status request reports *)

Lemma sorted_perm l : foldr insert_by_order [] l ≡ₚ l.
Proof.
  induction l as [| x l IH]; cbn [foldr]; [reflexivity |].
  rewrite insert_by_order_perm, IH. reflexivity.
Qed.

Lemma sorted_ascending l : ascending (foldr insert_by_order [] l) = true.
Proof.
  induction l as [| x l IH]; cbn [foldr]; [reflexivity |].
  apply insert_by_order_ascending, IH.
Qed.

Lemma ascending_head l :
  ascending l = true ->
  forall x y, head l = Some x -> y ∈ l ->
              AutomationStep.step_order x <= AutomationStep.step_order y.
Proof.
  destruct l as [| a l]; intros Hl x y Hhead Hy; [discriminate |].
  cbn in Hhead. injection Hhead as ->.
  cbn [ascending] in Hl. apply andb_true_iff in Hl as [Ha _].
  apply elem_of_cons in Hy as [-> | Hy]; [lia |].
  rewrite forallb_forall in Ha. apply Z.leb_le, Ha, list_elem_of_In, Hy.
Qed.

Global Instance same_tables_preorder : PreOrder same_tables.
Proof.
  split.
  - intros w. split; reflexivity.
  - intros w1 w2 w3 [A1 A2] [B1 B2]. split; congruence.
Qed.

Lemma tables_modify (f : World -> World) :
  (forall w, same_tables w (f w)) -> preserves same_tables (modify f).
Proof. intros Hf w. apply Hf. Qed.

Lemma tables_of_frame {A} (m : M A) :
  preserves only_trace_grows m -> preserves same_tables m.
Proof. intros H w. destruct (H w) as (H1 & H2 & _). split; assumption. Qed.

#[local] Hint Resolve same_tables_preorder : preservation.

Ltac tables_leaf := apply tables_modify; intros ?; split; reflexivity.

Lemma tables_run_steps models lib stops task_id execution_id session_id
  steps :
  (forall i, stops i = false) ->
  forall i success_count failed_count,
    preserves same_tables
      (ExecutionService.run_steps models lib stops task_id execution_id
         session_id i steps success_count failed_count).
Proof.
  intros Hstops.
  induction steps as [| step rest IH]; intros i sc fc;
    cbn [ExecutionService.run_steps];
    unfold ExecutionService.update_execution,
      ExecutionService.served_meanwhile, TaskService.get_task,
      AutomationService._log_execution;
    rewrite ?Hstops;
    repeat first [apply IH
                 | apply tables_of_frame, frame_execute_step
                 | preserves_step | tables_leaf].
Qed.

Lemma get_current_step_eq models task_id w :
  configures models = true -> fits_integer task_id = true ->
  get_current_step models task_id w
  = (Ok match tasks w !! task_id with
        | None => None
        | Some task =>
            if bool_decide (Task.status task = RUNNING)
            then Some match head (foldr insert_by_order []
                                    (candidate_steps task_id
                                       (automation_steps w))) with
                      | Some s => AutomationStep.step_name s
                      | None => "准备执行"
                      end
            else None
        end, w).
Proof.
  intros Hm Hz. unfold get_current_step. apply try_except_ok.
  rewrite query_bind_mapped by assumption.
  erewrite bind_ok by reflexivity.
  destruct (tasks w !! task_id) as [task |]; [| reflexivity].
  destruct (bool_decide (Task.status task = RUNNING)); [| reflexivity].
  rewrite query_bind_mapped by assumption. reflexivity.
Qed.

Lemma get_current_step_unmapped models task_id w :
  configures models = false ->
  get_current_step models task_id w = (Ok None, w).
Proof.
  intros Hm. unfold get_current_step.
  erewrite try_except_raise by (apply query_bind_unmapped, Hm). reflexivity.
Qed.

(** [X30].  The step a status request reports does not follow the run.
    On a mapping that configures, [get_current_step] names for a running
    task a step of the least non-negative order (["准备执行"] when the
    task has no such step), and it names the same step after the loop of
    the run has been through any number of steps, as long as no stop
    request is served.  On the declared mapping it reports no step at
    all, before the loop and after it. *)
Theorem get_current_step_is_first_step models lib stops task_id execution_id
  session_id i steps success_count failed_count w task :
  tasks w !! task_id = Some task ->
  Task.status task = RUNNING ->
  (forall i, stops i = false) ->
  fits_integer task_id = true ->
  let after :=
    snd (ExecutionService.run_steps models lib stops task_id execution_id
           session_id i steps success_count failed_count w) in
  if configures models
  then exists name,
      get_current_step models task_id w = (Ok (Some name), w) /\
      (candidate_steps task_id (automation_steps w) = [] /\ name = "准备执行"
       \/ exists s,
            s ∈ candidate_steps task_id (automation_steps w) /\
            name = AutomationStep.step_name s /\
            forall s', s' ∈ candidate_steps task_id (automation_steps w) ->
                       AutomationStep.step_order s
                       <= AutomationStep.step_order s') /\
      fst (get_current_step models task_id after) = Ok (Some name)
  else get_current_step models task_id w = (Ok None, w) /\
       fst (get_current_step models task_id after) = Ok None.
Proof.
  intros Htask Hrunning Hstops Hz. cbv zeta.
  destruct (configures models) eqn:Hm.
  2:{ rewrite !get_current_step_unmapped by exact Hm. split; reflexivity. }
  assert (Hfirst : forall w',
            same_tables w w' ->
            get_current_step models task_id w'
            = (Ok (Some match head (foldr insert_by_order []
                                      (candidate_steps task_id
                                         (automation_steps w))) with
                        | Some s => AutomationStep.step_name s
                        | None => "准备执行"
                        end), w')).
  { intros w' [Ht Hs]. rewrite get_current_step_eq, Ht, Hs, Htask by assumption.
    rewrite bool_decide_eq_true_2 by exact Hrunning. reflexivity. }
  eexists. split; [apply Hfirst; reflexivity |]. split.
  - pose proof (sorted_perm (candidate_steps task_id (automation_steps w)))
      as Hperm.
    pose proof (sorted_ascending
                  (candidate_steps task_id (automation_steps w))) as Hasc.
    destruct (foldr insert_by_order []
                (candidate_steps task_id (automation_steps w)))
      as [| s sorted] eqn:Hsorted.
    + left. split; [| reflexivity].
      symmetry in Hperm. apply Permutation_nil_r in Hperm. exact Hperm.
    + right. exists s. split; [rewrite <- Hperm; left |].
      split; [reflexivity |].
      intros s' Hs'. apply (ascending_head _ Hasc); [reflexivity |].
      rewrite Hperm. exact Hs'.
  - rewrite Hfirst; [reflexivity |].
    apply tables_run_steps, Hstops.
Qed.

Lemma get_current_step_is_first_step_witness :
  let w := world_in_loop [wait_step 1 0; click_step] in
  (exists name,
     get_current_step Base_with_foreign_key 1 w = (Ok (Some name), w) /\
     (candidate_steps 1 (automation_steps w) = [] /\ name = "准备执行"
      \/ exists s,
           s ∈ candidate_steps 1 (automation_steps w) /\
           name = AutomationStep.step_name s /\
           forall s',
             s' ∈ candidate_steps 1 (automation_steps w) ->
             AutomationStep.step_order s <= AutomationStep.step_order s') /\
     fst (get_current_step Base_with_foreign_key 1
            (snd (ExecutionService.run_steps Base_with_foreign_key lib_ok
                    never_stopped 1 "exec_1_0" "sess-1" 0
                    [wait_step 1 0; click_step] 0 0 w)))
     = Ok (Some name)) /\
  (get_current_step Base 1 w = (Ok None, w) /\
   fst (get_current_step Base 1
          (snd (ExecutionService.run_steps Base lib_ok never_stopped 1
                  "exec_1_0" "sess-1" 0 [wait_step 1 0; click_step] 0 0 w)))
   = Ok None).
Proof.
  cbv zeta. split.
  - apply (get_current_step_is_first_step Base_with_foreign_key lib_ok
             never_stopped 1 "exec_1_0" "sess-1" 0
             [wait_step 1 0; click_step] 0 0
             (world_in_loop [wait_step 1 0; click_step]) (task1 RUNNING));
      first [reflexivity | intros i; reflexivity].
  - apply (get_current_step_is_first_step Base lib_ok
             never_stopped 1 "exec_1_0" "sess-1" 0
             [wait_step 1 0; click_step] 0 0
             (world_in_loop [wait_step 1 0; click_step]) (task1 RUNNING));
      first [reflexivity | intros i; reflexivity].
Defined.
